(** * checkout_gen: payment-link orchestration

    A shallow embedding of the server side of the repository:

    - [src/lib/config.ts]                          (module [Config])
    - [src/lib/tilopay.ts]                         (module [Tilopay])
    - [src/lib/onvo.ts]                            (module [Onvo])
    - [src/app/api/generate/route.ts]              (module [GenerateRoute])
    - [src/app/api/tilopay/create-link/route.ts]   (module [CreateLinkRoute])

    TypeScript types are erased at run time, so every datum that comes out
    of a request body or of a provider response is a JavaScript [value].
    Asynchronous code is sequential here: an [await] is a monadic bind.  The
    monad [M] threads the list of outbound [fetch] calls made so far and
    carries thrown exceptions. *)

From Stdlib Require Import ZArith QArith Qround String Ascii DecimalString List Bool Lia.
Import ListNotations.

Local Open Scope list_scope.
Local Open Scope string_scope.

(* ================================================================== *)
(** * JavaScript values *)
(* ================================================================== *)

Module JS.

(** A JS number: a finite value (a rational here; every double is one),
    NaN, or an infinity.  The two zeros are not told apart: the program
    never divides. *)
Inductive number : Type :=
| NaN
| Infinity (negative : bool)
| Fin (q : Q).

Definition of_Z (z : Z) : number := Fin (inject_Z z).

(** What [JSON.parse] builds, plus [undefined] for an absent property. *)
#[local] Set Warnings "-register-all".
Inductive value : Type :=
| VUndefined
| VNull
| VBool (b : bool)
| VNum (n : number)
| VStr (s : string)
| VArr (items : list value)
| VObj (props : list (string * value)).

(** Exceptions.  [TilopayError] and [OnvoError] are the two classes of the
    clients, with the fields of their constructors; an omitted
    [statusCode] is [None], an omitted code is [VUndefined].  [JsError] is
    a plain [new Error(message)]; the last two are thrown by the engine. *)
Inductive exn : Type :=
| TilopayError (message : string) (statusCode : option Z) (code : value)
| OnvoError (message : string) (statusCode : option Z) (apiCode : value)
| JsError (message : string)
| TypeError (message : string)
| SyntaxError (message : string).

(** [error.message] *)
Definition Error_message (e : exn) : string :=
  match e with
  | TilopayError m _ _ => m
  | OnvoError m _ _ => m
  | JsError m => m
  | TypeError m => m
  | SyntaxError m => m
  end.

(** Built-ins whose result is fixed by the engine and not by this
    repository.  They are a parameter of the whole development. *)
Record Engine : Type := {
  (** Number::toString, as used by a template literal *)
  Number_toString : number -> string;
  (** the binary64 product [a * b] *)
  Number_mul : number -> number -> number;
  (** String.prototype.trim *)
  String_trim : string -> string;
  (** parseFloat *)
  parseFloat : string -> number;
  (** message of the TypeError for reading property [k] of null or undefined *)
  msg_read_of_nullish : value -> string -> string;
  (** message of the TypeError for calling [v.k] when it is no function *)
  msg_not_a_function : value -> string -> string;
  (** message of the SyntaxError for a body that is not JSON *)
  msg_bad_json : string -> string;
  (** message of the TypeError for an object that converts to no primitive *)
  msg_not_primitive : string
}.

(** ** Numbers *)

(** Number.isInteger on a number *)
Definition num_isInteger (n : number) : bool :=
  match n with
  | Fin q => Qeq_bool (inject_Z (Qfloor q)) q
  | _ => false
  end.

(** [n <= 0] *)
Definition num_le_zero (n : number) : bool :=
  match n with
  | NaN => false
  | Infinity negative => negative
  | Fin q => Qle_bool q 0
  end.

(** isFinite on a number *)
Definition num_isFinite (n : number) : bool :=
  match n with
  | Fin _ => true
  | _ => false
  end.

(** Math.round: the nearest integer, a tie going up. *)
Definition Math_round (n : number) : number :=
  match n with
  | Fin q => Fin (inject_Z (Qfloor (q + (1 # 2))))
  | other => other
  end.

(** ** Coercions and operators *)

(** ToBoolean: what [!v], [v && _], [v || _] and [v ? _ : _] look at. *)
Definition truthy (v : value) : bool :=
  match v with
  | VUndefined | VNull => false
  | VBool b => b
  | VNum NaN => false
  | VNum (Infinity _) => true
  | VNum (Fin q) => negb (Qeq_bool q 0)
  | VStr s => negb (String.eqb s EmptyString)
  | VArr _ | VObj _ => true
  end.

(** [v === 'literal'] *)
Definition is_str (v : value) (lit : string) : bool :=
  match v with
  | VStr s => String.eqb s lit
  | _ => false
  end.

(** [a ?? b] *)
Definition nullish_or (a b : value) : value :=
  match a with
  | VUndefined | VNull => b
  | _ => a
  end.

(** [a || b] *)
Definition or_else (a b : value) : value := if truthy a then a else b.

Fixpoint lookup (k : string) (props : list (string * value)) : value :=
  match props with
  | [] => VUndefined
  | (k', v) :: rest => if String.eqb k k' then v else lookup k rest
  end.

(** Does the object have an own property of this name? *)
Definition has_own (k : string) (props : list (string * value)) : bool :=
  existsb (fun kv => String.eqb k (fst kv)) props.

Fixpoint join_with (sep : string) (parts : list string) : string :=
  match parts with
  | [] => EmptyString
  | [s] => s
  | s :: rest => s ++ sep ++ join_with sep rest
  end.

Section WithEngine.
Variable js : Engine.

(** [v.k] for the property names this program reads ([amount], [id],
    [url], [message], ...): none of them lives on a prototype, so only
    an object can have one.  Reading from null or undefined throws. *)
Definition get (v : value) (k : string) : exn + value :=
  match v with
  | VUndefined | VNull => inl (TypeError (msg_read_of_nullish js v k))
  | VObj props => inr (lookup k props)
  | _ => inr VUndefined
  end.

(** ToString, as applied by a template literal and by [join].  For an
    object this is ToPrimitive with the hint string: [toString] is looked
    up and called, then [valueOf].  An object built by [JSON.parse] inherits
    both from Object.prototype, and the inherited [toString] gives
    "[object Object]".  An own property [toString] hides the inherited
    method, and what [JSON.parse] puts there is never callable; the
    conversion falls back on [valueOf], which gives no primitive either (an
    own one cannot be called, the inherited one returns the object), and a
    TypeError is thrown.  An array has no own property of that name: its
    [toString] is [join(',')], which converts the elements in turn. *)
Fixpoint ToString (v : value) : exn + string :=
  match v with
  | VUndefined => inr "undefined"
  | VNull => inr "null"
  | VBool true => inr "true"
  | VBool false => inr "false"
  | VNum n => inr (Number_toString js n)
  | VStr s => inr s
  | VArr items =>
      match (fix elements (l : list value) : exn + list string :=
               match l with
               | [] => inr []
               | x :: rest =>
                   match match x with
                         | VUndefined | VNull => inr EmptyString
                         | _ => ToString x
                         end with
                   | inl e => inl e
                   | inr s =>
                       match elements rest with
                       | inl e => inl e
                       | inr parts => inr (s :: parts)
                       end
                   end
               end) items with
      | inl e => inl e
      | inr parts => inr (join_with "," parts)
      end
  | VObj props =>
      if has_own "toString" props
      then inl (TypeError (msg_not_primitive js))
      else inr "[object Object]"
  end.

(** The elements of an array as [join] writes them, from left to right:
    nothing for null and undefined, ToString for the others. *)
Fixpoint join_elements (items : list value) : exn + list string :=
  match items with
  | [] => inr []
  | x :: rest =>
      match match x with
            | VUndefined | VNull => inr EmptyString
            | _ => ToString x
            end with
      | inl e => inl e
      | inr s =>
          match join_elements rest with
          | inl e => inl e
          | inr parts => inr (s :: parts)
          end
      end
  end.

(** Array.prototype.join *)
Definition Array_join (items : list value) (sep : string) : exn + string :=
  match join_elements items with
  | inl e => inl e
  | inr parts => inr (join_with sep parts)
  end.

(** [value.startsWith(prefix)] for a truthy [value]: a method of strings
    only; on anything else the call throws. *)
Definition startsWith (v : value) (p : string) : exn + bool :=
  match v with
  | VStr s => inr (String.prefix p s)
  | _ => inl (TypeError (msg_not_a_function js v "startsWith"))
  end.
End WithEngine.

(** The double quote, for the messages that quote what they received. *)
Definition dq : string := String (ascii_of_nat 34) EmptyString.

End JS.
Import JS.

(* ================================================================== *)
(** * The outside world and the monad of effects *)
(* ================================================================== *)

(** One outbound [fetch]: what is put on the wire.  [c_body] is the object
    handed to [JSON.stringify], before serialisation. *)
Record Call : Type := {
  c_method : string;
  c_url : string;
  c_authorization : string;
  c_contentType : string;
  c_body : option value
}.

(** What came back.  [r_text] is the raw body and [r_json] what it parses
    to, [None] when it is not JSON. *)
Record Response : Type := {
  r_status : Z;
  r_statusText : string;
  r_text : string;
  r_json : option value
}.

(** response.ok *)
Definition r_ok (r : Response) : bool :=
  ((200 <=? r_status r) && (r_status r <=? 299))%Z.

(** [fetch] resolves with a response or rejects with a transport error. *)
Inductive FetchResult : Type :=
| Rejected (message : string)
| Resolved (r : Response).

(** The providers: they see every call made so far and the current one. *)
Definition Server : Type := list Call -> Call -> FetchResult.

(** Everything the code reads from outside itself. *)
Record Runtime : Type := {
  js : Engine;
  env : string -> option string;   (** process.env *)
  server : Server
}.

(** A computation: from the calls made so far to a result, or a thrown
    exception, and the calls made by then. *)
Definition M (A : Type) : Type := list Call -> (exn + A) * list Call.

Definition ret {A} (a : A) : M A := fun tr => (inr a, tr).
Definition throw {A} (e : exn) : M A := fun tr => (inl e, tr).
Definition lift {A} (r : exn + A) : M A := fun tr => (r, tr).

Definition bind {A B} (m : M A) (k : A -> M B) : M B :=
  fun tr =>
    match m tr with
    | (inl e, tr') => (inl e, tr')
    | (inr a, tr') => k a tr'
    end.

(** try { m } catch (e) { h e } *)
Definition try_catch {A} (m : M A) (h : exn -> M A) : M A :=
  fun tr =>
    match m tr with
    | (inl e, tr') => h e tr'
    | (inr a, tr') => (inr a, tr')
    end.

Declare Scope js_scope.
Delimit Scope js_scope with js.
Notation "x <- m ;; k" := (bind m (fun x => k))
  (at level 61, m at next level, right associativity) : js_scope.
Notation "m ;; k" := (bind m (fun _ => k))
  (at level 61, right associativity) : js_scope.
Local Open Scope js_scope.

(** [await fetch(url, init)]: the call is recorded, the server answers. *)
Definition fetch (rt : Runtime) (c : Call) : M Response :=
  fun tr =>
    match server rt tr c with
    | Rejected msg => (inl (TypeError msg), (tr ++ [c])%list)
    | Resolved r => (inr r, (tr ++ [c])%list)
    end.

(** [response.json()] *)
Definition Response_json (rt : Runtime) (r : Response) : M value :=
  match r_json r with
  | Some v => ret v
  | None => throw (SyntaxError (msg_bad_json (js rt) (r_text r)))
  end.

(** The result and the trace of a computation started with no call made. *)
Definition run {A} (m : M A) : (exn + A) * list Call := m [].
Definition result_of {A} (m : M A) : exn + A := fst (run m).
Definition calls_of {A} (m : M A) : list Call := snd (run m).

(* ================================================================== *)
(** * src/lib/config.ts *)
(* ================================================================== *)

Module Config.
Section WithRuntime.
Variable rt : Runtime.

(** [process.env[key] || fallback] *)
Definition optionalEnv (key fallback : string) : string :=
  match env rt key with
  | Some s => if String.eqb s EmptyString then fallback else s
  | None => fallback
  end.

(** [process.env.KEY ?? ''] *)
Definition envOrEmpty (key : string) : string :=
  match env rt key with
  | Some s => s
  | None => EmptyString
  end.

Definition appConfig_baseUrl : string :=
  optionalEnv "NEXT_PUBLIC_BASE_URL" "http://localhost:3000".

Definition tilopayConfig_baseUrl : string :=
  optionalEnv "TILOPAY_BASE_URL" "https://api.tilopay.com/v1".
Definition tilopayConfig_secretKey : string :=
  envOrEmpty "TILOPAY_SECRET_KEY".

Definition onvoConfig_secretKey : string := envOrEmpty "ONVO_SECRET_KEY".
Definition onvoConfig_baseUrl : string := "https://api.onvopay.com/v1".
End WithRuntime.
End Config.

(** The argument of the four public operations.  The interfaces
    [CreatePaymentIntentParams] and [CreateSubscriptionParams] of both
    clients have these fields; the one-time operations never read
    [interval]. *)
Record Params : Type := {
  amount : value;
  currency : value;
  description : value;
  interval : value;
  success_url : value;
  cancel_url : value
}.

(** [...(description && { description })] inside an object literal *)
Definition spread_description (description : value) : list (string * value) :=
  if truthy description then [("description", description)] else [].

(* ================================================================== *)
(** * src/lib/tilopay.ts *)
(* ================================================================== *)

Module Tilopay.
Section WithRuntime.
Variable rt : Runtime.

Definition validateAmount (amount : value) : M unit :=
  let bad :=
    match amount with
    | VNum n => negb (num_isInteger n) || num_le_zero n
    | _ => true        (* Number.isInteger is false: the test stops there *)
    end in
  if bad then
    received <- lift (ToString (js rt) amount) ;;
    throw (TilopayError
             ("amount must be a positive integer in centavos (received "
                ++ received ++ "). "
                ++ "Example: $10.00 → 1000")
             None VUndefined)
  else ret tt.

Definition validateCurrency (currency : value) : M unit :=
  if negb (is_str currency "USD") && negb (is_str currency "CRC") then
    received <- lift (ToString (js rt) currency) ;;
    throw (TilopayError
             ("currency must be " ++ dq ++ "USD" ++ dq ++ " or " ++ dq ++ "CRC"
                ++ dq ++ " (received " ++ dq ++ received ++ dq ++ ")")
             None VUndefined)
  else ret tt.

Definition validateInterval (interval : value) : M unit :=
  if negb (is_str interval "month") && negb (is_str interval "year") then
    received <- lift (ToString (js rt) interval) ;;
    throw (TilopayError
             ("interval must be " ++ dq ++ "month" ++ dq ++ " or " ++ dq
                ++ "year" ++ dq ++ " (received " ++ dq ++ received ++ dq ++ ")")
             None VUndefined)
  else ret tt.

Definition validateUrl (value : value) (field : string) : M unit :=
  let invalid : M unit :=
    received <- lift (ToString (js rt) value) ;;
    throw (TilopayError (field ++ " must be a valid URL (received " ++ dq
                           ++ received ++ dq ++ ")") None VUndefined) in
  if negb (truthy value) then invalid
  else
    starts <- lift (startsWith (js rt) value "http") ;;
    if negb starts then invalid else ret tt.

(** The HTTP helper.  The [console.error] of the failure branch has no
    effect on the result and is left out. *)
Definition request (path : string) (body : value) : M value :=
  let secretKey := Config.tilopayConfig_secretKey rt in
  if String.eqb secretKey EmptyString then
    throw (TilopayError "TILOPAY_SECRET_KEY is not configured" None VUndefined)
  else
    let url := Config.tilopayConfig_baseUrl rt ++ path in
    response <-
      try_catch
        (fetch rt {| c_method := "POST";
                     c_url := url;
                     c_authorization := "Bearer " ++ secretKey;
                     c_contentType := "application/json";
                     c_body := Some body |})
        (fun networkError =>
           throw (TilopayError
                    ("Network error contacting TiloPay: "
                       ++ Error_message networkError)
                    None VUndefined)) ;;
    if negb (r_ok response) then
      let rawBody := r_text response in
      let apiError :=
        match r_json response with
        | Some v => v
        | None => VObj []
        end in
      apiError_message <- lift (get (js rt) apiError "message") ;;
      apiError_error <- lift (get (js rt) apiError "error") ;;
      let message :=
        nullish_or
          (nullish_or
             (nullish_or apiError_message apiError_error)
             (or_else (VStr rawBody) (VStr (r_statusText response))))
          (VStr "Unknown error") in
      (* the template literal is the first argument of the constructor:
         [message] is converted before [apiError.code] is read *)
      message_text <- lift (ToString (js rt) message) ;;
      code <- lift (get (js rt) apiError "code") ;;
      throw (TilopayError
               ("TiloPay API error ("
                  ++ Number_toString (js rt) (of_Z (r_status response))
                  ++ "): " ++ message_text)
               (Some (r_status response)) code)
    else
      Response_json rt response.

Definition createPaymentIntent (params : Params) : M value :=
  validateAmount (amount params) ;;
  validateCurrency (currency params) ;;
  validateUrl (success_url params) "success_url" ;;
  validateUrl (cancel_url params) "cancel_url" ;;
  request "/payment_intents"
    (VObj ([("amount", amount params);
            ("currency", currency params)]
             ++ spread_description (description params)
             ++ [("success_url", success_url params);
                 ("cancel_url", cancel_url params)])%list).

Definition createSubscription (params : Params) : M value :=
  validateAmount (amount params) ;;
  validateCurrency (currency params) ;;
  validateInterval (interval params) ;;
  validateUrl (success_url params) "success_url" ;;
  validateUrl (cancel_url params) "cancel_url" ;;
  request "/subscriptions"
    (VObj ([("amount", amount params);
            ("currency", currency params);
            ("interval", interval params)]
             ++ spread_description (description params)
             ++ [("success_url", success_url params);
                 ("cancel_url", cancel_url params)])%list).
End WithRuntime.
End Tilopay.

(* ================================================================== *)
(** * src/lib/onvo.ts *)
(* ================================================================== *)

Module Onvo.
Section WithRuntime.
Variable rt : Runtime.

Definition validateAmount (amount : value) : M unit :=
  let bad :=
    match amount with
    | VNum n => negb (num_isInteger n) || num_le_zero n
    | _ => true        (* Number.isInteger is false: the test stops there *)
    end in
  if bad then
    received <- lift (ToString (js rt) amount) ;;
    throw (OnvoError
             ("amount must be a positive integer in centavos (received "
                ++ received ++ "). "
                ++ "Example: $10.00 → 1000")
             None VUndefined)
  else ret tt.

Definition validateCurrency (currency : value) : M unit :=
  if negb (is_str currency "USD") && negb (is_str currency "CRC") then
    received <- lift (ToString (js rt) currency) ;;
    throw (OnvoError
             ("currency must be " ++ dq ++ "USD" ++ dq ++ " or " ++ dq ++ "CRC"
                ++ dq ++ " (received " ++ dq ++ received ++ dq ++ ")")
             None VUndefined)
  else ret tt.

Definition validateInterval (interval : value) : M unit :=
  if negb (is_str interval "month") && negb (is_str interval "year") then
    received <- lift (ToString (js rt) interval) ;;
    throw (OnvoError
             ("interval must be " ++ dq ++ "month" ++ dq ++ " or " ++ dq
                ++ "year" ++ dq ++ " (received " ++ dq ++ received ++ dq ++ ")")
             None VUndefined)
  else ret tt.

Definition validateUrl (value : value) (field : string) : M unit :=
  let invalid : M unit :=
    received <- lift (ToString (js rt) value) ;;
    throw (OnvoError (field ++ " must be a valid URL (received " ++ dq
                        ++ received ++ dq ++ ")") None VUndefined) in
  if negb (truthy value) then invalid
  else
    starts <- lift (startsWith (js rt) value "http") ;;
    if negb starts then invalid else ret tt.

(** The HTTP helper.  [body] is [None] for an omitted argument. *)
Definition request (method path : string) (body : option value) : M value :=
  let secretKey := Config.onvoConfig_secretKey rt in
  if String.eqb secretKey EmptyString then
    throw (OnvoError "ONVO_SECRET_KEY is not configured" None VUndefined)
  else
    let url := Config.onvoConfig_baseUrl ++ path in
    response <-
      try_catch
        (fetch rt {| c_method := method;
                     c_url := url;
                     c_authorization := "Bearer " ++ secretKey;
                     c_contentType := "application/json";
                     c_body := body |})
        (fun networkError =>
           throw (OnvoError
                    ("Network error contacting ONVO: "
                       ++ Error_message networkError)
                    None VUndefined)) ;;
    if negb (r_ok response) then
      let apiError :=
        match r_json response with
        | Some v => v
        | None => VObj []
        end in
      rawMessage <- lift (get (js rt) apiError "message") ;;
      message <-
        match rawMessage with
        | VArr items =>
            joined <- lift (Array_join (js rt) items "; ") ;;
            ret (VStr joined)
        | _ =>
            apiError_error <- lift (get (js rt) apiError "error") ;;
            ret (nullish_or
                   (nullish_or
                      (nullish_or rawMessage apiError_error)
                      (VStr (r_statusText response)))
                   (VStr "Unknown error"))
        end ;;
      message_text <- lift (ToString (js rt) message) ;;
      apiCode <- lift (get (js rt) apiError "apiCode") ;;
      throw (OnvoError
               ("ONVO API error ("
                  ++ Number_toString (js rt) (of_Z (r_status response))
                  ++ "): " ++ message_text)
               (Some (r_status response)) apiCode)
    else
      Response_json rt response.

Definition createPaymentIntentRequest (amount currency description : value)
  : M value :=
  request "POST" "/payment-intents"
    (Some (VObj ([("amount", amount);
                  ("currency", currency);
                  ("captureMethod", VStr "automatic")]
                   ++ spread_description description)%list)).

Definition createCustomer : M value :=
  request "POST" "/customers" (Some (VObj [])).

Definition createProduct (description : value) : M value :=
  request "POST" "/products"
    (Some (VObj [("name", nullish_or description (VStr "Subscription"));
                 ("isActive", VBool true);
                 ("isShippable", VBool false)])).

Definition createPrice (productId amount currency interval : value)
  : M value :=
  request "POST" "/prices"
    (Some (VObj [("productId", productId);
                 ("unitAmount", amount);
                 ("currency", currency);
                 ("isActive", VBool true);
                 ("type", VStr "recurring");
                 ("recurring",
                   VObj [("interval", interval);
                         ("intervalCount", VNum (of_Z 1))])])).

Definition createSubscriptionRequest (customerId priceId : value)
  : M value :=
  request "POST" "/subscriptions"
    (Some (VObj [("customerId", customerId);
                 ("paymentBehavior", VStr "allow_incomplete");
                 ("items",
                   VArr [VObj [("priceId", priceId);
                               ("quantity", VNum (of_Z 1))]])])).

(** The argument object has the fields [lineItems], [redirectUrl] and
    [cancelUrl]. *)
Definition createCheckoutSession (lineItems redirectUrl cancelUrl : value)
  : M value :=
  request "POST" "/checkout/sessions/one-time-link"
    (Some (VObj [("lineItems", lineItems);
                 ("redirectUrl", redirectUrl);
                 ("cancelUrl", cancelUrl)])).

Definition createPaymentIntent (params : Params) : M value :=
  validateAmount (amount params) ;;
  validateCurrency (currency params) ;;
  validateUrl (success_url params) "success_url" ;;
  validateUrl (cancel_url params) "cancel_url" ;;
  (* Step 1: a product to attach the price to *)
  product <- createProduct (description params) ;;
  (* Step 2: a one-time price for this product *)
  product_id <- lift (get (js rt) product "id") ;;
  price <- request "POST" "/prices"
             (Some (VObj [("productId", product_id);
                          ("unitAmount", amount params);
                          ("currency", currency params);
                          ("isActive", VBool true);
                          ("type", VStr "one_time")])) ;;
  (* Step 3: the payment intent *)
  createPaymentIntentRequest
    (amount params) (currency params) (description params) ;;
  (* Step 4: a checkout session with the price *)
  price_id <- lift (get (js rt) price "id") ;;
  session <- createCheckoutSession
               (VArr [VObj [("priceId", price_id);
                            ("quantity", VNum (of_Z 1))]])
               (success_url params) (cancel_url params) ;;
  session_url <- lift (get (js rt) session "url") ;;
  ret (VObj [("url", session_url)]).

Definition createSubscription (params : Params) : M value :=
  validateAmount (amount params) ;;
  validateCurrency (currency params) ;;
  validateInterval (interval params) ;;
  validateUrl (success_url params) "success_url" ;;
  validateUrl (cancel_url params) "cancel_url" ;;
  (* Step 1: a customer *)
  customer <- createCustomer ;;
  (* Step 2: a product for this subscription *)
  product <- createProduct (description params) ;;
  (* Step 3: a recurring price *)
  product_id <- lift (get (js rt) product "id") ;;
  price <- createPrice product_id (amount params) (currency params)
             (interval params) ;;
  (* Step 4: the subscription, payment deferred until checkout *)
  customer_id <- lift (get (js rt) customer "id") ;;
  price_id <- lift (get (js rt) price "id") ;;
  createSubscriptionRequest customer_id price_id ;;
  (* Step 5: a checkout session with the recurring price *)
  price_id' <- lift (get (js rt) price "id") ;;
  session <- createCheckoutSession
               (VArr [VObj [("priceId", price_id');
                            ("quantity", VNum (of_Z 1))]])
               (success_url params) (cancel_url params) ;;
  session_url <- lift (get (js rt) session "url") ;;
  ret (VObj [("url", session_url)]).
End WithRuntime.
End Onvo.

(* ================================================================== *)
(** * The two route handlers *)
(* ================================================================== *)

(** [NextResponse.json(body, { status })]; the status is 200 when omitted. *)
Record NextResponse : Type := {
  res_status : Z;
  res_body : value
}.

Definition NextResponse_json (body : value) (status : Z) : NextResponse :=
  {| res_status := status; res_body := body |}.

(** ** src/app/api/generate/route.ts *)

Module GenerateRoute.
Section WithRuntime.
Variable rt : Runtime.

(** [request_json] is what [await request.json()] gives: [None] when it
    throws.  An exception that leaves [POST] is one the handler does not
    catch. *)
Definition POST (request_json : option value) : M NextResponse :=
  match request_json with
  | None =>
      ret (NextResponse_json (VObj [("error", VStr "Invalid JSON body")]) 400)
  | Some body =>
      (* const { amount, currency, type, provider, ... } = body *)
      amount <- lift (get (js rt) body "amount") ;;
      currency <- lift (get (js rt) body "currency") ;;
      type <- lift (get (js rt) body "type") ;;
      provider <- lift (get (js rt) body "provider") ;;
      description <- lift (get (js rt) body "description") ;;
      success_url <- lift (get (js rt) body "success_url") ;;
      cancel_url <- lift (get (js rt) body "cancel_url") ;;
      if negb (truthy amount) || negb (truthy currency) || negb (truthy type)
         || negb (truthy provider) || negb (truthy success_url)
         || negb (truthy cancel_url)
      then
        ret (NextResponse_json
               (VObj [("error",
                        VStr "Missing required fields: amount, currency, type, provider, success_url, cancel_url")])
               400)
      else
        try_catch
          (result <-
             (if is_str provider "tilopay" then
                if is_str type "recurring" then
                  Tilopay.createSubscription rt
                    {| amount := amount; currency := currency;
                       description := description;
                       interval := VStr "month";
                       success_url := success_url;
                       cancel_url := cancel_url |}
                else
                  Tilopay.createPaymentIntent rt
                    {| amount := amount; currency := currency;
                       description := description;
                       interval := VUndefined;
                       success_url := success_url;
                       cancel_url := cancel_url |}
              else
                if is_str type "recurring" then
                  Onvo.createSubscription rt
                    {| amount := amount; currency := currency;
                       description := description;
                       interval := VStr "month";
                       success_url := success_url;
                       cancel_url := cancel_url |}
                else
                  Onvo.createPaymentIntent rt
                    {| amount := amount; currency := currency;
                       description := description;
                       interval := VUndefined;
                       success_url := success_url;
                       cancel_url := cancel_url |}) ;;
           url <- lift (get (js rt) result "url") ;;
           ret (NextResponse_json (VObj [("url", url)]) 200))
          (fun error =>
             let message := Error_message error in
             ret (NextResponse_json (VObj [("error", VStr message)]) 500))
  end.
End WithRuntime.
End GenerateRoute.

(** ** src/app/api/tilopay/create-link/route.ts *)

Module CreateLinkRoute.

(** A validated body: [amount] is known to be a number and [isRecurring]
    a boolean by then. *)
Record CreateLinkRequestBody : Type := {
  body_amount : number;
  body_currency : value;
  body_description : value;
  body_isRecurring : bool
}.

Section WithRuntime.
Variable rt : Runtime.

Definition validateBody (raw : value) : M CreateLinkRequestBody :=
  match raw with
  | VObj body =>
      match lookup "amount" body with
      | VNum n =>
          if negb (num_isFinite n) || num_le_zero n then
            throw (JsError "amount must be a positive number")
          else if negb (is_str (lookup "currency" body) "USD")
                    && negb (is_str (lookup "currency" body) "CRC") then
            throw (JsError ("currency must be " ++ dq ++ "USD" ++ dq ++ " or "
                              ++ dq ++ "CRC" ++ dq))
          else
            match lookup "isRecurring" body with
            | VBool isRecurring =>
                match lookup "description" body with
                | VUndefined =>
                    ret {| body_amount := n;
                           body_currency := lookup "currency" body;
                           body_description := VUndefined;
                           body_isRecurring := isRecurring |}
                | VStr d =>
                    ret {| body_amount := n;
                           body_currency := lookup "currency" body;
                           body_description :=
                             or_else (VStr (String_trim (js rt) d)) VUndefined;
                           body_isRecurring := isRecurring |}
                | _ => throw (JsError "description must be a string")
                end
            | _ => throw (JsError "isRecurring must be a boolean")
            end
      | _ => throw (JsError "amount must be a positive number")
      end
  | _ => throw (JsError "Request body must be a JSON object")
  end.

(** [err instanceof TilopayError && err.statusCode ? 502 : 500] *)
Definition failure_status (err : exn) : Z :=
  match err with
  | TilopayError _ (Some code) _ => if (code =? 0)%Z then 500 else 502
  | _ => 500
  end.

Definition POST (request_json : option value) : M NextResponse :=
  match request_json with
  | None =>
      ret (NextResponse_json
             (VObj [("success", VBool false);
                    ("error", VStr "Invalid JSON body")]) 400)
  | Some rawBody =>
      (* Validate fields; the catch block returns from the handler *)
      validated <-
        try_catch
          (body <- validateBody rawBody ;; ret (inr body))
          (fun err =>
             ret (inl (NextResponse_json
                         (VObj [("success", VBool false);
                                ("error", VStr (Error_message err))]) 400))) ;;
      match validated with
      | inl early_return => ret early_return
      | inr body =>
          (* Convert amount to centavos *)
          let amountInCents :=
            Math_round (Number_mul (js rt) (body_amount body) (of_Z 100)) in
          (* Build redirect URLs *)
          let base := Config.appConfig_baseUrl rt in
          let success_url := base ++ "/success?provider=tilopay" in
          let cancel_url := base ++ "/cancel?provider=tilopay" in
          (* Call TiloPay client *)
          try_catch
            (result <-
               (if body_isRecurring body then
                  Tilopay.createSubscription rt
                    {| amount := VNum amountInCents;
                       currency := body_currency body;
                       description := body_description body;
                       interval := VStr "month";
                       success_url := VStr success_url;
                       cancel_url := VStr cancel_url |}
                else
                  Tilopay.createPaymentIntent rt
                    {| amount := VNum amountInCents;
                       currency := body_currency body;
                       description := body_description body;
                       interval := VUndefined;
                       success_url := VStr success_url;
                       cancel_url := VStr cancel_url |}) ;;
             url <- lift (get (js rt) result "url") ;;
             ret (NextResponse_json
                    (VObj [("success", VBool true); ("url", url)]) 200))
            (fun err =>
               let message := Error_message err in
               (* Surface API errors as 502 *)
               let status := failure_status err in
               ret (NextResponse_json
                      (VObj [("success", VBool false);
                             ("error", VStr message)]) status))
      end
  end.
End WithRuntime.
End CreateLinkRoute.

(** ** src/app/page.tsx: what the form posts *)

Module Page.

(** The state of the form.  The three choices are set by toggles. *)
Record FormState : Type := {
  amount : string;
  currency : string;
  paymentType : string;
  provider : string;
  description : string
}.

(** JSON.stringify writes [null] for a number that is not finite. *)
Definition serialized_number (n : number) : value :=
  match n with
  | Fin _ => VNum n
  | _ => VNull
  end.

Section WithEngine.
Variable js : Engine.

(** [handleSubmit] up to its [fetch]: the body posted to /api/generate, as
    the route parses it back, or [None] when the handler returns before
    (a toast for an invalid amount; for TiloPay the admin panel is opened
    and nothing is posted).  [origin] is [window.location.origin]. *)
Definition handleSubmit (origin : string) (form : FormState) : option value :=
  let numericAmount := parseFloat js (amount form) in
  if negb (truthy (VNum numericAmount)) || num_le_zero numericAmount then None
  else if String.eqb (provider form) "tilopay" then None
  else
    (* ONVO flow *)
    let amountInCents := Math_round (Number_mul js numericAmount (of_Z 100)) in
    let baseUrl := origin in
    let success_url := baseUrl ++ "/checkout/success" in
    let cancel_url := baseUrl ++ "/checkout/cancel" in
    Some (VObj [("amount", serialized_number amountInCents);
                ("currency", VStr (currency form));
                ("type", VStr (paymentType form));
                ("provider", VStr (provider form));
                ("description",
                  or_else (VStr (String_trim js (description form))) VUndefined);
                ("success_url", VStr success_url);
                ("cancel_url", VStr cancel_url)]).
End WithEngine.
End Page.

(* ================================================================== *)
(** * Vocabulary of the statements *)
(* ================================================================== *)

(** [JS.get] on a value that is neither null nor undefined. *)
Definition prop (v : value) (k : string) : value :=
  match v with
  | VObj props => lookup k props
  | _ => VUndefined
  end.

Definition nullish (v : value) : bool :=
  match v with
  | VUndefined | VNull => true
  | _ => false
  end.

(** An integer above zero: the minor-unit amount the providers expect. *)
Definition positive_integer (v : value) : Prop :=
  exists (q : Q) (z : Z), v = VNum (Fin q) /\ q == inject_Z z /\ (0 < z)%Z.

Definition known_currency (v : value) : Prop := v = VStr "USD" \/ v = VStr "CRC".

Definition known_interval (v : value) : Prop := v = VStr "month" \/ v = VStr "year".

Definition http_url (v : value) : Prop :=
  exists s, v = VStr s /\ String.prefix "http" s = true.

(** Parameters that pass every check of a one-time operation. *)
Definition valid_one_time (p : Params) : Prop :=
  positive_integer (amount p) /\ known_currency (currency p)
  /\ http_url (success_url p) /\ http_url (cancel_url p).

(** Parameters that pass every check of a subscription operation. *)
Definition valid_recurring (p : Params) : Prop :=
  valid_one_time p /\ known_interval (interval p).

(** Can the value be written into a template literal?  Every value can
    but an object with an own [toString], and an array that holds one. *)
Definition converts (js : Engine) (v : value) : bool :=
  match ToString js v with
  | inr _ => true
  | inl _ => false
  end.

(** The text of a value that converts. *)
Definition text_of (js : Engine) (v : value) : string :=
  match ToString js v with
  | inr s => s
  | inl _ => EmptyString
  end.

(** What a check throws when it refuses a value: its own error, whose
    message quotes the value, or else the error of the conversion. *)
Definition refusal (js : Engine) (received : value) (error : exn) : exn :=
  match ToString js received with
  | inr _ => error
  | inl e => e
  end.

(** The text of the amount error of both clients. *)
Definition amount_message (rt : Runtime) (received : value) : string :=
  "amount must be a positive integer in centavos (received "
    ++ text_of (js rt) received ++ "). " ++ "Example: $10.00 → 1000".

(** The text of the interval error of both clients. *)
Definition interval_message (rt : Runtime) (received : value) : string :=
  "interval must be " ++ dq ++ "month" ++ dq ++ " or " ++ dq ++ "year" ++ dq
    ++ " (received " ++ dq ++ text_of (js rt) received ++ dq ++ ")".

(** The call each helper puts on the wire. *)
Definition tilopay_call (rt : Runtime) (path : string) (body : value) : Call :=
  {| c_method := "POST";
     c_url := Config.tilopayConfig_baseUrl rt ++ path;
     c_authorization := "Bearer " ++ Config.tilopayConfig_secretKey rt;
     c_contentType := "application/json";
     c_body := Some body |}.

Definition onvo_call (rt : Runtime) (path : string) (body : value) : Call :=
  {| c_method := "POST";
     c_url := Config.onvoConfig_baseUrl ++ path;
     c_authorization := "Bearer " ++ Config.onvoConfig_secretKey rt;
     c_contentType := "application/json";
     c_body := Some body |}.

(** What the ONVO helper returns for this call, made after the calls [tr]. *)
Definition onvo_outcome (rt : Runtime) (tr : list Call) (path : string)
    (body : value) : exn + value :=
  fst (Onvo.request rt "POST" path (Some body) tr).

(** What the TiloPay helper returns for this call, made after the calls [tr]. *)
Definition tilopay_outcome (rt : Runtime) (tr : list Call) (path : string)
    (body : value) : exn + value :=
  fst (Tilopay.request rt path body tr).

(** The provider answers the call [c], made after the calls [tr], with a
    2xx status and the JSON body [v]. *)
Definition call_returns (rt : Runtime) (tr : list Call) (c : Call) (v : value)
  : Prop :=
  exists r, server rt tr c = Resolved r /\ r_ok r = true /\ r_json r = Some v.

(** The call [c], made after the calls [tr], fails: the transport rejects
    it, or the provider answers with a status that is not 2xx, or with a body
    that is not JSON. *)
Definition call_fails (rt : Runtime) (tr : list Call) (c : Call) : Prop :=
  match server rt tr c with
  | Rejected _ => True
  | Resolved r => r_ok r = false \/ r_json r = None
  end.

(** The parsed body of a non-2xx answer as the helpers read it: the empty
    object when the body is not JSON. *)
Definition error_body (r : Response) : value :=
  match r_json r with
  | Some v => v
  | None => VObj []
  end.

(** What the TiloPay helper picks for the message of its error. *)
Definition tilopay_failure_message (r : Response) : value :=
  nullish_or
    (nullish_or
       (nullish_or (prop (error_body r) "message") (prop (error_body r) "error"))
       (or_else (VStr (r_text r)) (VStr (r_statusText r))))
    (VStr "Unknown error").

(** The text the ONVO helper writes into the message of its error: an
    array is joined, anything else goes through the template literal. *)
Definition onvo_failure_text (rt : Runtime) (r : Response) : exn + string :=
  match prop (error_body r) "message" with
  | VArr items => Array_join (js rt) items "; "
  | rawMessage =>
      ToString (js rt)
        (nullish_or
           (nullish_or
              (nullish_or rawMessage (prop (error_body r) "error"))
              (VStr (r_statusText r)))
           (VStr "Unknown error"))
  end.

(** The errors of the two helpers for a non-2xx answer. *)
Definition tilopay_api_error (rt : Runtime) (r : Response) (text : string) : exn :=
  TilopayError
    ("TiloPay API error (" ++ Number_toString (js rt) (of_Z (r_status r))
       ++ "): " ++ text)
    (Some (r_status r)) (prop (error_body r) "code").

Definition onvo_api_error (rt : Runtime) (r : Response) (text : string) : exn :=
  OnvoError
    ("ONVO API error (" ++ Number_toString (js rt) (of_Z (r_status r))
       ++ "): " ++ text)
    (Some (r_status r)) (prop (error_body r) "apiCode").

(** The call carries this interval: as the [interval] field of its payload
    (a TiloPay subscription), or as the interval of a recurring Price (ONVO). *)
Definition carries_interval (c : Call) (v : value) : Prop :=
  exists props,
    c_body c = Some (VObj props)
    /\ ((has_own "interval" props = true /\ lookup "interval" props = v)
        \/ (lookup "type" props = VStr "recurring"
            /\ prop (lookup "recurring" props) "interval" = v)).

(** The amounts a payload carries: its [amount] and [unitAmount] fields. *)
Definition carried_amounts (c : Call) : list value :=
  match c_body c with
  | Some (VObj props) =>
      map snd
        (filter (fun kv => String.eqb (fst kv) "amount"
                           || String.eqb (fst kv) "unitAmount") props)
  | _ => []
  end.

Definition num_eqb (a b : number) : bool :=
  match a, b with
  | NaN, NaN => true
  | Infinity s, Infinity t => Bool.eqb s t
  | Fin p, Fin q => Qeq_bool p q
  | _, _ => false
  end.

(** Does the number occur anywhere inside the value? *)
Fixpoint mentions_number (n : number) (v : value) : bool :=
  match v with
  | VNum m => num_eqb m n
  | VArr items => existsb (mentions_number n) items
  | VObj props => existsb (fun kv => mentions_number n (snd kv)) props
  | _ => false
  end.

(** ** The payloads of the two clients *)

Definition tilopay_payment_payload (p : Params) : value :=
  VObj ([("amount", amount p); ("currency", currency p)]
          ++ spread_description (description p)
          ++ [("success_url", success_url p); ("cancel_url", cancel_url p)])%list.

Definition tilopay_subscription_payload (p : Params) : value :=
  VObj ([("amount", amount p); ("currency", currency p);
         ("interval", interval p)]
          ++ spread_description (description p)
          ++ [("success_url", success_url p); ("cancel_url", cancel_url p)])%list.

Definition onvo_customer_payload : value := VObj [].

Definition onvo_product_payload (p : Params) : value :=
  VObj [("name", nullish_or (description p) (VStr "Subscription"));
        ("isActive", VBool true);
        ("isShippable", VBool false)].

Definition onvo_one_time_price_payload (productId : value) (p : Params) : value :=
  VObj [("productId", productId);
        ("unitAmount", amount p);
        ("currency", currency p);
        ("isActive", VBool true);
        ("type", VStr "one_time")].

Definition onvo_recurring_price_payload (productId : value) (p : Params) : value :=
  VObj [("productId", productId);
        ("unitAmount", amount p);
        ("currency", currency p);
        ("isActive", VBool true);
        ("type", VStr "recurring");
        ("recurring", VObj [("interval", interval p);
                            ("intervalCount", VNum (of_Z 1))])].

Definition onvo_intent_payload (p : Params) : value :=
  VObj ([("amount", amount p);
         ("currency", currency p);
         ("captureMethod", VStr "automatic")]
          ++ spread_description (description p))%list.

Definition onvo_subscription_payload (customerId priceId : value) : value :=
  VObj [("customerId", customerId);
        ("paymentBehavior", VStr "allow_incomplete");
        ("items", VArr [VObj [("priceId", priceId);
                              ("quantity", VNum (of_Z 1))]])].

Definition onvo_checkout_payload (priceId : value) (p : Params) : value :=
  VObj [("lineItems", VArr [VObj [("priceId", priceId);
                                  ("quantity", VNum (of_Z 1))]]);
        ("redirectUrl", success_url p);
        ("cancelUrl", cancel_url p)].

(** ** What a computation puts on the wire *)

(** [emits P m]: whatever was called before, [m] only appends calls, and
    each of them satisfies [P]. *)
Definition emits {A} (P : Call -> Prop) (m : M A) : Prop :=
  forall tr, exists new, snd (m tr) = (tr ++ new)%list /\ Forall P new.

(** A computation that calls nothing. *)
Definition silent {A} (m : M A) : Prop := forall tr, snd (m tr) = tr.

(** The two configuration errors. *)
Definition tilopay_config_error : exn :=
  TilopayError "TILOPAY_SECRET_KEY is not configured" None VUndefined.

Definition onvo_config_error : exn :=
  OnvoError "ONVO_SECRET_KEY is not configured" None VUndefined.

(** The variable is not set, or set to the empty string. *)
Definition missing_or_empty (rt : Runtime) (key : string) : Prop :=
  env rt key = None \/ env rt key = Some EmptyString.

(** ** The routes, piece by piece *)

(** The fields /api/generate insists on. *)
Definition required_fields : list string :=
  ["amount"; "currency"; "type"; "provider"; "success_url"; "cancel_url"].

Definition missing_fields_response : NextResponse :=
  NextResponse_json
    (VObj [("error",
             VStr "Missing required fields: amount, currency, type, provider, success_url, cancel_url")])
    400.

(** The parameters /api/generate hands to a client. *)
Definition generate_params (body interval : value) : Params :=
  {| amount := prop body "amount";
     currency := prop body "currency";
     description := prop body "description";
     interval := interval;
     success_url := prop body "success_url";
     cancel_url := prop body "cancel_url" |}.

(** The operation /api/generate selects. *)
Definition generate_dispatch (rt : Runtime) (body : value) : M value :=
  if is_str (prop body "provider") "tilopay" then
    if is_str (prop body "type") "recurring"
    then Tilopay.createSubscription rt (generate_params body (VStr "month"))
    else Tilopay.createPaymentIntent rt (generate_params body VUndefined)
  else
    if is_str (prop body "type") "recurring"
    then Onvo.createSubscription rt (generate_params body (VStr "month"))
    else Onvo.createPaymentIntent rt (generate_params body VUndefined).

(** The amount in centavos computed by the create-link route. *)
Definition amountInCents (rt : Runtime) (a : number) : value :=
  VNum (Math_round (Number_mul (js rt) a (of_Z 100))).

(** The parameters the create-link route hands to the TiloPay client. *)
Definition create_link_params (rt : Runtime)
    (body : CreateLinkRoute.CreateLinkRequestBody) : Params :=
  {| amount := amountInCents rt (CreateLinkRoute.body_amount body);
     currency := CreateLinkRoute.body_currency body;
     description := CreateLinkRoute.body_description body;
     interval := if CreateLinkRoute.body_isRecurring body
                 then VStr "month" else VUndefined;
     success_url := VStr (Config.appConfig_baseUrl rt ++ "/success?provider=tilopay");
     cancel_url := VStr (Config.appConfig_baseUrl rt ++ "/cancel?provider=tilopay") |}.

(** The operation the create-link route selects. *)
Definition create_link_dispatch (rt : Runtime)
    (body : CreateLinkRoute.CreateLinkRequestBody) : M value :=
  if CreateLinkRoute.body_isRecurring body
  then Tilopay.createSubscription rt (create_link_params rt body)
  else Tilopay.createPaymentIntent rt (create_link_params rt body).

(** The failure response of the create-link route. *)
Definition create_link_failure (status : Z) (message : string) : NextResponse :=
  NextResponse_json (VObj [("success", VBool false); ("error", VStr message)])
    status.

(** The endpoint and the payload of the call the create-link route causes. *)
Definition create_link_path (body : CreateLinkRoute.CreateLinkRequestBody) : string :=
  if CreateLinkRoute.body_isRecurring body then "/subscriptions" else "/payment_intents".

Definition create_link_payload (rt : Runtime)
    (body : CreateLinkRoute.CreateLinkRequestBody) : value :=
  if CreateLinkRoute.body_isRecurring body
  then tilopay_subscription_payload (create_link_params rt body)
  else tilopay_payment_payload (create_link_params rt body).

(** The answers of /api/generate. *)
Definition generate_failure (status : Z) (message : string) : NextResponse :=
  NextResponse_json (VObj [("error", VStr message)]) status.

(** ** A runtime for the examples *)

Module Example.

(** Exact on the integers and finite products the examples use. *)
Definition engine : Engine :=
  {| Number_toString := fun n =>
       match n with
       | NaN => "NaN"
       | Infinity false => "Infinity"
       | Infinity true => "-Infinity"
       | Fin q =>
           if Qeq_bool (inject_Z (Qfloor q)) q
           then NilZero.string_of_int (Z.to_int (Qfloor q))
           else "<fraction>"
       end;
     Number_mul := fun a b =>
       match a, b with
       | Fin p, Fin q => Fin (Qred (p * q))
       | _, _ => NaN
       end;
     String_trim := fun s => s;
     parseFloat := fun s =>
       match NilZero.int_of_string s with
       | Some i => Fin (inject_Z (Z.of_int i))
       | None => NaN
       end;
     msg_read_of_nullish := fun _ k =>
       "Cannot read properties of null (reading " ++ k ++ ")";
     msg_not_a_function := fun _ k => "value." ++ k ++ " is not a function";
     msg_bad_json := fun _ => "Unexpected token in JSON";
     msg_not_primitive := "Cannot convert object to primitive value" |}.

(** The server answers the n-th call with the n-th entry of a script. *)
Definition scripted (answers : list FetchResult) : Server :=
  fun tr _ => nth (List.length tr) answers (Rejected "fetch failed").

Definition ok_json (v : value) : FetchResult :=
  Resolved {| r_status := 200; r_statusText := "OK";
              r_text := "<json>"; r_json := Some v |}.

Definition status_json (status : Z) (reason : string) (v : value) : FetchResult :=
  Resolved {| r_status := status; r_statusText := reason;
              r_text := "<json>"; r_json := Some v |}.

(** Both secrets configured. *)
Definition configured (key : string) : option string :=
  if String.eqb key "TILOPAY_SECRET_KEY" then Some "sk_tilopay"
  else if String.eqb key "ONVO_SECRET_KEY" then Some "sk_onvo"
  else None.

(** No environment variable set at all. *)
Definition unconfigured (key : string) : option string := None.

Definition runtime (environment : string -> option string)
    (answers : list FetchResult) : Runtime :=
  {| js := engine; env := environment; server := scripted answers |}.

Definition num (z : Z) : value := VNum (of_Z z).

(** A request body for /api/generate. *)
Definition generate_body (amount : value) (type provider : string)
    (extra : list (string * value)) : value :=
  VObj ([("amount", amount);
         ("currency", VStr "USD");
         ("type", VStr type);
         ("provider", VStr provider);
         ("success_url", VStr "https://shop.example/ok");
         ("cancel_url", VStr "https://shop.example/cancel")] ++ extra)%list.

Definition params (amount : value) (currency : string) (interval : value)
  : Params :=
  {| amount := amount; currency := VStr currency; description := VUndefined;
     interval := interval;
     success_url := VStr "https://shop.example/ok";
     cancel_url := VStr "https://shop.example/cancel" |}.

End Example.

(* ================================================================== *)
(** * src/lib/auth.ts *)
(* ================================================================== *)

Module Auth.

Definition TOKEN_COOKIE : string := "pl_token".

(** [charCodeAt]: a character of a [string] stands for one code unit. *)
Definition charCode (c : ascii) : Z := Z.of_N (N_of_ascii c).

(** The loop of [safeEqual], run on strings of one length.  The codes
    stay below 2^16, so the 32-bit [|=] and [^] never wrap. *)
Fixpoint safeEqual_loop (a b : string) (diff : Z) : Z :=
  match a, b with
  | String x a', String y b' =>
      safeEqual_loop a' b' (Z.lor diff (Z.lxor (charCode x) (charCode y)))
  | _, _ => diff
  end.

Definition safeEqual (a b : string) : bool :=
  if negb (Nat.eqb (String.length a) (String.length b)) then false
  else Z.eqb (safeEqual_loop a b 0) 0.

(** One digit of [toString(16)]. *)
Definition hex_digit (d : N) : ascii :=
  if (d <? 10)%N then ascii_of_N (48 + d) else ascii_of_N (87 + d).

(** [b.toString(16)] for an element of a [Uint8Array]. *)
Definition toString16 (b : N) : string :=
  if (b <? 16)%N then String (hex_digit b) EmptyString
  else String (hex_digit (b / 16)) (String (hex_digit (b mod 16)) EmptyString).

(** [s.padStart(2, '0')] *)
Definition padStart2 (s : string) : string :=
  match String.length s with
  | 0%nat => "00"
  | 1%nat => "0" ++ s
  | _ => s
  end.

Section WithDigest.
(** [crypto.subtle.digest('SHA-256', new TextEncoder().encode(s))], as
    the bytes of the buffer. *)
Variable SHA256 : string -> list Byte.byte.

(** Returns the hex SHA-256 digest of a UTF-8 string. *)
Definition hashPassword (password : string) : string :=
  join_with EmptyString
    (map (fun b => padStart2 (toString16 (Byte.to_N b))) (SHA256 password)).

Definition verifyPassword (plaintext expectedHash : string) : bool :=
  safeEqual (hashPassword plaintext) expectedHash.

Definition generateToken (password : string) : string := hashPassword password.
End WithDigest.
End Auth.

(* ================================================================== *)
(** * src/middleware.ts and the two routes of src/app/api/auth *)
(* ================================================================== *)

Module Middleware.

(** What the middleware reads of a request: the path, the origin of its
    URL (what [new URL('/login', request.url)] keeps of it) and the
    cookies. *)
Record NextRequest : Type := {
  pathname : string;
  origin : string;
  cookie : string -> option string
}.

Inductive Outcome : Type :=
| Next
| Redirect (url : string).

Definition PUBLIC_PATHS : list string :=
  ["/login"; "/api/auth/login"; "/api/auth/logout"].

Definition isPublicPath (pathname : string) : bool :=
  if existsb (String.eqb pathname) PUBLIC_PATHS then true
  else if String.prefix "/_next/" pathname then true
  else if String.prefix "/api/auth/" pathname then true
  else if String.eqb pathname "/favicon.ico"
          || String.eqb pathname "/manifest.json"
          || String.prefix "/icon-" pathname
          || String.prefix "/sw." pathname
          || String.prefix "/workbox-" pathname then true
  else false.

Definition redirectToLogin (request : NextRequest) : Outcome :=
  Redirect (origin request ++ "/login").

Section WithEnvironment.
Variable SHA256 : string -> list Byte.byte.
Variable env : string -> option string.

(** The [console.error] of the misconfigured branch is left out. *)
Definition middleware (request : NextRequest) : Outcome :=
  if isPublicPath (pathname request) then Next
  else
    match cookie request Auth.TOKEN_COOKIE with
    | None => redirectToLogin request
    | Some token =>
        if String.eqb token EmptyString then redirectToLogin request
        else
          match env "AUTH_PASSWORD" with
          | None => Next
          | Some envPassword =>
              if String.eqb envPassword EmptyString then Next
              else
                let expectedToken := Auth.hashPassword SHA256 envPassword in
                if negb (Auth.safeEqual token expectedToken)
                then redirectToLogin request
                else Next
          end
    end.
End WithEnvironment.
End Middleware.

Module AuthRoutes.

(** The options of [response.cookies.set]; [secure] is [None] when the
    option is not given. *)
Record Cookie : Type := {
  cookie_name : string;
  cookie_value : string;
  httpOnly : bool;
  path : string;
  sameSite : string;
  maxAge : Z;
  secure : option bool
}.

(** A response and the cookies set on it. *)
Record CookieResponse : Type := {
  response : NextResponse;
  cookies : list Cookie
}.

Section WithEnvironment.
Variable SHA256 : string -> list Byte.byte.
Variable env : string -> option string.

(** src/app/api/auth/login/route.ts *)
Definition login_POST (request_json : option value) : CookieResponse :=
  match request_json with
  | None =>
      {| response := NextResponse_json
                       (VObj [("success", VBool false);
                              ("error", VStr "Invalid JSON body")]) 400;
         cookies := [] |}
  | Some body =>
      (* const { password } = (body ?? {}) *)
      let password :=
        match nullish_or body (VObj []) with
        | VObj props => lookup "password" props
        | _ => VUndefined
        end in
      match password with
      | VStr submitted =>
          if negb (truthy password) then
            {| response := NextResponse_json
                             (VObj [("success", VBool false);
                                    ("error", VStr "Password is required")]) 400;
               cookies := [] |}
          else
            match env "AUTH_PASSWORD" with
            | Some envPassword =>
                if String.eqb envPassword EmptyString then
                  {| response := NextResponse_json
                                   (VObj [("success", VBool false);
                                          ("error", VStr "Server misconfiguration")])
                                   500;
                     cookies := [] |}
                else
                  let submittedHash := Auth.hashPassword SHA256 submitted in
                  let expectedHash := Auth.hashPassword SHA256 envPassword in
                  if negb (Auth.safeEqual submittedHash expectedHash) then
                    {| response := NextResponse_json
                                     (VObj [("success", VBool false);
                                            ("error", VStr "Contraseña incorrecta")])
                                     401;
                       cookies := [] |}
                  else
                    let token := Auth.generateToken SHA256 envPassword in
                    {| response := NextResponse_json
                                     (VObj [("success", VBool true)]) 200;
                       cookies :=
                         [{| cookie_name := Auth.TOKEN_COOKIE;
                             cookie_value := token;
                             httpOnly := true;
                             path := "/";
                             sameSite := "strict";
                             maxAge := 60 * 60 * 24 * 7;
                             secure :=
                               Some (match env "NODE_ENV" with
                                     | Some mode => String.eqb mode "production"
                                     | None => false
                                     end) |}] |}
            | None =>
                {| response := NextResponse_json
                                 (VObj [("success", VBool false);
                                        ("error", VStr "Server misconfiguration")])
                                 500;
                   cookies := [] |}
            end
      | _ =>
          {| response := NextResponse_json
                           (VObj [("success", VBool false);
                                  ("error", VStr "Password is required")]) 400;
             cookies := [] |}
      end
  end.
End WithEnvironment.

(** src/app/api/auth/logout/route.ts *)
Definition logout_POST : CookieResponse :=
  {| response := NextResponse_json (VObj [("success", VBool true)]) 200;
     cookies :=
       [{| cookie_name := Auth.TOKEN_COOKIE;
           cookie_value := EmptyString;
           httpOnly := true;
           path := "/";
           sameSite := "strict";
           maxAge := 0;
           secure := None |}] |}.

End AuthRoutes.

(* ================================================================== *)
(** * src/lib/config.ts: the validation of the configuration *)
(* ================================================================== *)

Module ConfigValidation.

(** [s.includes(sub)] *)
Fixpoint includes (sub s : string) : bool :=
  if String.prefix sub s then true
  else match s with
       | EmptyString => false
       | String _ rest => includes sub rest
       end.

Record ValidationResult : Type := {
  isValid : bool;
  errors : list string
}.

(** [{ isValid: errors.length === 0, errors }] *)
Definition result_of_errors (errors : list string) : ValidationResult :=
  {| isValid := Nat.eqb (List.length errors) 0; errors := errors |}.

Definition newline : string := String (ascii_of_nat 10) EmptyString.

Section WithRuntime.
Variable rt : Runtime.

Definition tilopayConfig_publicKey : string :=
  Config.envOrEmpty rt "NEXT_PUBLIC_TILOPAY_PUBLIC_KEY".

Definition onvoConfig_publishableKey : string :=
  Config.envOrEmpty rt "NEXT_PUBLIC_ONVO_PUBLISHABLE_KEY".

Definition onvoConfig_isTestMode : bool :=
  includes "_test_" onvoConfig_publishableKey.

Definition onvoConfig_isLiveMode : bool :=
  includes "_live_" onvoConfig_publishableKey.

Definition validateTilopayConfig : ValidationResult :=
  result_of_errors
    ((if String.eqb tilopayConfig_publicKey EmptyString
      then ["NEXT_PUBLIC_TILOPAY_PUBLIC_KEY is required"] else [])
       ++ (if String.eqb (Config.tilopayConfig_secretKey rt) EmptyString
           then ["TILOPAY_SECRET_KEY is required"] else []))%list.

Definition validateOnvoConfig : ValidationResult :=
  result_of_errors
    ((if String.eqb onvoConfig_publishableKey EmptyString
      then ["NEXT_PUBLIC_ONVO_PUBLISHABLE_KEY is required"] else [])
       ++ (if String.eqb (Config.onvoConfig_secretKey rt) EmptyString
           then ["ONVO_SECRET_KEY is required"] else [])
       (* Both keys must be from the same environment (test vs live) *)
       ++ (if negb (String.eqb onvoConfig_publishableKey EmptyString)
              && negb (String.eqb (Config.onvoConfig_secretKey rt) EmptyString)
           then
             let publishableIsTest := includes "_test_" onvoConfig_publishableKey in
             let secretIsTest := includes "_test_" (Config.onvoConfig_secretKey rt) in
             if negb (Bool.eqb publishableIsTest secretIsTest)
             then ["ONVO keys must be from the same environment (both test or both live)"]
             else []
           else []))%list.

(** [provider] is [VUndefined] when the argument is left out. *)
Definition validateConfig (provider : value) : ValidationResult :=
  result_of_errors
    ((if negb (truthy provider) || is_str provider "tilopay"
      then errors validateTilopayConfig else [])
       ++ (if negb (truthy provider) || is_str provider "onvo"
           then errors validateOnvoConfig else []))%list.

Definition assertConfig (provider : value) : exn + unit :=
  let validation := validateConfig provider in
  if negb (isValid validation) then
    inl (JsError
           ("Invalid configuration:" ++ newline
              ++ join_with newline (map (fun e => "  - " ++ e) (errors validation))
              ++ newline
              ++ "Check your .env.local file (see .env.example for reference)."))
  else inr tt.
End WithRuntime.
End ConfigValidation.

(* ================================================================== *)
(** * The class-name helper of the utilities *)
(* ================================================================== *)

Module Utils.
Section WithEngine.
Variable js : Engine.

(** [inputs.filter(Boolean).join(' ')] *)
Definition cn (inputs : list value) : exn + string :=
  Array_join js (filter truthy inputs) " ".
End WithEngine.
End Utils.

(* ================================================================== *)
(** * Vocabulary of the statements beyond the claims *)
(* ================================================================== *)

(** The request holds the password: a non-empty string whose hash is the
    hash of a configured AUTH_PASSWORD. *)
Definition login_granted (SHA256 : string -> list Byte.byte)
    (env : string -> option string) (request_json : option value) : Prop :=
  exists body submitted envPassword,
    request_json = Some body
    /\ prop (nullish_or body (VObj [])) "password" = VStr submitted
    /\ submitted <> EmptyString
    /\ env "AUTH_PASSWORD" = Some envPassword
    /\ envPassword <> EmptyString
    /\ Auth.hashPassword SHA256 submitted = Auth.hashPassword SHA256 envPassword.

(** The cookie of a session. *)
Definition session_cookie (token : string) (secure : bool) : AuthRoutes.Cookie :=
  {| AuthRoutes.cookie_name := "pl_token";
     AuthRoutes.cookie_value := token;
     AuthRoutes.httpOnly := true;
     AuthRoutes.path := "/";
     AuthRoutes.sameSite := "strict";
     AuthRoutes.maxAge := 604800;
     AuthRoutes.secure := Some secure |}.

(** An argument of [cn], by its declared type: a string, undefined, null
    or false. *)
Definition class_input (v : value) : Prop :=
  v = VUndefined \/ v = VNull \/ v = VBool false \/ exists s, v = VStr s.

(** The argument selects this provider in [validateConfig]: it is left out
    (or falsy), or it names the provider. *)
Definition selects (provider : value) (name : string) : bool :=
  negb (truthy provider) || is_str provider name.

(** The text of the currency error and of the URL error of both clients. *)
Definition currency_message (rt : Runtime) (received : value) : string :=
  "currency must be " ++ dq ++ "USD" ++ dq ++ " or " ++ dq ++ "CRC" ++ dq
    ++ " (received " ++ dq ++ text_of (js rt) received ++ dq ++ ")".

Definition url_message (rt : Runtime) (field : string) (received : value) : string :=
  field ++ " must be a valid URL (received " ++ dq ++ text_of (js rt) received
    ++ dq ++ ")".

(** A value that [validateUrl] refuses with its own error: a falsy value,
    or a string that does not start with http. *)
Definition refused_url (v : value) : Prop :=
  truthy v = false \/ exists s, v = VStr s /\ String.prefix "http" s = false.

(* ================================================================== *)
(** * Basic facts: the monad, the checks *)
(* ================================================================== *)

Lemma bind_inr {A B} (m : M A) (k : A -> M B) tr a tr' :
  m tr = (inr a, tr') -> bind m k tr = k a tr'.
Proof. intros H. unfold bind. rewrite H. reflexivity. Qed.

Lemma bind_inl {A B} (m : M A) (k : A -> M B) tr e tr' :
  m tr = (inl e, tr') -> bind m k tr = (inl e, tr').
Proof. intros H. unfold bind. rewrite H. reflexivity. Qed.

Lemma get_prop (e : Engine) v k : nullish v = false -> get e v k = inr (prop v k).
Proof. destruct v; simpl; intros H; try reflexivity; discriminate. Qed.

Lemma get_nullish (e : Engine) v k :
  nullish v = true -> get e v k = inl (TypeError (msg_read_of_nullish e v k)).
Proof. destruct v; simpl; intros H; try reflexivity; discriminate. Qed.

(** The test of [validateAmount] lets through the positive integers only. *)
Lemma amount_test_spec (v : value) :
  match v with
  | VNum n => negb (num_isInteger n) || num_le_zero n
  | _ => true
  end = false <-> positive_integer v.
Proof.
  split.
  - destruct v as [| | |n| | |]; try discriminate.
    destruct n as [|s|q]; simpl; try discriminate.
    intros H. apply orb_false_elim in H. destruct H as [Hint Hle].
    apply negb_false_iff in Hint. apply Qeq_bool_eq in Hint.
    exists q, (Qfloor q). split; [reflexivity|]. split.
    + symmetry. exact Hint.
    + assert (Hpos : 0 < q).
      { apply Qnot_le_lt. intros Hq. apply Qle_bool_iff in Hq. congruence. }
      rewrite Zlt_Qlt. rewrite Hint. exact Hpos.
  - intros (q & z & -> & Hq & Hz). simpl.
    apply orb_false_intro.
    + apply negb_false_iff. apply Qeq_eq_bool.
      rewrite Hq at 1. rewrite Qfloor_Z. symmetry. exact Hq.
    + destruct (Qle_bool q 0) eqn:E; [|reflexivity].
      apply Qle_bool_iff in E. rewrite Hq in E.
      change 0 with (inject_Z 0) in E. rewrite <- Zle_Qle in E. lia.
Qed.

Lemma is_str_known_currency v :
  negb (is_str v "USD") && negb (is_str v "CRC") = false <-> known_currency v.
Proof.
  unfold known_currency. split.
  - destruct v; simpl; try discriminate.
    destruct (String.eqb_spec s "USD"); [subst; auto|].
    destruct (String.eqb_spec s "CRC"); [subst; auto|]. discriminate.
  - intros [-> | ->]; reflexivity.
Qed.

Lemma is_str_known_interval v :
  negb (is_str v "month") && negb (is_str v "year") = false <-> known_interval v.
Proof.
  unfold known_interval. split.
  - destruct v; simpl; try discriminate.
    destruct (String.eqb_spec s "month"); [subst; auto|].
    destruct (String.eqb_spec s "year"); [subst; auto|]. discriminate.
  - intros [-> | ->]; reflexivity.
Qed.

Lemma not_false_true (b : bool) : b <> false -> b = true.
Proof. destruct b; congruence. Qed.

(** A template literal inside a [throw]: the value is converted first. *)
Lemma refusal_thrown {A} js v (error : string -> exn) (tr : list Call) :
  (received <- lift (ToString js v) ;; @throw A (error received)) tr
  = (inl (refusal js v (error (text_of js v))), tr).
Proof.
  unfold bind, lift, throw, refusal, text_of.
  destruct (ToString js v); reflexivity.
Qed.

(** Induction on values, with the elements of an array at hand. *)
Lemma value_elements_ind (P : value -> Prop) :
  P VUndefined -> P VNull -> (forall b, P (VBool b)) -> (forall n, P (VNum n)) ->
  (forall s, P (VStr s)) ->
  (forall items, Forall P items -> P (VArr items)) ->
  (forall props, P (VObj props)) ->
  forall v, P v.
Proof.
  intros H1 H2 H3 H4 H5 H6 H7. fix IH 1.
  intros [| |b|n|s|items|props];
    [apply H1|apply H2|apply H3|apply H4|apply H5| |apply H7].
  apply H6. revert items. fix IHl 1. intros [|x rest]; constructor.
  - apply IH.
  - apply IHl.
Qed.

Lemma ToString_VArr js items :
  ToString js (VArr items) = Array_join js items ",".
Proof.
  unfold Array_join. cbn [ToString].
  match goal with
  | |- match ?f items with _ => _ end = _ =>
      assert (E : f items = join_elements js items)
  end.
  { induction items as [|x rest IHl]; [reflexivity|].
    cbn [join_elements]. rewrite <- IHl. reflexivity. }
  rewrite E. reflexivity.
Qed.

Lemma join_elements_error js items e :
  Forall (fun v => forall e, ToString js v = inl e ->
                             e = TypeError (msg_not_primitive js)) items ->
  join_elements js items = inl e -> e = TypeError (msg_not_primitive js).
Proof.
  induction 1 as [|x rest Hx _ IHl]; [discriminate|]. cbn [join_elements].
  destruct (match x with VUndefined | VNull => inr EmptyString | _ => ToString js x end)
    as [e'|s'] eqn:Ex.
  - intros H. injection H as <-. destruct x; try discriminate Ex; apply (Hx _ Ex).
  - destruct (join_elements js rest) as [e'|parts]; [|discriminate].
    intros H. injection H as <-. apply IHl. reflexivity.
Qed.

(** The conversion throws nothing but its TypeError. *)
Lemma ToString_error js v : forall e,
  ToString js v = inl e -> e = TypeError (msg_not_primitive js).
Proof.
  induction v as [| |b|n|s|items IH|props] using value_elements_ind; intros e;
    try discriminate.
  - destruct b; discriminate.
  - rewrite ToString_VArr. unfold Array_join.
    destruct (join_elements js items) as [e'|parts] eqn:J; [|discriminate].
    intros H. injection H as <-. apply (join_elements_error js items e' IH J).
  - simpl. destruct (has_own "toString" props); intros H; [|discriminate H].
    injection H as <-. reflexivity.
Qed.

Lemma Array_join_error js items sep e :
  Array_join js items sep = inl e -> e = TypeError (msg_not_primitive js).
Proof.
  unfold Array_join. destruct (join_elements js items) as [e'|parts] eqn:J;
    [|discriminate].
  intros H. injection H as <-. apply (join_elements_error js items e'); [|exact J].
  apply Forall_forall. intros v _ x. apply ToString_error.
Qed.

Lemma ToString_throws js v :
  converts js v = false -> ToString js v = inl (TypeError (msg_not_primitive js)).
Proof.
  unfold converts. destruct (ToString js v) as [e|s] eqn:E; [|discriminate].
  intros _. rewrite (ToString_error js v e E). reflexivity.
Qed.

Lemma refusal_converts js v error :
  converts js v = true -> refusal js v error = error.
Proof. unfold converts, refusal. destruct (ToString js v); congruence. Qed.

Lemma refusal_throws js v error :
  converts js v = false -> refusal js v error = TypeError (msg_not_primitive js).
Proof. intros C. unfold refusal. rewrite (ToString_throws js v C). reflexivity. Qed.

Lemma falsy_converts js v : truthy v = false -> converts js v = true.
Proof. destruct v as [| |[|]| | | |]; simpl; intros H; try reflexivity; discriminate. Qed.

(** ** The checks of the TiloPay client *)

Lemma tilopay_validateAmount_ok rt v tr :
  positive_integer v -> Tilopay.validateAmount rt v tr = (inr tt, tr).
Proof.
  intros H. apply amount_test_spec in H. unfold Tilopay.validateAmount.
  rewrite H. reflexivity.
Qed.

Lemma tilopay_validateAmount_bad rt v tr :
  ~ positive_integer v ->
  Tilopay.validateAmount rt v tr
  = (inl (refusal (js rt) v (TilopayError (amount_message rt v) None VUndefined)), tr).
Proof.
  intros H. unfold Tilopay.validateAmount.
  rewrite (not_false_true _ (fun E => H (proj1 (amount_test_spec v) E))).
  apply (refusal_thrown (js rt) v
           (fun received =>
              TilopayError
                ("amount must be a positive integer in centavos (received "
                   ++ received ++ "). " ++ "Example: $10.00 → 1000")
                None VUndefined)).
Qed.

Lemma tilopay_validateCurrency_ok rt v tr :
  known_currency v -> Tilopay.validateCurrency rt v tr = (inr tt, tr).
Proof.
  intros H. apply is_str_known_currency in H. unfold Tilopay.validateCurrency.
  rewrite H. reflexivity.
Qed.

Lemma tilopay_validateInterval_ok rt v tr :
  known_interval v -> Tilopay.validateInterval rt v tr = (inr tt, tr).
Proof.
  intros H. apply is_str_known_interval in H. unfold Tilopay.validateInterval.
  rewrite H. reflexivity.
Qed.

Lemma tilopay_validateInterval_bad rt v tr :
  ~ known_interval v ->
  Tilopay.validateInterval rt v tr
  = (inl (refusal (js rt) v (TilopayError (interval_message rt v) None VUndefined)), tr).
Proof.
  intros H. unfold Tilopay.validateInterval.
  rewrite (not_false_true _ (fun E => H (proj1 (is_str_known_interval v) E))).
  apply (refusal_thrown (js rt) v
           (fun received =>
              TilopayError
                ("interval must be " ++ dq ++ "month" ++ dq ++ " or " ++ dq
                   ++ "year" ++ dq ++ " (received " ++ dq ++ received ++ dq ++ ")")
                None VUndefined)).
Qed.

Lemma tilopay_validateUrl_ok rt v field tr :
  http_url v -> Tilopay.validateUrl rt v field tr = (inr tt, tr).
Proof.
  intros (s & -> & Hs). unfold Tilopay.validateUrl. simpl.
  destruct s as [|a s]; [discriminate|]. simpl.
  unfold bind, lift. simpl in *. rewrite Hs. reflexivity.
Qed.

(** A check returns or throws; it never calls out. *)
Lemma tilopay_validateAmount_silent rt v tr :
  snd (Tilopay.validateAmount rt v tr) = tr.
Proof.
  unfold Tilopay.validateAmount.
  destruct (match v with VNum _ => _ | _ => _ end); [|reflexivity].
  unfold bind, lift. destruct (ToString (js rt) v); reflexivity.
Qed.

Lemma tilopay_validateCurrency_silent rt v tr :
  snd (Tilopay.validateCurrency rt v tr) = tr.
Proof.
  unfold Tilopay.validateCurrency. destruct (_ && _); [|reflexivity].
  unfold bind, lift. destruct (ToString (js rt) v); reflexivity.
Qed.

Lemma tilopay_validateInterval_silent rt v tr :
  snd (Tilopay.validateInterval rt v tr) = tr.
Proof.
  unfold Tilopay.validateInterval. destruct (_ && _); [|reflexivity].
  unfold bind, lift. destruct (ToString (js rt) v); reflexivity.
Qed.

Lemma tilopay_validateUrl_silent rt v field tr :
  snd (Tilopay.validateUrl rt v field tr) = tr.
Proof.
  unfold Tilopay.validateUrl. cbv zeta. unfold bind, lift.
  destruct (negb (truthy v)).
  - destruct (ToString (js rt) v); reflexivity.
  - destruct (startsWith (js rt) v "http") as [e|[|]]; try reflexivity.
    simpl. destruct (ToString (js rt) v); reflexivity.
Qed.

(** ** The checks of the ONVO client *)

Lemma onvo_validateAmount_ok rt v tr :
  positive_integer v -> Onvo.validateAmount rt v tr = (inr tt, tr).
Proof.
  intros H. apply amount_test_spec in H. unfold Onvo.validateAmount.
  rewrite H. reflexivity.
Qed.

Lemma onvo_validateAmount_bad rt v tr :
  ~ positive_integer v ->
  Onvo.validateAmount rt v tr
  = (inl (refusal (js rt) v (OnvoError (amount_message rt v) None VUndefined)), tr).
Proof.
  intros H. unfold Onvo.validateAmount.
  rewrite (not_false_true _ (fun E => H (proj1 (amount_test_spec v) E))).
  apply (refusal_thrown (js rt) v
           (fun received =>
              OnvoError
                ("amount must be a positive integer in centavos (received "
                   ++ received ++ "). " ++ "Example: $10.00 → 1000")
                None VUndefined)).
Qed.

Lemma onvo_validateCurrency_ok rt v tr :
  known_currency v -> Onvo.validateCurrency rt v tr = (inr tt, tr).
Proof.
  intros H. apply is_str_known_currency in H. unfold Onvo.validateCurrency.
  rewrite H. reflexivity.
Qed.

Lemma onvo_validateInterval_ok rt v tr :
  known_interval v -> Onvo.validateInterval rt v tr = (inr tt, tr).
Proof.
  intros H. apply is_str_known_interval in H. unfold Onvo.validateInterval.
  rewrite H. reflexivity.
Qed.

Lemma onvo_validateInterval_bad rt v tr :
  ~ known_interval v ->
  Onvo.validateInterval rt v tr
  = (inl (refusal (js rt) v (OnvoError (interval_message rt v) None VUndefined)), tr).
Proof.
  intros H. unfold Onvo.validateInterval.
  rewrite (not_false_true _ (fun E => H (proj1 (is_str_known_interval v) E))).
  apply (refusal_thrown (js rt) v
           (fun received =>
              OnvoError
                ("interval must be " ++ dq ++ "month" ++ dq ++ " or " ++ dq
                   ++ "year" ++ dq ++ " (received " ++ dq ++ received ++ dq ++ ")")
                None VUndefined)).
Qed.

Lemma onvo_validateUrl_ok rt v field tr :
  http_url v -> Onvo.validateUrl rt v field tr = (inr tt, tr).
Proof.
  intros (s & -> & Hs). unfold Onvo.validateUrl. simpl.
  destruct s as [|a s]; [discriminate|]. simpl.
  unfold bind, lift. simpl in *. rewrite Hs. reflexivity.
Qed.

(* ================================================================== *)
(** * What a computation puts on the wire *)
(* ================================================================== *)

Lemma silent_emits {A} P (m : M A) : silent m -> emits P m.
Proof. intros H tr. exists []. rewrite H, app_nil_r. auto. Qed.

Lemma emits_nothing_silent {A} (m : M A) : emits (fun _ => False) m -> silent m.
Proof.
  intros H tr. destruct (H tr) as (new & E & F).
  destruct new as [|c new]; [now rewrite app_nil_r in E|].
  inversion F; contradiction.
Qed.

Lemma emits_weaken {A} (P Q : Call -> Prop) (m : M A) :
  (forall c, P c -> Q c) -> emits P m -> emits Q m.
Proof.
  intros PQ H tr. destruct (H tr) as (new & E & F).
  exists new. split; [exact E|]. eapply Forall_impl; eauto.
Qed.

Lemma emits_ret {A} P (a : A) : emits P (ret a).
Proof. apply silent_emits. intro; reflexivity. Qed.

Lemma emits_throw {A} P e : emits P (@throw A e).
Proof. apply silent_emits. intro; reflexivity. Qed.

Lemma emits_lift {A} P (r : exn + A) : emits P (lift r).
Proof. apply silent_emits. intro; reflexivity. Qed.

Lemma emits_bind {A B} P (m : M A) (k : A -> M B) :
  emits P m -> (forall a, emits P (k a)) -> emits P (bind m k).
Proof.
  intros Hm Hk tr. unfold bind. destruct (Hm tr) as (n1 & E1 & F1).
  destruct (m tr) as [[e|a] tr1]; simpl in E1; subst tr1.
  - exists n1. auto.
  - destruct (Hk a (tr ++ n1)%list) as (n2 & E2 & F2).
    exists (n1 ++ n2)%list. rewrite E2, app_assoc. split; [reflexivity|].
    apply Forall_app; auto.
Qed.

Lemma emits_try_catch {A} P (m : M A) (h : exn -> M A) :
  emits P m -> (forall e, emits P (h e)) -> emits P (try_catch m h).
Proof.
  intros Hm Hh tr. unfold try_catch. destruct (Hm tr) as (n1 & E1 & F1).
  destruct (m tr) as [[e|a] tr1]; simpl in E1; subst tr1.
  - destruct (Hh e (tr ++ n1)%list) as (n2 & E2 & F2).
    exists (n1 ++ n2)%list. rewrite E2, app_assoc. split; [reflexivity|].
    apply Forall_app; auto.
  - exists n1. auto.
Qed.

Lemma emits_fetch P rt c : P c -> emits P (fetch rt c).
Proof.
  intros Hc tr. exists [c]. unfold fetch.
  destruct (server rt tr c); simpl; auto.
Qed.

Lemma emits_if {A} P (b : bool) (m1 m2 : M A) :
  emits P m1 -> emits P m2 -> emits P (if b then m1 else m2).
Proof. destruct b; auto. Qed.

Lemma emits_Response_json P rt r : emits P (Response_json rt r).
Proof.
  unfold Response_json. destruct (r_json r); [apply emits_ret|apply emits_throw].
Qed.

(** Steps that fit every computation built from the combinators. *)
Ltac wire_step :=
  first
    [ apply emits_ret | apply emits_throw | apply emits_lift
    | apply emits_Response_json
    | apply emits_bind; [|intros ?]
    | apply emits_try_catch; [|intros ?]
    | apply emits_if
    | match goal with
      | |- emits _ (match ?x with _ => _ end) => destruct x
      | |- emits _ (let _ := _ in _) => cbv zeta
      end ].

Lemma tilopay_validateAmount_emits P rt v : emits P (Tilopay.validateAmount rt v).
Proof. apply silent_emits. intro. apply tilopay_validateAmount_silent. Qed.

Lemma tilopay_validateCurrency_emits P rt v : emits P (Tilopay.validateCurrency rt v).
Proof. apply silent_emits. intro. apply tilopay_validateCurrency_silent. Qed.

Lemma tilopay_validateInterval_emits P rt v : emits P (Tilopay.validateInterval rt v).
Proof. apply silent_emits. intro. apply tilopay_validateInterval_silent. Qed.

Lemma tilopay_validateUrl_emits P rt v f : emits P (Tilopay.validateUrl rt v f).
Proof. apply silent_emits. intro. apply tilopay_validateUrl_silent. Qed.

Lemma onvo_validateAmount_emits P rt v : emits P (Onvo.validateAmount rt v).
Proof. unfold Onvo.validateAmount. repeat wire_step. Qed.

Lemma onvo_validateCurrency_emits P rt v : emits P (Onvo.validateCurrency rt v).
Proof. unfold Onvo.validateCurrency. repeat wire_step. Qed.

Lemma onvo_validateInterval_emits P rt v : emits P (Onvo.validateInterval rt v).
Proof. unfold Onvo.validateInterval. repeat wire_step. Qed.

Lemma onvo_validateUrl_emits P rt v f : emits P (Onvo.validateUrl rt v f).
Proof. unfold Onvo.validateUrl. repeat wire_step. Qed.

(** The helpers put exactly their own call on the wire, if any. *)
Lemma tilopay_request_emits (P : Call -> Prop) rt path body :
  P (tilopay_call rt path body) -> emits P (Tilopay.request rt path body).
Proof.
  intros Hc. unfold Tilopay.request.
  destruct (String.eqb _ _); [apply emits_throw|].
  apply emits_bind.
  - apply emits_try_catch; [apply emits_fetch; exact Hc | intro; apply emits_throw].
  - intros r. repeat wire_step.
Qed.

Lemma onvo_request_emits (P : Call -> Prop) rt path body :
  P (onvo_call rt path body) -> emits P (Onvo.request rt "POST" path (Some body)).
Proof.
  intros Hc. unfold Onvo.request.
  destruct (String.eqb _ _); [apply emits_throw|].
  apply emits_bind.
  - apply emits_try_catch; [apply emits_fetch; exact Hc | intro; apply emits_throw].
  - intros r. repeat wire_step.
Qed.

(** With a secret configured the helper makes its call, whatever comes back. *)
Lemma tilopay_request_calls rt path body tr :
  Config.tilopayConfig_secretKey rt <> EmptyString ->
  Tilopay.request rt path body tr
  = (tilopay_outcome rt tr path body, (tr ++ [tilopay_call rt path body])%list).
Proof.
  intros Hkey. unfold tilopay_outcome.
  rewrite (surjective_pairing (Tilopay.request rt path body tr)) at 1.
  f_equal.
  unfold Tilopay.request, tilopay_call.
  destruct (String.eqb_spec (Config.tilopayConfig_secretKey rt) EmptyString) as [E|_];
    [contradiction|].
  unfold bind at 1. unfold try_catch, fetch.
  destruct (server rt tr _) as [msg|r]; [reflexivity|].
  simpl.
  assert (S : forall (m : M value), silent m -> forall t, snd (m t) = t) by auto.
  apply S. apply emits_nothing_silent. repeat wire_step.
Qed.

Lemma onvo_request_calls rt path body tr :
  Config.onvoConfig_secretKey rt <> EmptyString ->
  Onvo.request rt "POST" path (Some body) tr
  = (onvo_outcome rt tr path body, (tr ++ [onvo_call rt path body])%list).
Proof.
  intros Hkey. unfold onvo_outcome.
  rewrite (surjective_pairing (Onvo.request rt "POST" path (Some body) tr)) at 1.
  f_equal.
  unfold Onvo.request, onvo_call.
  destruct (String.eqb_spec (Config.onvoConfig_secretKey rt) EmptyString) as [E|_];
    [contradiction|].
  unfold bind at 1. unfold try_catch, fetch.
  destruct (server rt tr _) as [msg|r]; [reflexivity|].
  simpl.
  assert (S : forall (m : M value), silent m -> forall t, snd (m t) = t) by auto.
  apply S. apply emits_nothing_silent. repeat wire_step.
Qed.

(** Without a secret the helper throws at once. *)
Lemma tilopay_request_unconfigured rt path body tr :
  Config.tilopayConfig_secretKey rt = EmptyString ->
  Tilopay.request rt path body tr = (inl tilopay_config_error, tr).
Proof. intros E. unfold Tilopay.request. rewrite E. reflexivity. Qed.

Lemma onvo_request_unconfigured rt method path body tr :
  Config.onvoConfig_secretKey rt = EmptyString ->
  Onvo.request rt method path body tr = (inl onvo_config_error, tr).
Proof. intros E. unfold Onvo.request. rewrite E. reflexivity. Qed.

(** A missing variable and an empty one both leave the secret empty. *)
Lemma envOrEmpty_absent rt key :
  missing_or_empty rt key -> Config.envOrEmpty rt key = EmptyString.
Proof. unfold Config.envOrEmpty. intros [-> | ->]; reflexivity. Qed.

(* ================================================================== *)
(** * The four operations *)
(* ================================================================== *)

(** A computation that calls nothing returns or throws where it stands. *)
Lemma silent_cases {A} (m : M A) tr :
  silent m -> (exists a, m tr = (inr a, tr)) \/ (exists e, m tr = (inl e, tr)).
Proof.
  intros H. specialize (H tr). destruct (m tr) as [[e|a] tr']; simpl in H; subst;
    eauto.
Qed.

Lemma unit_cases (m : M unit) tr :
  silent m -> m tr = (inr tt, tr) \/ (exists e, m tr = (inl e, tr)).
Proof.
  intros H. destruct (silent_cases m tr H) as [[[] E]|E]; auto.
Qed.

Lemma onvo_validateUrl_silent rt v f : silent (Onvo.validateUrl rt v f).
Proof. apply emits_nothing_silent, onvo_validateUrl_emits. Qed.

Lemma onvo_validateAmount_silent rt v : silent (Onvo.validateAmount rt v).
Proof. apply emits_nothing_silent, onvo_validateAmount_emits. Qed.

Lemma onvo_validateCurrency_silent rt v : silent (Onvo.validateCurrency rt v).
Proof. apply emits_nothing_silent, onvo_validateCurrency_emits. Qed.

Lemma onvo_validateInterval_silent rt v : silent (Onvo.validateInterval rt v).
Proof. apply emits_nothing_silent, onvo_validateInterval_emits. Qed.

(** Case analysis on one check in front of a computation. *)
Ltac pass_check Hsilent :=
  match goal with
  | |- context [bind ?m ?k ?tr] =>
      let E := fresh "E" in
      destruct (unit_cases m tr Hsilent) as [E|[? E]];
      [ rewrite (bind_inr m k tr tt tr E)
      | rewrite (bind_inl m k tr _ tr E); eauto ]
  end.

(** Either a check of the operation throws, with nothing sent, or the
    operation is its single request. *)
Lemma tilopay_createPaymentIntent_cases rt p tr :
  (exists e, Tilopay.createPaymentIntent rt p tr = (inl e, tr))
  \/ Tilopay.createPaymentIntent rt p tr
     = Tilopay.request rt "/payment_intents" (tilopay_payment_payload p) tr.
Proof.
  unfold Tilopay.createPaymentIntent.
  pass_check (fun t => tilopay_validateAmount_silent rt (amount p) t).
  pass_check (fun t => tilopay_validateCurrency_silent rt (currency p) t).
  pass_check (fun t => tilopay_validateUrl_silent rt (success_url p) "success_url" t).
  pass_check (fun t => tilopay_validateUrl_silent rt (cancel_url p) "cancel_url" t).
  right. reflexivity.
Qed.

Lemma tilopay_createSubscription_cases rt p tr :
  (exists e, Tilopay.createSubscription rt p tr = (inl e, tr))
  \/ Tilopay.createSubscription rt p tr
     = Tilopay.request rt "/subscriptions" (tilopay_subscription_payload p) tr.
Proof.
  unfold Tilopay.createSubscription.
  pass_check (fun t => tilopay_validateAmount_silent rt (amount p) t).
  pass_check (fun t => tilopay_validateCurrency_silent rt (currency p) t).
  pass_check (fun t => tilopay_validateInterval_silent rt (interval p) t).
  pass_check (fun t => tilopay_validateUrl_silent rt (success_url p) "success_url" t).
  pass_check (fun t => tilopay_validateUrl_silent rt (cancel_url p) "cancel_url" t).
  right. reflexivity.
Qed.

Lemma tilopay_createPaymentIntent_valid rt p tr :
  valid_one_time p ->
  Tilopay.createPaymentIntent rt p tr
  = Tilopay.request rt "/payment_intents" (tilopay_payment_payload p) tr.
Proof.
  intros (Ha & Hc & Hs & Hx). unfold Tilopay.createPaymentIntent.
  rewrite (bind_inr _ _ _ _ _ (tilopay_validateAmount_ok rt _ tr Ha)).
  rewrite (bind_inr _ _ _ _ _ (tilopay_validateCurrency_ok rt _ tr Hc)).
  rewrite (bind_inr _ _ _ _ _ (tilopay_validateUrl_ok rt _ _ tr Hs)).
  rewrite (bind_inr _ _ _ _ _ (tilopay_validateUrl_ok rt _ _ tr Hx)).
  reflexivity.
Qed.

Lemma tilopay_createSubscription_valid rt p tr :
  valid_recurring p ->
  Tilopay.createSubscription rt p tr
  = Tilopay.request rt "/subscriptions" (tilopay_subscription_payload p) tr.
Proof.
  intros ((Ha & Hc & Hs & Hx) & Hi). unfold Tilopay.createSubscription.
  rewrite (bind_inr _ _ _ _ _ (tilopay_validateAmount_ok rt _ tr Ha)).
  rewrite (bind_inr _ _ _ _ _ (tilopay_validateCurrency_ok rt _ tr Hc)).
  rewrite (bind_inr _ _ _ _ _ (tilopay_validateInterval_ok rt _ tr Hi)).
  rewrite (bind_inr _ _ _ _ _ (tilopay_validateUrl_ok rt _ _ tr Hs)).
  rewrite (bind_inr _ _ _ _ _ (tilopay_validateUrl_ok rt _ _ tr Hx)).
  reflexivity.
Qed.

(* ================================================================== *)
(** * C9: the amount check comes first *)
(* ================================================================== *)

Lemma tilopay_createPaymentIntent_bad_amount rt p tr :
  ~ positive_integer (amount p) ->
  Tilopay.createPaymentIntent rt p tr
  = (inl (refusal (js rt) (amount p)
            (TilopayError (amount_message rt (amount p)) None VUndefined)), tr).
Proof.
  intros H. unfold Tilopay.createPaymentIntent.
  apply bind_inl, tilopay_validateAmount_bad, H.
Qed.

Lemma tilopay_createSubscription_bad_amount rt p tr :
  ~ positive_integer (amount p) ->
  Tilopay.createSubscription rt p tr
  = (inl (refusal (js rt) (amount p)
            (TilopayError (amount_message rt (amount p)) None VUndefined)), tr).
Proof.
  intros H. unfold Tilopay.createSubscription.
  apply bind_inl, tilopay_validateAmount_bad, H.
Qed.

Lemma onvo_createPaymentIntent_bad_amount rt p tr :
  ~ positive_integer (amount p) ->
  Onvo.createPaymentIntent rt p tr
  = (inl (refusal (js rt) (amount p)
            (OnvoError (amount_message rt (amount p)) None VUndefined)), tr).
Proof.
  intros H. unfold Onvo.createPaymentIntent.
  apply bind_inl, onvo_validateAmount_bad, H.
Qed.

Lemma onvo_createSubscription_bad_amount rt p tr :
  ~ positive_integer (amount p) ->
  Onvo.createSubscription rt p tr
  = (inl (refusal (js rt) (amount p)
            (OnvoError (amount_message rt (amount p)) None VUndefined)), tr).
Proof.
  intros H. unfold Onvo.createSubscription.
  apply bind_inl, onvo_validateAmount_bad, H.
Qed.

(** C9 as the code has it.  In both clients, [createPaymentIntent] and
    [createSubscription] called with an amount that is not a positive
    integer (a decimal such as 10.5, zero, a negative number, or no number
    at all) throw before anything is sent: the list of outbound calls is left
    as it was.  What is thrown is the amount error whenever the amount can be
    written into its message, as every number can; for a value that cannot
    (an object with an own [toString]) it is the TypeError of that
    conversion. *)
Theorem amount_error_before_any_request rt p tr :
  ~ positive_integer (amount p) ->
  (converts (js rt) (amount p) = true ->
   Tilopay.createPaymentIntent rt p tr
   = (inl (TilopayError (amount_message rt (amount p)) None VUndefined), tr)
   /\ Tilopay.createSubscription rt p tr
      = (inl (TilopayError (amount_message rt (amount p)) None VUndefined), tr)
   /\ Onvo.createPaymentIntent rt p tr
      = (inl (OnvoError (amount_message rt (amount p)) None VUndefined), tr)
   /\ Onvo.createSubscription rt p tr
      = (inl (OnvoError (amount_message rt (amount p)) None VUndefined), tr))
  /\ (converts (js rt) (amount p) = false ->
      let e := TypeError (msg_not_primitive (js rt)) in
      Tilopay.createPaymentIntent rt p tr = (inl e, tr)
      /\ Tilopay.createSubscription rt p tr = (inl e, tr)
      /\ Onvo.createPaymentIntent rt p tr = (inl e, tr)
      /\ Onvo.createSubscription rt p tr = (inl e, tr))
  /\ (forall n, amount p = VNum n -> converts (js rt) (amount p) = true).
Proof.
  intros H.
  pose proof (tilopay_createPaymentIntent_bad_amount rt p tr H) as E1.
  pose proof (tilopay_createSubscription_bad_amount rt p tr H) as E2.
  pose proof (onvo_createPaymentIntent_bad_amount rt p tr H) as E3.
  pose proof (onvo_createSubscription_bad_amount rt p tr H) as E4.
  split; [|split].
  - intros C.
    rewrite (refusal_converts _ _ _ C) in E1. rewrite (refusal_converts _ _ _ C) in E2.
    rewrite (refusal_converts _ _ _ C) in E3. rewrite (refusal_converts _ _ _ C) in E4.
    auto.
  - intros T e.
    rewrite (refusal_throws _ _ _ T) in E1. rewrite (refusal_throws _ _ _ T) in E2.
    rewrite (refusal_throws _ _ _ T) in E3. rewrite (refusal_throws _ _ _ T) in E4.
    auto.
  - intros n ->. reflexivity.
Qed.

Lemma ten_and_a_half_rejected : ~ positive_integer (VNum (Fin (21 # 2))).
Proof. intros H. apply amount_test_spec in H. discriminate H. Qed.

Lemma zero_rejected : ~ positive_integer (VNum (Fin 0)).
Proof. intros H. apply amount_test_spec in H. discriminate H. Qed.

Lemma negative_rejected : ~ positive_integer (VNum (Fin (-5))).
Proof. intros H. apply amount_test_spec in H. discriminate H. Qed.

Lemma amount_error_before_any_request_witness :
  let rt := Example.runtime Example.configured [] in
  let p := Example.params (VNum (Fin (21 # 2))) "USD" (VStr "month") in
  ~ positive_integer (amount p)
  /\ run (Tilopay.createPaymentIntent rt p)
     = (inl (TilopayError (amount_message rt (amount p)) None VUndefined), [])
  /\ run (Onvo.createSubscription rt p)
     = (inl (OnvoError (amount_message rt (amount p)) None VUndefined), []).
Proof.
  intros rt p.
  assert (H : ~ positive_integer (amount p)).
  { intros H. apply amount_test_spec in H. discriminate H. }
  split; [exact H|].
  destruct (amount_error_before_any_request rt p [] H) as (C & _ & _).
  destruct (C eq_refl) as (E1 & _ & _ & E4).
  unfold run. rewrite E1, E4. split; reflexivity.
Defined.

(** C9, the claim as written, fails for an amount that has no text.  The
    body of a request to /api/generate is any JSON value, and the route
    hands its [amount] to the client unchecked: for the object
    [{"toString": null}] the template literal of the amount error throws a
    TypeError.  That is what the operation throws, and what the route
    answers with; still nothing is sent. *)
Lemma amount_without_text_counterexample :
  let rt := Example.runtime Example.configured [] in
  let odd := VObj [("toString", VNull)] in
  let p := Example.params odd "USD" (VStr "month") in
  let body := Example.generate_body odd "one_time" "tilopay" [] in
  ~ positive_integer (amount p)
  /\ run (Tilopay.createPaymentIntent rt p)
     = (inl (TypeError "Cannot convert object to primitive value"), [])
  /\ run (Onvo.createSubscription rt p)
     = (inl (TypeError "Cannot convert object to primitive value"), [])
  /\ (forall message statusCode code,
        result_of (Tilopay.createPaymentIntent rt p)
        <> inl (TilopayError message statusCode code))
  /\ run (GenerateRoute.POST rt (Some body))
     = (inr (NextResponse_json
               (VObj [("error", VStr "Cannot convert object to primitive value")])
               500), []).
Proof.
  intros rt odd p body. split; [|repeat split].
  - intros H. apply amount_test_spec in H. discriminate H.
  - intros message statusCode code E. vm_compute in E. discriminate E.
Qed.

(* ================================================================== *)
(** * C8: the credential check comes before the network *)
(* ================================================================== *)

Lemma tilopay_unconfigured_createPaymentIntent rt p tr :
  Config.tilopayConfig_secretKey rt = EmptyString ->
  exists e, Tilopay.createPaymentIntent rt p tr = (inl e, tr)
            /\ (valid_one_time p -> e = tilopay_config_error).
Proof.
  intros K. destruct (tilopay_createPaymentIntent_cases rt p tr) as [[e E]|E].
  - exists e. split; [exact E|]. intros V.
    rewrite (tilopay_createPaymentIntent_valid rt p tr V) in E.
    rewrite (tilopay_request_unconfigured rt _ _ tr K) in E. congruence.
  - exists tilopay_config_error. split; [|reflexivity].
    rewrite E. apply tilopay_request_unconfigured, K.
Qed.

Lemma tilopay_unconfigured_createSubscription rt p tr :
  Config.tilopayConfig_secretKey rt = EmptyString ->
  exists e, Tilopay.createSubscription rt p tr = (inl e, tr)
            /\ (valid_recurring p -> e = tilopay_config_error).
Proof.
  intros K. destruct (tilopay_createSubscription_cases rt p tr) as [[e E]|E].
  - exists e. split; [exact E|]. intros V.
    rewrite (tilopay_createSubscription_valid rt p tr V) in E.
    rewrite (tilopay_request_unconfigured rt _ _ tr K) in E. congruence.
  - exists tilopay_config_error. split; [|reflexivity].
    rewrite E. apply tilopay_request_unconfigured, K.
Qed.

Lemma onvo_unconfigured_createPaymentIntent rt p tr :
  Config.onvoConfig_secretKey rt = EmptyString ->
  exists e, Onvo.createPaymentIntent rt p tr = (inl e, tr)
            /\ (valid_one_time p -> e = onvo_config_error).
Proof.
  intros K.
  assert (V : valid_one_time p ->
              Onvo.createPaymentIntent rt p tr = (inl onvo_config_error, tr)).
  { intros (Ha & Hc & Hs & Hx). unfold Onvo.createPaymentIntent.
    rewrite (bind_inr _ _ _ _ _ (onvo_validateAmount_ok rt _ tr Ha)).
    rewrite (bind_inr _ _ _ _ _ (onvo_validateCurrency_ok rt _ tr Hc)).
    rewrite (bind_inr _ _ _ _ _ (onvo_validateUrl_ok rt _ _ tr Hs)).
    rewrite (bind_inr _ _ _ _ _ (onvo_validateUrl_ok rt _ _ tr Hx)).
    apply bind_inl. unfold Onvo.createProduct.
    apply onvo_request_unconfigured, K. }
  assert (F : exists e, Onvo.createPaymentIntent rt p tr = (inl e, tr)).
  { unfold Onvo.createPaymentIntent.
    pass_check (onvo_validateAmount_silent rt (amount p)).
    pass_check (onvo_validateCurrency_silent rt (currency p)).
    pass_check (onvo_validateUrl_silent rt (success_url p) "success_url").
    pass_check (onvo_validateUrl_silent rt (cancel_url p) "cancel_url").
    exists onvo_config_error. apply bind_inl. unfold Onvo.createProduct.
    apply onvo_request_unconfigured, K. }
  destruct F as [e E]. exists e. split; [exact E|].
  intros Hv. rewrite (V Hv) in E. congruence.
Qed.

Lemma onvo_unconfigured_createSubscription rt p tr :
  Config.onvoConfig_secretKey rt = EmptyString ->
  exists e, Onvo.createSubscription rt p tr = (inl e, tr)
            /\ (valid_recurring p -> e = onvo_config_error).
Proof.
  intros K.
  assert (V : valid_recurring p ->
              Onvo.createSubscription rt p tr = (inl onvo_config_error, tr)).
  { intros ((Ha & Hc & Hs & Hx) & Hi). unfold Onvo.createSubscription.
    rewrite (bind_inr _ _ _ _ _ (onvo_validateAmount_ok rt _ tr Ha)).
    rewrite (bind_inr _ _ _ _ _ (onvo_validateCurrency_ok rt _ tr Hc)).
    rewrite (bind_inr _ _ _ _ _ (onvo_validateInterval_ok rt _ tr Hi)).
    rewrite (bind_inr _ _ _ _ _ (onvo_validateUrl_ok rt _ _ tr Hs)).
    rewrite (bind_inr _ _ _ _ _ (onvo_validateUrl_ok rt _ _ tr Hx)).
    apply bind_inl. unfold Onvo.createCustomer.
    apply onvo_request_unconfigured, K. }
  assert (F : exists e, Onvo.createSubscription rt p tr = (inl e, tr)).
  { unfold Onvo.createSubscription.
    pass_check (onvo_validateAmount_silent rt (amount p)).
    pass_check (onvo_validateCurrency_silent rt (currency p)).
    pass_check (onvo_validateInterval_silent rt (interval p)).
    pass_check (onvo_validateUrl_silent rt (success_url p) "success_url").
    pass_check (onvo_validateUrl_silent rt (cancel_url p) "cancel_url").
    exists onvo_config_error. apply bind_inl. unfold Onvo.createCustomer.
    apply onvo_request_unconfigured, K. }
  destruct F as [e E]. exists e. split; [exact E|].
  intros Hv. rewrite (V Hv) in E. congruence.
Qed.

(** C8.  When the secret of a provider is missing or empty, every call of
    that client's HTTP helper throws the configuration error and leaves the
    list of outbound calls untouched: the check stands before [fetch].  Hence
    each of the client's operations ends in an error with no call made, and
    for parameters that pass the operation's own checks that error is the
    configuration error. *)
Theorem credential_checked_before_network rt :
  (missing_or_empty rt "TILOPAY_SECRET_KEY" ->
     (forall path body tr,
        Tilopay.request rt path body tr = (inl tilopay_config_error, tr))
     /\ (forall p tr, exists e,
           Tilopay.createPaymentIntent rt p tr = (inl e, tr)
           /\ (valid_one_time p -> e = tilopay_config_error))
     /\ (forall p tr, exists e,
           Tilopay.createSubscription rt p tr = (inl e, tr)
           /\ (valid_recurring p -> e = tilopay_config_error)))
  /\
  (missing_or_empty rt "ONVO_SECRET_KEY" ->
     (forall method path body tr,
        Onvo.request rt method path body tr = (inl onvo_config_error, tr))
     /\ (forall p tr, exists e,
           Onvo.createPaymentIntent rt p tr = (inl e, tr)
           /\ (valid_one_time p -> e = onvo_config_error))
     /\ (forall p tr, exists e,
           Onvo.createSubscription rt p tr = (inl e, tr)
           /\ (valid_recurring p -> e = onvo_config_error))).
Proof.
  split; intros H; apply envOrEmpty_absent in H.
  - split; [|split]; intros.
    + apply tilopay_request_unconfigured, H.
    + apply tilopay_unconfigured_createPaymentIntent, H.
    + apply tilopay_unconfigured_createSubscription, H.
  - split; [|split]; intros.
    + apply onvo_request_unconfigured, H.
    + apply onvo_unconfigured_createPaymentIntent, H.
    + apply onvo_unconfigured_createSubscription, H.
Qed.

Lemma example_params_valid :
  valid_recurring (Example.params (Example.num 1000) "USD" (VStr "month")).
Proof.
  repeat split.
  - exists (inject_Z 1000), 1000%Z. repeat split; reflexivity.
  - left; reflexivity.
  - eexists; split; reflexivity.
  - eexists; split; reflexivity.
  - left; reflexivity.
Qed.

Lemma credential_checked_before_network_witness :
  let rt := Example.runtime Example.unconfigured [] in
  let p := Example.params (Example.num 1000) "USD" (VStr "month") in
  run (Tilopay.createPaymentIntent rt p) = (inl tilopay_config_error, [])
  /\ run (Onvo.createSubscription rt p) = (inl onvo_config_error, []).
Proof.
  intros rt p.
  destruct (credential_checked_before_network rt) as [T O].
  destruct (T (or_introl eq_refl)) as (_ & T1 & _).
  destruct (O (or_introl eq_refl)) as (_ & _ & O2).
  destruct (T1 p []) as (e1 & E1 & V1).
  destruct (O2 p []) as (e2 & E2 & V2).
  unfold run. rewrite E1, E2.
  rewrite (V1 (proj1 example_params_valid)), (V2 example_params_valid).
  split; reflexivity.
Defined.

(* ================================================================== *)
(** * C7: the single-call client *)
(* ================================================================== *)

Lemma tilopay_request_trace rt path body tr :
  snd (Tilopay.request rt path body tr) = tr
  \/ snd (Tilopay.request rt path body tr)
     = (tr ++ [tilopay_call rt path body])%list.
Proof.
  destruct (String.eqb_spec (Config.tilopayConfig_secretKey rt) EmptyString) as [E|N].
  - left. rewrite (tilopay_request_unconfigured rt path body tr E). reflexivity.
  - right. rewrite (tilopay_request_calls rt path body tr N). reflexivity.
Qed.

(** A 2xx answer with a JSON body is handed back as it is. *)
Lemma tilopay_outcome_2xx rt path body tr r v :
  Config.tilopayConfig_secretKey rt <> EmptyString ->
  server rt tr (tilopay_call rt path body) = Resolved r ->
  r_ok r = true -> r_json r = Some v ->
  tilopay_outcome rt tr path body = inr v.
Proof.
  intros N S Hok Hjson. unfold tilopay_outcome, Tilopay.request.
  destruct (String.eqb_spec (Config.tilopayConfig_secretKey rt) EmptyString) as [E|_];
    [contradiction|].
  unfold bind, try_catch, fetch. fold (tilopay_call rt path body).
  rewrite S, Hok. simpl. unfold Response_json. rewrite Hjson. reflexivity.
Qed.

(** C7 as the code has it.  An operation of the TiloPay client makes at
    most one outbound call, the one to its own endpoint with its own
    payload, and exactly that one as soon as its parameters pass the checks
    and the secret is configured.  The body of a 2xx answer is returned as
    parsed: the client does not look for a [url] field, so there is no
    error for a body without one. *)
Theorem simple_adapter_single_call rt p tr :
  (snd (Tilopay.createPaymentIntent rt p tr) = tr
   \/ snd (Tilopay.createPaymentIntent rt p tr)
      = (tr ++ [tilopay_call rt "/payment_intents" (tilopay_payment_payload p)])%list)
  /\ (snd (Tilopay.createSubscription rt p tr) = tr
      \/ snd (Tilopay.createSubscription rt p tr)
         = (tr ++ [tilopay_call rt "/subscriptions" (tilopay_subscription_payload p)])%list)
  /\ (Config.tilopayConfig_secretKey rt <> EmptyString ->
      (valid_one_time p ->
         Tilopay.createPaymentIntent rt p tr
         = (tilopay_outcome rt tr "/payment_intents" (tilopay_payment_payload p),
            (tr ++ [tilopay_call rt "/payment_intents" (tilopay_payment_payload p)])%list))
      /\ (valid_recurring p ->
            Tilopay.createSubscription rt p tr
            = (tilopay_outcome rt tr "/subscriptions" (tilopay_subscription_payload p),
               (tr ++ [tilopay_call rt "/subscriptions" (tilopay_subscription_payload p)])%list))
      /\ (forall path body r v,
            server rt tr (tilopay_call rt path body) = Resolved r ->
            r_ok r = true -> r_json r = Some v ->
            tilopay_outcome rt tr path body = inr v)).
Proof.
  split; [|split].
  - destruct (tilopay_createPaymentIntent_cases rt p tr) as [[e E]|E]; rewrite E.
    + left; reflexivity.
    + apply tilopay_request_trace.
  - destruct (tilopay_createSubscription_cases rt p tr) as [[e E]|E]; rewrite E.
    + left; reflexivity.
    + apply tilopay_request_trace.
  - intros N. split; [|split].
    + intros V. rewrite (tilopay_createPaymentIntent_valid rt p tr V).
      apply tilopay_request_calls, N.
    + intros V. rewrite (tilopay_createSubscription_valid rt p tr V).
      apply tilopay_request_calls, N.
    + intros path body r v. apply tilopay_outcome_2xx, N.
Qed.

Lemma simple_adapter_single_call_witness :
  let rt := Example.runtime Example.configured
              [Example.ok_json (VObj [("url", VStr "https://pay.example/abc")])] in
  let p := Example.params (Example.num 1000) "USD" (VStr "month") in
  run (Tilopay.createPaymentIntent rt p)
  = (inr (VObj [("url", VStr "https://pay.example/abc")]),
     [tilopay_call rt "/payment_intents" (tilopay_payment_payload p)]).
Proof.
  intros rt p.
  destruct (simple_adapter_single_call rt p []) as (_ & _ & H).
  assert (N : Config.tilopayConfig_secretKey rt <> EmptyString) by discriminate.
  destruct (H N) as (H1 & _ & H3).
  unfold run. rewrite (H1 (proj1 example_params_valid)).
  rewrite (H3 _ _ _ _ eq_refl eq_refl eq_refl). reflexivity.
Defined.

(** C7, the claim as written, fails: the provider answers 200 with a body
    that has no [url], and the operation returns that body as a success.
    And the same operation makes no call at all when no secret is set. *)
Lemma simple_adapter_missing_url_counterexample :
  let answer := {| r_status := 200; r_statusText := "OK";
                   r_text := "<json>"; r_json := Some (VObj [("id", VStr "pi_1")]) |} in
  let rt := Example.runtime Example.configured [Resolved answer] in
  let p := Example.params (Example.num 1000) "USD" VUndefined in
  r_ok answer = true
  /\ prop (VObj [("id", VStr "pi_1")]) "url" = VUndefined
  /\ run (Tilopay.createPaymentIntent rt p)
     = (inr (VObj [("id", VStr "pi_1")]),
        [tilopay_call rt "/payment_intents" (tilopay_payment_payload p)])
  /\ ~ (exists e, result_of (Tilopay.createPaymentIntent rt p) = inl e)
  /\ calls_of (Tilopay.createPaymentIntent
                 (Example.runtime Example.unconfigured [Resolved answer]) p) = [].
Proof.
  intros answer rt p. repeat split.
  intros [e E]. vm_compute in E. discriminate E.
Qed.

(* ================================================================== *)
(** * C2 and C3: the sequences of the multi-step client *)
(* ================================================================== *)

Lemma onvo_step rt path body tr o :
  Config.onvoConfig_secretKey rt <> EmptyString ->
  onvo_outcome rt tr path body = o ->
  Onvo.request rt "POST" path (Some body) tr
  = (o, (tr ++ [onvo_call rt path body])%list).
Proof. intros N <-. apply onvo_request_calls, N. Qed.

Lemma lift_get rt v k (tr : list Call) :
  nullish v = false -> lift (get (js rt) v k) tr = (inr (prop v k), tr).
Proof. intros H. unfold lift. rewrite (get_prop _ _ _ H). reflexivity. Qed.

(** What the ONVO helper makes of each kind of answer. *)
Lemma onvo_outcome_rejected rt path body tr msg :
  Config.onvoConfig_secretKey rt <> EmptyString ->
  server rt tr (onvo_call rt path body) = Rejected msg ->
  onvo_outcome rt tr path body
  = inl (OnvoError ("Network error contacting ONVO: " ++ msg) None VUndefined).
Proof.
  intros N S. unfold onvo_outcome, Onvo.request.
  destruct (String.eqb_spec (Config.onvoConfig_secretKey rt) EmptyString) as [E|_];
    [contradiction|].
  unfold bind, try_catch, fetch. fold (onvo_call rt path body).
  rewrite S. reflexivity.
Qed.

Lemma onvo_outcome_2xx rt path body tr r v :
  Config.onvoConfig_secretKey rt <> EmptyString ->
  server rt tr (onvo_call rt path body) = Resolved r ->
  r_ok r = true -> r_json r = Some v ->
  onvo_outcome rt tr path body = inr v.
Proof.
  intros N S Hok Hjson. unfold onvo_outcome, Onvo.request.
  destruct (String.eqb_spec (Config.onvoConfig_secretKey rt) EmptyString) as [E|_];
    [contradiction|].
  unfold bind, try_catch, fetch. fold (onvo_call rt path body).
  rewrite S, Hok. simpl. unfold Response_json. rewrite Hjson. reflexivity.
Qed.

(** A 2xx answer whose body is not JSON. *)
Lemma onvo_outcome_bad_json rt path body tr r :
  Config.onvoConfig_secretKey rt <> EmptyString ->
  server rt tr (onvo_call rt path body) = Resolved r ->
  r_ok r = true -> r_json r = None ->
  onvo_outcome rt tr path body
  = inl (SyntaxError (msg_bad_json (js rt) (r_text r))).
Proof.
  intros N S Hok J. unfold onvo_outcome, Onvo.request.
  destruct (String.eqb_spec (Config.onvoConfig_secretKey rt) EmptyString) as [E|_];
    [contradiction|].
  unfold bind, try_catch, fetch. fold (onvo_call rt path body).
  rewrite S, Hok. simpl. unfold Response_json. rewrite J. reflexivity.
Qed.

(** A non-2xx answer whose body, once parsed, is not [null]: the error
    carries the status, unless its message cannot be written. *)
Lemma onvo_outcome_not_ok rt path body tr r :
  Config.onvoConfig_secretKey rt <> EmptyString ->
  server rt tr (onvo_call rt path body) = Resolved r ->
  r_ok r = false ->
  nullish (error_body r) = false ->
  onvo_outcome rt tr path body
  = match onvo_failure_text rt r with
    | inl e => inl e
    | inr text => inl (onvo_api_error rt r text)
    end.
Proof.
  intros N S Hok Ha. unfold onvo_outcome, Onvo.request.
  destruct (String.eqb_spec (Config.onvoConfig_secretKey rt) EmptyString) as [E|_];
    [contradiction|].
  unfold bind at 1. unfold try_catch, fetch. fold (onvo_call rt path body).
  rewrite S, Hok. cbv zeta. cbn [negb]. fold (error_body r).
  unfold onvo_failure_text, onvo_api_error.
  rewrite (bind_inr _ _ _ _ _ (lift_get rt (error_body r) _ _ Ha)).
  destruct (prop (error_body r) "message") as [| | | | |items|] eqn:M.
  6:{ unfold bind, lift, ret. destruct (Array_join (js rt) items "; ") as [e|joined];
        [reflexivity|].
      cbn [ToString]. rewrite (get_prop _ _ _ Ha). reflexivity. }
  all: unfold bind, lift, ret; rewrite !(get_prop _ _ _ Ha);
    match goal with
    | |- context [ToString ?j ?v] => destruct (ToString j v)
    end; reflexivity.
Qed.

(** A non-2xx answer whose body is the JSON [null]. *)
Lemma onvo_outcome_null_error_body rt path body tr r :
  Config.onvoConfig_secretKey rt <> EmptyString ->
  server rt tr (onvo_call rt path body) = Resolved r ->
  r_ok r = false -> nullish (error_body r) = true ->
  onvo_outcome rt tr path body
  = inl (TypeError (msg_read_of_nullish (js rt) (error_body r) "message")).
Proof.
  intros N S Hok J. unfold onvo_outcome, Onvo.request.
  destruct (String.eqb_spec (Config.onvoConfig_secretKey rt) EmptyString) as [E|_];
    [contradiction|].
  unfold bind, try_catch, fetch. fold (onvo_call rt path body).
  rewrite S, Hok. cbv zeta. cbn [negb]. fold (error_body r).
  unfold lift. rewrite (get_nullish _ _ _ J). reflexivity.
Qed.

(** The helper reports every rejected call and every non-2xx answer. *)
Lemma onvo_outcome_failure rt path body tr :
  Config.onvoConfig_secretKey rt <> EmptyString ->
  call_fails rt tr (onvo_call rt path body) ->
  exists e, onvo_outcome rt tr path body = inl e.
Proof.
  unfold call_fails. intros N F.
  destruct (server rt tr (onvo_call rt path body)) as [msg|r] eqn:S.
  - eexists. apply (onvo_outcome_rejected rt path body tr msg N S).
  - destruct (r_ok r) eqn:Hok.
    + destruct F as [F|F]; [discriminate F|].
      eexists. apply (onvo_outcome_bad_json rt path body tr r N S Hok F).
    + destruct (nullish (error_body r)) eqn:Ha.
      * eexists. apply (onvo_outcome_null_error_body rt path body tr r N S Hok Ha).
      * rewrite (onvo_outcome_not_ok rt path body tr r N S Hok Ha).
        destruct (onvo_failure_text rt r); eexists; reflexivity.
Qed.

(** The calls of the one-time sequence, whatever the provider answers. *)
Lemma onvo_createPaymentIntent_emits (P : Call -> Prop) rt p :
  P (onvo_call rt "/products" (onvo_product_payload p)) ->
  (forall id, P (onvo_call rt "/prices" (onvo_one_time_price_payload id p))) ->
  P (onvo_call rt "/payment-intents" (onvo_intent_payload p)) ->
  (forall id, P (onvo_call rt "/checkout/sessions/one-time-link"
                   (onvo_checkout_payload id p))) ->
  emits P (Onvo.createPaymentIntent rt p).
Proof.
  intros P1 P2 P3 P4. unfold Onvo.createPaymentIntent.
  apply emits_bind; [apply onvo_validateAmount_emits|intros _].
  apply emits_bind; [apply onvo_validateCurrency_emits|intros _].
  apply emits_bind; [apply onvo_validateUrl_emits|intros _].
  apply emits_bind; [apply onvo_validateUrl_emits|intros _].
  apply emits_bind; [apply onvo_request_emits, P1|intros product].
  apply emits_bind; [apply emits_lift|intros product_id].
  apply emits_bind; [apply onvo_request_emits, P2|intros price].
  apply emits_bind; [apply onvo_request_emits, P3|intros _].
  apply emits_bind; [apply emits_lift|intros price_id].
  apply emits_bind; [apply onvo_request_emits, P4|intros session].
  repeat wire_step.
Qed.

(** The calls of the subscription sequence, whatever the provider answers. *)
Lemma onvo_createSubscription_emits (P : Call -> Prop) rt p :
  P (onvo_call rt "/customers" onvo_customer_payload) ->
  P (onvo_call rt "/products" (onvo_product_payload p)) ->
  (forall id, P (onvo_call rt "/prices" (onvo_recurring_price_payload id p))) ->
  (forall cid pid, P (onvo_call rt "/subscriptions"
                        (onvo_subscription_payload cid pid))) ->
  (forall id, P (onvo_call rt "/checkout/sessions/one-time-link"
                   (onvo_checkout_payload id p))) ->
  emits P (Onvo.createSubscription rt p).
Proof.
  intros P1 P2 P3 P4 P5. unfold Onvo.createSubscription.
  apply emits_bind; [apply onvo_validateAmount_emits|intros _].
  apply emits_bind; [apply onvo_validateCurrency_emits|intros _].
  apply emits_bind; [apply onvo_validateInterval_emits|intros _].
  apply emits_bind; [apply onvo_validateUrl_emits|intros _].
  apply emits_bind; [apply onvo_validateUrl_emits|intros _].
  apply emits_bind; [apply onvo_request_emits, P1|intros customer].
  apply emits_bind; [apply onvo_request_emits, P2|intros product].
  apply emits_bind; [apply emits_lift|intros product_id].
  apply emits_bind; [apply onvo_request_emits, P3|intros price].
  apply emits_bind; [apply emits_lift|intros customer_id].
  apply emits_bind; [apply emits_lift|intros price_id].
  apply emits_bind; [apply onvo_request_emits, P4|intros _].
  apply emits_bind; [apply emits_lift|intros price_id'].
  apply emits_bind; [apply onvo_request_emits, P5|intros session].
  repeat wire_step.
Qed.

Lemma emits_calls_of {A} P (m : M A) : emits P m -> Forall P (calls_of m).
Proof.
  intros H. unfold calls_of, run. destruct (H []) as (new & E & F).
  rewrite E. exact F.
Qed.

(** One step of a sequence: the helper is called and answers [o]. *)
Ltac onvo_answers H :=
  match goal with
  | N : Config.onvoConfig_secretKey _ <> EmptyString |- _ =>
      first [ rewrite (bind_inr _ _ _ _ _ (onvo_step _ _ _ _ _ N H))
            | rewrite (bind_inl _ _ _ _ _ (onvo_step _ _ _ _ _ N H)) ]
  end.

Ltac reads_id H := rewrite (bind_inr _ _ _ _ _ (lift_get _ _ _ _ H)).

Lemma onvo_outcome_returned rt path body tr v :
  Config.onvoConfig_secretKey rt <> EmptyString ->
  call_returns rt tr (onvo_call rt path body) v ->
  onvo_outcome rt tr path body = inr v.
Proof.
  intros N (r & S & Hok & J). apply (onvo_outcome_2xx rt path body tr r v N S Hok J).
Qed.

(** The one-time sequence without its checks. *)
Lemma onvo_createPaymentIntent_checks_passed rt p r :
  valid_one_time p ->
  run (Onvo.createPaymentIntent rt p) = r <->
  bind (Onvo.createProduct rt (description p))
    (fun product =>
       product_id <- lift (get (js rt) product "id") ;;
       price <- Onvo.request rt "POST" "/prices"
                  (Some (onvo_one_time_price_payload product_id p)) ;;
       Onvo.createPaymentIntentRequest rt (amount p) (currency p) (description p) ;;
       price_id <- lift (get (js rt) price "id") ;;
       session <- Onvo.createCheckoutSession rt
                    (VArr [VObj [("priceId", price_id);
                                 ("quantity", VNum (of_Z 1))]])
                    (success_url p) (cancel_url p) ;;
       session_url <- lift (get (js rt) session "url") ;;
       ret (VObj [("url", session_url)])) [] = r.
Proof.
  intros (Ha & Hc & Hs & Hx). unfold run, Onvo.createPaymentIntent.
  rewrite (bind_inr _ _ _ _ _ (onvo_validateAmount_ok rt _ [] Ha)).
  rewrite (bind_inr _ _ _ _ _ (onvo_validateCurrency_ok rt _ [] Hc)).
  rewrite (bind_inr _ _ _ _ _ (onvo_validateUrl_ok rt _ _ [] Hs)).
  rewrite (bind_inr _ _ _ _ _ (onvo_validateUrl_ok rt _ _ [] Hx)).
  reflexivity.
Qed.

(** C2.  For parameters that pass the checks and a configured secret, the
    one-time operation of the ONVO client calls, in this order, Product,
    Price (with the identifier of the Product), PaymentIntent and
    CheckoutSession (with the identifier of the Price), and returns the
    [url] of the session: four calls.  When the provider fails a call of the
    sequence (the transport rejects it, the answer is not 2xx, or its body is
    not JSON), the calls made are exactly those up to it, and what the helper
    throws for that call is the result of the operation: the network error
    for a rejected call, and for a non-2xx answer the API error that carries
    its status.  Whatever happens, every call made is a POST: nothing created
    earlier is deleted.  An answer counts as a success when an identifier
    can be read from it, that is when its body is not [null]. *)
Theorem multi_step_one_time_sequence rt p :
  valid_one_time p ->
  Config.onvoConfig_secretKey rt <> EmptyString ->
  let b1 := onvo_product_payload p in
  let c1 := onvo_call rt "/products" b1 in
  (call_fails rt [] c1 ->
   exists e, onvo_outcome rt [] "/products" b1 = inl e
             /\ run (Onvo.createPaymentIntent rt p) = (inl e, [c1]))
  /\ (forall product,
        call_returns rt [] c1 product ->
        nullish product = false ->
        let b2 := onvo_one_time_price_payload (prop product "id") p in
        let c2 := onvo_call rt "/prices" b2 in
        (call_fails rt [c1] c2 ->
         exists e, onvo_outcome rt [c1] "/prices" b2 = inl e
                   /\ run (Onvo.createPaymentIntent rt p) = (inl e, [c1; c2]))
        /\ (forall price,
              call_returns rt [c1] c2 price ->
              nullish price = false ->
              let b3 := onvo_intent_payload p in
              let c3 := onvo_call rt "/payment-intents" b3 in
              (call_fails rt [c1; c2] c3 ->
               exists e, onvo_outcome rt [c1; c2] "/payment-intents" b3 = inl e
                         /\ run (Onvo.createPaymentIntent rt p)
                            = (inl e, [c1; c2; c3]))
              /\ (forall intent,
                    call_returns rt [c1; c2] c3 intent ->
                    let b4 := onvo_checkout_payload (prop price "id") p in
                    let c4 := onvo_call rt "/checkout/sessions/one-time-link" b4 in
                    (call_fails rt [c1; c2; c3] c4 ->
                     exists e,
                       onvo_outcome rt [c1; c2; c3]
                         "/checkout/sessions/one-time-link" b4 = inl e
                       /\ run (Onvo.createPaymentIntent rt p)
                          = (inl e, [c1; c2; c3; c4]))
                    /\ (forall session,
                          call_returns rt [c1; c2; c3] c4 session ->
                          nullish session = false ->
                          run (Onvo.createPaymentIntent rt p)
                          = (inr (VObj [("url", prop session "url")]),
                             [c1; c2; c3; c4])))))
  /\ (forall tr path body,
        (forall msg,
           server rt tr (onvo_call rt path body) = Rejected msg ->
           onvo_outcome rt tr path body
           = inl (OnvoError ("Network error contacting ONVO: " ++ msg)
                    None VUndefined))
        /\ (forall r text,
              server rt tr (onvo_call rt path body) = Resolved r ->
              r_ok r = false ->
              nullish (error_body r) = false ->
              onvo_failure_text rt r = inr text ->
              onvo_outcome rt tr path body = inl (onvo_api_error rt r text)))
  /\ Forall (fun c => c_method c = "POST")
       (calls_of (Onvo.createPaymentIntent rt p)).
Proof.
  intros V N b1 c1.
  pose proof (fun r => onvo_createPaymentIntent_checks_passed rt p r V) as Start.
  split; [|split; [|split]].
  - intros F1. destruct (onvo_outcome_failure rt _ _ _ N F1) as (e & O1).
    exists e. split; [exact O1|].
    apply Start. unfold Onvo.createProduct. onvo_answers O1. reflexivity.
  - intros product R1 Hproduct b2 c2.
    pose proof (onvo_outcome_returned rt _ _ _ _ N R1) as O1. split.
    + intros F2. destruct (onvo_outcome_failure rt _ _ _ N F2) as (e & O2).
      exists e. split; [exact O2|].
      apply Start. unfold Onvo.createProduct.
      onvo_answers O1. reads_id Hproduct. onvo_answers O2. reflexivity.
    + intros price R2 Hprice b3 c3.
      pose proof (onvo_outcome_returned rt _ _ _ _ N R2) as O2. split.
      * intros F3. destruct (onvo_outcome_failure rt _ _ _ N F3) as (e & O3).
        exists e. split; [exact O3|].
        apply Start. unfold Onvo.createProduct.
        onvo_answers O1. reads_id Hproduct. onvo_answers O2.
        unfold Onvo.createPaymentIntentRequest. onvo_answers O3. reflexivity.
      * intros intent R3 b4 c4.
        pose proof (onvo_outcome_returned rt _ _ _ _ N R3) as O3. split.
        -- intros F4. destruct (onvo_outcome_failure rt _ _ _ N F4) as (e & O4).
           exists e. split; [exact O4|].
           apply Start. unfold Onvo.createProduct.
           onvo_answers O1. reads_id Hproduct. onvo_answers O2.
           unfold Onvo.createPaymentIntentRequest. onvo_answers O3.
           reads_id Hprice. unfold Onvo.createCheckoutSession.
           onvo_answers O4. reflexivity.
        -- intros session R4 Hsession.
           pose proof (onvo_outcome_returned rt _ _ _ _ N R4) as O4.
           apply Start. unfold Onvo.createProduct.
           onvo_answers O1. reads_id Hproduct. onvo_answers O2.
           unfold Onvo.createPaymentIntentRequest. onvo_answers O3.
           reads_id Hprice. unfold Onvo.createCheckoutSession.
           onvo_answers O4. reads_id Hsession. reflexivity.
  - intros tr path body. split.
    + intros msg S. apply (onvo_outcome_rejected rt path body tr msg N S).
    + intros r text S Hok Hbody T.
      rewrite (onvo_outcome_not_ok rt path body tr r N S Hok Hbody), T.
      reflexivity.
  - apply emits_calls_of, onvo_createPaymentIntent_emits; reflexivity.
Qed.

Lemma multi_step_one_time_sequence_witness :
  let p := Example.params (Example.num 1000) "USD" (VStr "month") in
  (let rt := Example.runtime Example.configured
               [Example.ok_json (VObj [("id", VStr "prod_1")]);
                Example.ok_json (VObj [("id", VStr "price_1")]);
                Example.ok_json (VObj [("id", VStr "pi_1")]);
                Example.ok_json (VObj [("id", VStr "cs_1");
                                       ("url", VStr "https://pay.example/abc")])] in
   run (Onvo.createPaymentIntent rt p)
   = (inr (VObj [("url", VStr "https://pay.example/abc")]),
      [onvo_call rt "/products" (onvo_product_payload p);
       onvo_call rt "/prices" (onvo_one_time_price_payload (VStr "prod_1") p);
       onvo_call rt "/payment-intents" (onvo_intent_payload p);
       onvo_call rt "/checkout/sessions/one-time-link"
         (onvo_checkout_payload (VStr "price_1") p)]))
  /\ (let rt := Example.runtime Example.configured
                  [Example.ok_json (VObj [("id", VStr "prod_1")]);
                   Example.status_json 503 "Service Unavailable"
                     (VObj [("message", VStr "down")]);
                   Example.ok_json (VObj [("id", VStr "pi_1")]);
                   Example.ok_json (VObj [("id", VStr "cs_1");
                                          ("url", VStr "https://pay.example/abc")])] in
      run (Onvo.createPaymentIntent rt p)
      = (inl (OnvoError "ONVO API error (503): down" (Some 503%Z) VUndefined),
         [onvo_call rt "/products" (onvo_product_payload p);
          onvo_call rt "/prices" (onvo_one_time_price_payload (VStr "prod_1") p)])).
Proof.
  intros p. split; intros rt.
  - assert (N : Config.onvoConfig_secretKey rt <> EmptyString) by discriminate.
    destruct (multi_step_one_time_sequence rt p (proj1 example_params_valid) N)
      as (_ & H & _).
    destruct (H (VObj [("id", VStr "prod_1")])) as (_ & H2);
      [eexists; repeat split | reflexivity |].
    destruct (H2 (VObj [("id", VStr "price_1")])) as (_ & H3);
      [eexists; repeat split | reflexivity |].
    destruct (H3 (VObj [("id", VStr "pi_1")])) as (_ & H4);
      [eexists; repeat split|].
    apply (H4 (VObj [("id", VStr "cs_1"); ("url", VStr "https://pay.example/abc")]));
      [eexists; repeat split | reflexivity].
  - assert (N : Config.onvoConfig_secretKey rt <> EmptyString) by discriminate.
    destruct (multi_step_one_time_sequence rt p (proj1 example_params_valid) N)
      as (_ & H & K & _).
    destruct (H (VObj [("id", VStr "prod_1")])) as (F2 & _);
      [eexists; repeat split | reflexivity |].
    destruct F2 as (e & O2 & R); [left; reflexivity|].
    pose proof
      (proj2 (K [onvo_call rt "/products" (onvo_product_payload p)] "/prices"
                (onvo_one_time_price_payload (VStr "prod_1") p))
         {| r_status := 503; r_statusText := "Service Unavailable";
            r_text := "<json>"; r_json := Some (VObj [("message", VStr "down")]) |}
         "down" eq_refl eq_refl eq_refl eq_refl) as O.
    change (prop (VObj [("id", VStr "prod_1")]) "id") with (VStr "prod_1") in O2, R.
    rewrite O in O2. injection O2 as <-. exact R.
Defined.

(** Scenario D of the specification on the one-time sequence: the third
    call is answered 503; two calls stay made, no fourth one follows. *)
Example one_time_third_call_503 :
  let rt := Example.runtime Example.configured
              [Example.ok_json (VObj [("id", VStr "prod_1")]);
               Example.ok_json (VObj [("id", VStr "price_1")]);
               Example.status_json 503 "Service Unavailable"
                 (VObj [("message", VStr "down")])] in
  let p := Example.params (Example.num 1000) "USD" VUndefined in
  result_of (Onvo.createPaymentIntent rt p)
  = inl (OnvoError "ONVO API error (503): down" (Some 503%Z) VUndefined)
  /\ List.length (calls_of (Onvo.createPaymentIntent rt p)) = 3%nat.
Proof. split; reflexivity. Qed.

(** C3 as the code has it.  For parameters that pass the checks and a
    configured secret, the subscription operation of the ONVO client calls,
    in this order, Customer, Product, Price, Subscription and
    CheckoutSession, and returns the [url] of the session: five calls.  The
    Price is recurring, with the interval of the parameters and an interval
    count of 1, and it is the call that carries the amount; the Subscription
    call carries the identifiers of the Customer and of the Price, and no
    amount. *)
Theorem multi_step_subscription_sequence rt p :
  valid_recurring p ->
  Config.onvoConfig_secretKey rt <> EmptyString ->
  let c1 := onvo_call rt "/customers" onvo_customer_payload in
  let b2 := onvo_product_payload p in
  let c2 := onvo_call rt "/products" b2 in
  (forall customer product price subscription session,
     onvo_outcome rt [] "/customers" onvo_customer_payload = inr customer ->
     onvo_outcome rt [c1] "/products" b2 = inr product ->
     nullish product = false ->
     let b3 := onvo_recurring_price_payload (prop product "id") p in
     let c3 := onvo_call rt "/prices" b3 in
     onvo_outcome rt [c1; c2] "/prices" b3 = inr price ->
     nullish customer = false ->
     nullish price = false ->
     let b4 := onvo_subscription_payload (prop customer "id") (prop price "id") in
     let c4 := onvo_call rt "/subscriptions" b4 in
     onvo_outcome rt [c1; c2; c3] "/subscriptions" b4 = inr subscription ->
     let b5 := onvo_checkout_payload (prop price "id") p in
     let c5 := onvo_call rt "/checkout/sessions/one-time-link" b5 in
     onvo_outcome rt [c1; c2; c3; c4] "/checkout/sessions/one-time-link" b5
     = inr session ->
     nullish session = false ->
     run (Onvo.createSubscription rt p)
     = (inr (VObj [("url", prop session "url")]), [c1; c2; c3; c4; c5]))
  /\ (forall id,
        let b3 := onvo_recurring_price_payload id p in
        prop b3 "type" = VStr "recurring"
        /\ prop (prop b3 "recurring") "interval" = interval p
        /\ prop (prop b3 "recurring") "intervalCount" = VNum (of_Z 1)
        /\ carried_amounts (onvo_call rt "/prices" b3) = [amount p])
  /\ (forall cid pid,
        carried_amounts (onvo_call rt "/subscriptions"
                           (onvo_subscription_payload cid pid)) = []).
Proof.
  intros ((Ha & Hc & Hs & Hx) & Hi) N c1 b2 c2.
  split; [|split].
  - intros customer product price subscription session
      O1 O2 Hproduct b3 c3 O3 Hcustomer Hprice b4 c4 O4 b5 c5 O5 Hsession.
    unfold run, Onvo.createSubscription.
    rewrite (bind_inr _ _ _ _ _ (onvo_validateAmount_ok rt _ [] Ha)).
    rewrite (bind_inr _ _ _ _ _ (onvo_validateCurrency_ok rt _ [] Hc)).
    rewrite (bind_inr _ _ _ _ _ (onvo_validateInterval_ok rt _ [] Hi)).
    rewrite (bind_inr _ _ _ _ _ (onvo_validateUrl_ok rt _ _ [] Hs)).
    rewrite (bind_inr _ _ _ _ _ (onvo_validateUrl_ok rt _ _ [] Hx)).
    unfold Onvo.createCustomer. onvo_answers O1.
    unfold Onvo.createProduct. onvo_answers O2.
    reads_id Hproduct.
    unfold Onvo.createPrice. onvo_answers O3.
    reads_id Hcustomer. reads_id Hprice.
    unfold Onvo.createSubscriptionRequest. onvo_answers O4.
    reads_id Hprice.
    unfold Onvo.createCheckoutSession. onvo_answers O5.
    reads_id Hsession. reflexivity.
  - intros id. repeat split.
  - intros cid pid. reflexivity.
Qed.

Lemma multi_step_subscription_sequence_witness :
  let rt := Example.runtime Example.configured
              [Example.ok_json (VObj [("id", VStr "cus_1")]);
               Example.ok_json (VObj [("id", VStr "prod_1")]);
               Example.ok_json (VObj [("id", VStr "price_1")]);
               Example.ok_json (VObj [("id", VStr "sub_1")]);
               Example.ok_json (VObj [("id", VStr "cs_1");
                                      ("url", VStr "https://pay.example/abc")])] in
  let p := Example.params (Example.num 550) "CRC" (VStr "month") in
  run (Onvo.createSubscription rt p)
  = (inr (VObj [("url", VStr "https://pay.example/abc")]),
     [onvo_call rt "/customers" onvo_customer_payload;
      onvo_call rt "/products" (onvo_product_payload p);
      onvo_call rt "/prices" (onvo_recurring_price_payload (VStr "prod_1") p);
      onvo_call rt "/subscriptions"
        (onvo_subscription_payload (VStr "cus_1") (VStr "price_1"));
      onvo_call rt "/checkout/sessions/one-time-link"
        (onvo_checkout_payload (VStr "price_1") p)]).
Proof.
  intros rt p.
  assert (N : Config.onvoConfig_secretKey rt <> EmptyString) by discriminate.
  assert (V : valid_recurring p).
  { repeat split.
    - exists (inject_Z 550), 550%Z. repeat split; reflexivity.
    - right; reflexivity.
    - eexists; split; reflexivity.
    - eexists; split; reflexivity.
    - left; reflexivity. }
  destruct (multi_step_subscription_sequence rt p V N) as (H & _).
  exact (H _ _ _ _ _ eq_refl eq_refl eq_refl eq_refl eq_refl eq_refl
           eq_refl eq_refl eq_refl).
Defined.

(** C3, the claim as written, fails at Scenario C of the specification
    (550 minor units, CRC, monthly): the five calls are made, the third one
    carries the amount, the fourth one (the Subscription) holds no amount
    field and the number 550 occurs nowhere in its payload. *)
Lemma subscription_call_without_amount_counterexample :
  let rt := Example.runtime Example.configured
              [Example.ok_json (VObj [("id", VStr "cus_1")]);
               Example.ok_json (VObj [("id", VStr "prod_1")]);
               Example.ok_json (VObj [("id", VStr "price_1")]);
               Example.ok_json (VObj [("id", VStr "sub_1")]);
               Example.ok_json (VObj [("id", VStr "cs_1");
                                      ("url", VStr "https://pay.example/abc")])] in
  let p := Example.params (Example.num 550) "CRC" (VStr "month") in
  let calls := calls_of (Onvo.createSubscription rt p) in
  List.length calls = 5%nat
  /\ result_of (Onvo.createSubscription rt p)
     = inr (VObj [("url", VStr "https://pay.example/abc")])
  /\ option_map carried_amounts (nth_error calls 2) = Some [Example.num 550]
  /\ nth_error calls 3
     = Some (onvo_call rt "/subscriptions"
               (onvo_subscription_payload (VStr "cus_1") (VStr "price_1")))
  /\ option_map carried_amounts (nth_error calls 3) = Some []
  /\ mentions_number (of_Z 550)
       (onvo_subscription_payload (VStr "cus_1") (VStr "price_1")) = false.
Proof. repeat split. Qed.

(* ================================================================== *)
(** * The routes in normal form *)
(* ================================================================== *)

(** /api/generate on a body whose fields can be read. *)
Lemma generate_POST_readable rt body tr :
  nullish body = false ->
  GenerateRoute.POST rt (Some body) tr
  = if existsb (fun k => negb (truthy (prop body k))) required_fields
    then (inr missing_fields_response, tr)
    else
      try_catch
        (result <- generate_dispatch rt body ;;
         url <- lift (get (js rt) result "url") ;;
         ret (NextResponse_json (VObj [("url", url)]) 200))
        (fun error =>
           ret (NextResponse_json
                  (VObj [("error", VStr (Error_message error))]) 500))
        tr.
Proof.
  intros H. unfold GenerateRoute.POST.
  repeat rewrite (bind_inr _ _ _ _ _ (lift_get rt body _ tr H)).
  unfold required_fields, existsb. rewrite orb_false_r.
  rewrite !orb_assoc.
  destruct (_ || _); [reflexivity|].
  unfold generate_dispatch, generate_params.
  destruct (is_str (prop body "provider") "tilopay");
    destruct (is_str (prop body "type") "recurring"); reflexivity.
Qed.

(** /api/generate on the JSON body [null]: reading the fields throws, and
    nothing in the handler catches it. *)
Lemma generate_POST_unreadable rt body tr :
  nullish body = true ->
  GenerateRoute.POST rt (Some body) tr
  = (inl (TypeError (msg_read_of_nullish (js rt) body "amount")), tr).
Proof.
  intros H. unfold GenerateRoute.POST.
  apply bind_inl. unfold lift. rewrite (get_nullish _ _ _ H). reflexivity.
Qed.

(** What [validateBody] lets through. *)
Lemma validateBody_cases rt raw tr :
  (exists e, CreateLinkRoute.validateBody rt raw tr = (inl e, tr))
  \/ (exists b,
        CreateLinkRoute.validateBody rt raw tr = (inr b, tr)
        /\ prop raw "amount" = VNum (CreateLinkRoute.body_amount b)
        /\ num_isFinite (CreateLinkRoute.body_amount b) = true
        /\ num_le_zero (CreateLinkRoute.body_amount b) = false
        /\ prop raw "currency" = CreateLinkRoute.body_currency b
        /\ known_currency (CreateLinkRoute.body_currency b)
        /\ prop raw "isRecurring" = VBool (CreateLinkRoute.body_isRecurring b)).
Proof.
  unfold CreateLinkRoute.validateBody.
  destruct raw as [| | | | | |props]; try (left; eexists; reflexivity).
  simpl prop.
  destruct (lookup "amount" props) as [| | |n| | |] eqn:Ea;
    try (left; eexists; reflexivity).
  destruct (num_isFinite n) eqn:Ef; simpl; [|left; eexists; reflexivity].
  destruct (num_le_zero n) eqn:El; simpl; [left; eexists; reflexivity|].
  destruct (negb (is_str (lookup "currency" props) "USD")
            && negb (is_str (lookup "currency" props) "CRC")) eqn:Ec;
    [left; eexists; reflexivity|].
  apply is_str_known_currency in Ec.
  destruct (lookup "isRecurring" props) as [| |b| | | |] eqn:Er;
    try (left; eexists; reflexivity).
  destruct (lookup "description" props) as [| | | |d| |] eqn:Ed;
    try (left; eexists; reflexivity);
    right; eexists; (split; [reflexivity|]); simpl; auto 10.
Qed.

(** The create-link route once the body is validated. *)
Lemma create_link_POST_validated rt raw b tr :
  CreateLinkRoute.validateBody rt raw tr = (inr b, tr) ->
  CreateLinkRoute.POST rt (Some raw) tr
  = try_catch
      (result <- create_link_dispatch rt b ;;
       url <- lift (get (js rt) result "url") ;;
       ret (NextResponse_json (VObj [("success", VBool true); ("url", url)]) 200))
      (fun err =>
         ret (create_link_failure (CreateLinkRoute.failure_status err)
                (Error_message err)))
      tr.
Proof.
  intros E. unfold CreateLinkRoute.POST.
  unfold bind at 1. unfold try_catch at 1. unfold bind at 1. rewrite E.
  unfold ret at 1.
  unfold create_link_dispatch, create_link_params, amountInCents.
  destruct (CreateLinkRoute.body_isRecurring b); reflexivity.
Qed.

(** The create-link route on a body that [validateBody] refuses. *)
Lemma create_link_POST_refused rt raw e tr :
  CreateLinkRoute.validateBody rt raw tr = (inl e, tr) ->
  CreateLinkRoute.POST rt (Some raw) tr
  = (inr (create_link_failure 400 (Error_message e)), tr).
Proof.
  intros E. unfold CreateLinkRoute.POST.
  unfold bind at 1. unfold try_catch at 1. unfold bind at 1. rewrite E.
  reflexivity.
Qed.

(** A handler that only builds a response adds no call. *)
Lemma handled_calls {A B} (m : M A) (k : A -> M B) (h : exn -> M B) tr :
  (forall a, silent (k a)) -> (forall e, silent (h e)) ->
  snd (try_catch (bind m k) h tr) = snd (m tr).
Proof.
  intros Hk Hh. unfold try_catch, bind.
  destruct (m tr) as [[e|a] t1]; simpl.
  - apply Hh.
  - pose proof (Hk a t1) as E. destruct (k a t1) as [[e|b] t2]; simpl in *.
    + rewrite Hh. exact E.
    + exact E.
Qed.

Lemma read_url_silent rt (wrap : value -> NextResponse) (result : value) :
  silent (url <- lift (get (js rt) result "url") ;; ret (wrap url)).
Proof. apply emits_nothing_silent. repeat wire_step. Qed.

(** The calls of /api/generate are those of the operation it selects. *)
Lemma generate_calls rt body :
  calls_of (GenerateRoute.POST rt (Some body)) = []
  \/ calls_of (GenerateRoute.POST rt (Some body))
     = calls_of (generate_dispatch rt body).
Proof.
  unfold calls_of, run. destruct (nullish body) eqn:Hb.
  - left. rewrite (generate_POST_unreadable rt body [] Hb). reflexivity.
  - rewrite (generate_POST_readable rt body [] Hb).
    destruct (existsb _ required_fields); [left; reflexivity|].
    right. apply handled_calls.
    + intros result.
      apply (read_url_silent rt (fun url => NextResponse_json (VObj [("url", url)]) 200)).
    + intros e t. reflexivity.
Qed.

(** The calls of the create-link route are those of the operation it
    selects, for a body that [validateBody] accepts. *)
Lemma create_link_calls rt raw :
  calls_of (CreateLinkRoute.POST rt (Some raw)) = []
  \/ exists b,
       prop raw "amount" = VNum (CreateLinkRoute.body_amount b)
       /\ calls_of (CreateLinkRoute.POST rt (Some raw))
          = calls_of (create_link_dispatch rt b).
Proof.
  unfold calls_of, run.
  destruct (validateBody_cases rt raw []) as [[e E]|(b & E & Ha & _)].
  - left. rewrite (create_link_POST_refused rt raw e [] E). reflexivity.
  - right. exists b. split; [exact Ha|].
    rewrite (create_link_POST_validated rt raw b [] E).
    apply handled_calls.
    + intros result.
      apply (read_url_silent rt
               (fun url => NextResponse_json
                             (VObj [("success", VBool true); ("url", url)]) 200)).
    + intros e t. reflexivity.
Qed.

(* ================================================================== *)
(** * C10: a falsy required field *)
(* ================================================================== *)

Lemma generate_POST_missing rt body tr k :
  nullish body = false ->
  In k required_fields -> truthy (prop body k) = false ->
  GenerateRoute.POST rt (Some body) tr = (inr missing_fields_response, tr).
Proof.
  intros Hbody Hin Hk.
  rewrite (generate_POST_readable rt body tr Hbody).
  assert (E : existsb (fun k => negb (truthy (prop body k))) required_fields = true).
  { apply existsb_exists. exists k. split; [exact Hin|]. rewrite Hk. reflexivity. }
  rewrite E. reflexivity.
Qed.

(** C10.  /api/generate, on a body whose fields can be read (any JSON
    value but [null]): as soon as one of amount, currency, type, provider,
    success_url, cancel_url is falsy (absent, null, false, 0, NaN or the
    empty string), the response is the fixed 400 answer naming the required
    fields, and no outbound call is made.  An amount of 0 is such a case: it
    gets this answer and not a message about amounts. *)
Theorem falsy_required_field_400 rt body tr :
  nullish body = false ->
  (exists k, In k required_fields /\ truthy (prop body k) = false) ->
  GenerateRoute.POST rt (Some body) tr = (inr missing_fields_response, tr).
Proof.
  intros Hbody (k & Hin & Hk). exact (generate_POST_missing rt body tr k Hbody Hin Hk).
Qed.

Lemma falsy_required_field_400_witness :
  let rt := Example.runtime Example.configured [] in
  let body := Example.generate_body (Example.num 0) "one_time" "onvo" [] in
  run (GenerateRoute.POST rt (Some body)) = (inr missing_fields_response, [])
  /\ res_status missing_fields_response = 400%Z.
Proof.
  intros rt body. split; [|reflexivity].
  apply (falsy_required_field_400 rt body []).
  - reflexivity.
  - exists "amount". split; [simpl; auto | reflexivity].
Defined.

(* ================================================================== *)
(** * C5: the provider identifier *)
(* ================================================================== *)

(** C5 as the code has it.  /api/generate compares the provider with
    'tilopay' and with nothing else: a request whose provider is any other
    truthy value, 'onvo' or not, is handled exactly as a request for 'onvo',
    calls of the ONVO client included; no error is raised for an unknown
    identifier.  Only a falsy provider is refused, with the 400 answer for
    missing fields and no call. *)
Theorem unknown_provider_handled_as_onvo rt props tr :
  (truthy (lookup "provider" props) = true ->
   is_str (lookup "provider" props) "tilopay" = false ->
   GenerateRoute.POST rt (Some (VObj props)) tr
   = GenerateRoute.POST rt (Some (VObj (("provider", VStr "onvo") :: props))) tr)
  /\ (truthy (lookup "provider" props) = false ->
      GenerateRoute.POST rt (Some (VObj props)) tr
      = (inr missing_fields_response, tr)).
Proof.
  split.
  - intros Ht Hp.
    rewrite !generate_POST_readable by reflexivity.
    unfold required_fields, existsb, generate_dispatch, generate_params.
    simpl prop. rewrite Ht, Hp. reflexivity.
  - intros Hf. apply (generate_POST_missing rt (VObj props) tr "provider");
      [reflexivity | simpl; auto 10 | exact Hf].
Qed.

Lemma unknown_provider_handled_as_onvo_witness :
  let rt := Example.runtime Example.configured [] in
  let props := [("amount", Example.num 1000); ("currency", VStr "USD");
                ("type", VStr "one_time"); ("provider", VStr "stripe");
                ("success_url", VStr "https://shop.example/ok");
                ("cancel_url", VStr "https://shop.example/cancel")] in
  run (GenerateRoute.POST rt (Some (VObj props)))
  = run (GenerateRoute.POST rt (Some (VObj (("provider", VStr "onvo") :: props)))).
Proof.
  intros rt props.
  exact (proj1 (unknown_provider_handled_as_onvo rt props []) eq_refl eq_refl).
Defined.

(** C5, the claim as written, fails: for the provider 'stripe' the route
    answers 200 after the four calls of the ONVO one-time sequence. *)
Lemma unknown_provider_counterexample :
  let rt := Example.runtime Example.configured
              [Example.ok_json (VObj [("id", VStr "prod_1")]);
               Example.ok_json (VObj [("id", VStr "price_1")]);
               Example.ok_json (VObj [("id", VStr "pi_1")]);
               Example.ok_json (VObj [("id", VStr "cs_1");
                                      ("url", VStr "https://pay.example/abc")])] in
  let body := Example.generate_body (Example.num 1000) "one_time" "stripe" [] in
  result_of (GenerateRoute.POST rt (Some body))
  = inr (NextResponse_json (VObj [("url", VStr "https://pay.example/abc")]) 200)
  /\ map c_url (calls_of (GenerateRoute.POST rt (Some body)))
     = ["https://api.onvopay.com/v1/products";
        "https://api.onvopay.com/v1/prices";
        "https://api.onvopay.com/v1/payment-intents";
        "https://api.onvopay.com/v1/checkout/sessions/one-time-link"].
Proof. split; reflexivity. Qed.

(* ================================================================== *)
(** * C6: the interval *)
(* ================================================================== *)

Lemma tilopay_bad_interval rt p tr :
  ~ known_interval (interval p) ->
  exists e, Tilopay.createSubscription rt p tr = (inl e, tr)
            /\ (positive_integer (amount p) -> known_currency (currency p) ->
                e = refusal (js rt) (interval p)
                      (TilopayError (interval_message rt (interval p)) None VUndefined)).
Proof.
  intros Hi.
  assert (F : exists e, Tilopay.createSubscription rt p tr = (inl e, tr)).
  { unfold Tilopay.createSubscription.
    pass_check (fun t => tilopay_validateAmount_silent rt (amount p) t).
    pass_check (fun t => tilopay_validateCurrency_silent rt (currency p) t).
    eexists. apply bind_inl, tilopay_validateInterval_bad, Hi. }
  destruct F as [e E]. exists e. split; [exact E|].
  intros Ha Hc. unfold Tilopay.createSubscription in E.
  rewrite (bind_inr _ _ _ _ _ (tilopay_validateAmount_ok rt _ tr Ha)) in E.
  rewrite (bind_inr _ _ _ _ _ (tilopay_validateCurrency_ok rt _ tr Hc)) in E.
  rewrite (bind_inl _ _ _ _ _ (tilopay_validateInterval_bad rt _ tr Hi)) in E.
  congruence.
Qed.

Lemma onvo_bad_interval rt p tr :
  ~ known_interval (interval p) ->
  exists e, Onvo.createSubscription rt p tr = (inl e, tr)
            /\ (positive_integer (amount p) -> known_currency (currency p) ->
                e = refusal (js rt) (interval p)
                      (OnvoError (interval_message rt (interval p)) None VUndefined)).
Proof.
  intros Hi.
  assert (F : exists e, Onvo.createSubscription rt p tr = (inl e, tr)).
  { unfold Onvo.createSubscription.
    pass_check (onvo_validateAmount_silent rt (amount p)).
    pass_check (onvo_validateCurrency_silent rt (currency p)).
    eexists. apply bind_inl, onvo_validateInterval_bad, Hi. }
  destruct F as [e E]. exists e. split; [exact E|].
  intros Ha Hc. unfold Onvo.createSubscription in E.
  rewrite (bind_inr _ _ _ _ _ (onvo_validateAmount_ok rt _ tr Ha)) in E.
  rewrite (bind_inr _ _ _ _ _ (onvo_validateCurrency_ok rt _ tr Hc)) in E.
  rewrite (bind_inl _ _ _ _ _ (onvo_validateInterval_bad rt _ tr Hi)) in E.
  congruence.
Qed.

Lemma tilopay_createSubscription_emits (P : Call -> Prop) rt p :
  P (tilopay_call rt "/subscriptions" (tilopay_subscription_payload p)) ->
  emits P (Tilopay.createSubscription rt p).
Proof.
  intros H. unfold Tilopay.createSubscription.
  apply emits_bind; [apply tilopay_validateAmount_emits|intros _].
  apply emits_bind; [apply tilopay_validateCurrency_emits|intros _].
  apply emits_bind; [apply tilopay_validateInterval_emits|intros _].
  apply emits_bind; [apply tilopay_validateUrl_emits|intros _].
  apply emits_bind; [apply tilopay_validateUrl_emits|intros _].
  apply tilopay_request_emits, H.
Qed.

Lemma tilopay_createPaymentIntent_emits (P : Call -> Prop) rt p :
  P (tilopay_call rt "/payment_intents" (tilopay_payment_payload p)) ->
  emits P (Tilopay.createPaymentIntent rt p).
Proof.
  intros H. unfold Tilopay.createPaymentIntent.
  apply emits_bind; [apply tilopay_validateAmount_emits|intros _].
  apply emits_bind; [apply tilopay_validateCurrency_emits|intros _].
  apply emits_bind; [apply tilopay_validateUrl_emits|intros _].
  apply emits_bind; [apply tilopay_validateUrl_emits|intros _].
  apply tilopay_request_emits, H.
Qed.

(** Every interval a call of the operation carries is the one of the
    parameters. *)
Lemma tilopay_createPaymentIntent_interval rt p :
  Forall (fun c => forall v, ~ carries_interval c v)
    (calls_of (Tilopay.createPaymentIntent rt p)).
Proof.
  apply emits_calls_of, tilopay_createPaymentIntent_emits.
  intros v (props & B & H). injection B as <-.
  unfold spread_description in H.
  destruct (truthy (description p)); simpl in H;
    destruct H as [[H _]|[H _]]; discriminate H.
Qed.

Lemma tilopay_createSubscription_interval rt p :
  Forall (fun c => forall v, carries_interval c v -> v = interval p)
    (calls_of (Tilopay.createSubscription rt p)).
Proof.
  apply emits_calls_of, tilopay_createSubscription_emits.
  intros v (props & B & H). injection B as <-.
  unfold spread_description in H.
  destruct (truthy (description p)); simpl in H;
    destruct H as [[_ H]|[H _]]; try discriminate H; symmetry; exact H.
Qed.

Lemma onvo_createPaymentIntent_interval rt p :
  Forall (fun c => forall v, ~ carries_interval c v)
    (calls_of (Onvo.createPaymentIntent rt p)).
Proof.
  apply emits_calls_of, onvo_createPaymentIntent_emits; intros;
    intros (props & B & H); injection B as <-;
    unfold spread_description in H;
    try destruct (truthy (description p)); simpl in H;
    destruct H as [[H _]|[H _]]; discriminate H.
Qed.

Lemma onvo_createSubscription_interval rt p :
  Forall (fun c => forall v, carries_interval c v -> v = interval p)
    (calls_of (Onvo.createSubscription rt p)).
Proof.
  apply emits_calls_of, onvo_createSubscription_emits; cbv beta; intros;
    match goal with
    | H : carries_interval _ _ |- _ =>
        destruct H as (props & B & H); injection B as <-; simpl in H;
        destruct H as [[H1 H2]|[H1 H2]]; try discriminate H1; symmetry; exact H2
    end.
Qed.

(** The interval that the routes hand to a subscription is 'month'. *)
Lemma generate_interval rt body c v :
  In c (calls_of (GenerateRoute.POST rt (Some body))) ->
  carries_interval c v -> v = VStr "month".
Proof.
  intros Hin Hc.
  destruct (generate_calls rt body) as [E|E]; rewrite E in Hin; [contradiction|].
  unfold generate_dispatch in Hin.
  destruct (is_str (prop body "provider") "tilopay");
    destruct (is_str (prop body "type") "recurring").
  - pose proof (tilopay_createSubscription_interval rt
                  (generate_params body (VStr "month"))) as F.
    rewrite Forall_forall in F. exact (F c Hin v Hc).
  - pose proof (tilopay_createPaymentIntent_interval rt
                  (generate_params body VUndefined)) as F.
    rewrite Forall_forall in F. destruct (F c Hin v Hc).
  - pose proof (onvo_createSubscription_interval rt
                  (generate_params body (VStr "month"))) as F.
    rewrite Forall_forall in F. exact (F c Hin v Hc).
  - pose proof (onvo_createPaymentIntent_interval rt
                  (generate_params body VUndefined)) as F.
    rewrite Forall_forall in F. destruct (F c Hin v Hc).
Qed.

Lemma create_link_interval rt raw c v :
  In c (calls_of (CreateLinkRoute.POST rt (Some raw))) ->
  carries_interval c v -> v = VStr "month".
Proof.
  intros Hin Hc.
  destruct (create_link_calls rt raw) as [E|(b & _ & E)]; rewrite E in Hin;
    [contradiction|].
  unfold create_link_dispatch in Hin.
  destruct (CreateLinkRoute.body_isRecurring b) eqn:R.
  - pose proof (tilopay_createSubscription_interval rt (create_link_params rt b)) as F.
    rewrite Forall_forall in F. rewrite (F c Hin v Hc).
    unfold create_link_params. simpl. rewrite R. reflexivity.
  - pose proof (tilopay_createPaymentIntent_interval rt (create_link_params rt b)) as F.
    rewrite Forall_forall in F. destruct (F c Hin v Hc).
Qed.

(** C6 as the code has it.  The interval is checked by the clients, not by
    the routes.  [createSubscription], in either client, called with an
    interval that is absent or outside month and year throws before any
    outbound call.  Once amount and currency have passed their own checks,
    what it throws is the interval error whenever the interval can be
    written into its message, as an absent one and every string can; for a
    value that cannot (an object with an own [toString]) it is the TypeError
    of that conversion.  The interval of the parameters is the one sent: in the
    payload of the TiloPay call, and in every recurring Price the ONVO client
    creates.  Both routes ignore an [interval] field of the request: the
    answer is the same with or without it, whatever it holds, and the only
    interval a call of theirs carries is 'month'. *)
Theorem interval_checked_by_clients_only rt p tr :
  (~ known_interval (interval p) ->
     (exists e, Tilopay.createSubscription rt p tr = (inl e, tr)
                /\ (positive_integer (amount p) -> known_currency (currency p) ->
                    (converts (js rt) (interval p) = true ->
                     e = TilopayError (interval_message rt (interval p))
                           None VUndefined)
                    /\ (converts (js rt) (interval p) = false ->
                        e = TypeError (msg_not_primitive (js rt)))))
     /\ (exists e, Onvo.createSubscription rt p tr = (inl e, tr)
                   /\ (positive_integer (amount p) -> known_currency (currency p) ->
                       (converts (js rt) (interval p) = true ->
                        e = OnvoError (interval_message rt (interval p))
                              None VUndefined)
                       /\ (converts (js rt) (interval p) = false ->
                           e = TypeError (msg_not_primitive (js rt))))))
  /\ (nullish (interval p) = true \/ (exists s, interval p = VStr s) ->
      converts (js rt) (interval p) = true)
  /\ Forall (fun c => exists body,
                 c_body c = Some body /\ prop body "interval" = interval p)
       (calls_of (Tilopay.createSubscription rt p))
  /\ Forall (fun c => forall body,
                 c_body c = Some body ->
                 prop body "type" = VStr "recurring" ->
                 prop (prop body "recurring") "interval" = interval p)
       (calls_of (Onvo.createSubscription rt p))
  /\ (forall props requested,
        GenerateRoute.POST rt (Some (VObj (("interval", requested) :: props))) tr
        = GenerateRoute.POST rt (Some (VObj props)) tr)
  /\ (forall props requested,
        CreateLinkRoute.POST rt (Some (VObj (("interval", requested) :: props))) tr
        = CreateLinkRoute.POST rt (Some (VObj props)) tr)
  /\ (forall request c v,
        In c (calls_of (GenerateRoute.POST rt request)) ->
        carries_interval c v -> v = VStr "month")
  /\ (forall request c v,
        In c (calls_of (CreateLinkRoute.POST rt request)) ->
        carries_interval c v -> v = VStr "month").
Proof.
  split; [|split; [|split; [|split; [|split; [|split; [|split]]]]]].
  - intros Hi. split.
    + destruct (tilopay_bad_interval rt p tr Hi) as (e & E & V).
      exists e. split; [exact E|]. intros Ha Hc. rewrite (V Ha Hc). split.
      * apply refusal_converts.
      * apply refusal_throws.
    + destruct (onvo_bad_interval rt p tr Hi) as (e & E & V).
      exists e. split; [exact E|]. intros Ha Hc. rewrite (V Ha Hc). split.
      * apply refusal_converts.
      * apply refusal_throws.
  - intros [H|[s ->]]; [|reflexivity].
    destruct (interval p); try discriminate H; reflexivity.
  - apply emits_calls_of, tilopay_createSubscription_emits.
    eexists. split; reflexivity.
  - apply emits_calls_of, onvo_createSubscription_emits;
      intros; simpl in *;
      match goal with
      | H : Some _ = Some _ |- _ => injection H as <-
      end; simpl in *; try discriminate; reflexivity.
  - intros props requested. reflexivity.
  - intros props requested. reflexivity.
  - intros [body|] c v Hin; [apply (generate_interval rt body c v Hin)|].
    destruct Hin.
  - intros [raw|] c v Hin; [apply (create_link_interval rt raw c v Hin)|].
    destruct Hin.
Qed.

Lemma interval_checked_by_clients_only_witness :
  let rt := Example.runtime Example.configured [] in
  let p := Example.params (Example.num 1000) "USD" (VStr "week") in
  ~ known_interval (interval p)
  /\ run (Tilopay.createSubscription rt p)
     = (inl (TilopayError (interval_message rt (VStr "week")) None VUndefined), [])
  /\ run (Onvo.createSubscription rt p)
     = (inl (OnvoError (interval_message rt (VStr "week")) None VUndefined), []).
Proof.
  intros rt p.
  assert (Hi : ~ known_interval (interval p)).
  { intros [H|H]; discriminate H. }
  split; [exact Hi|].
  destruct (interval_checked_by_clients_only rt p []) as (H & _).
  destruct (H Hi) as ((e1 & E1 & V1) & (e2 & E2 & V2)).
  pose proof (proj1 (proj1 example_params_valid)) as Ha.
  unfold run. rewrite E1, E2.
  rewrite (proj1 (V1 Ha (or_introl eq_refl)) eq_refl).
  rewrite (proj1 (V2 Ha (or_introl eq_refl)) eq_refl).
  split; reflexivity.
Defined.

(** C6, the claim as written, fails on /api/generate.  A recurring request
    with no interval is not refused: the five calls of the subscription
    sequence are made and the answer is 200.  A recurring request that asks
    for 'year' gets a Price with the interval 'month'. *)
Lemma interval_ignored_by_route_counterexample :
  let rt := Example.runtime Example.configured
              [Example.ok_json (VObj [("id", VStr "cus_1")]);
               Example.ok_json (VObj [("id", VStr "prod_1")]);
               Example.ok_json (VObj [("id", VStr "price_1")]);
               Example.ok_json (VObj [("id", VStr "sub_1")]);
               Example.ok_json (VObj [("id", VStr "cs_1");
                                      ("url", VStr "https://pay.example/abc")])] in
  let absent := Example.generate_body (Example.num 1000) "recurring" "onvo" [] in
  let yearly := Example.generate_body (Example.num 1000) "recurring" "onvo"
                  [("interval", VStr "year")] in
  prop absent "interval" = VUndefined
  /\ result_of (GenerateRoute.POST rt (Some absent))
     = inr (NextResponse_json (VObj [("url", VStr "https://pay.example/abc")]) 200)
  /\ List.length (calls_of (GenerateRoute.POST rt (Some absent))) = 5%nat
  /\ prop yearly "interval" = VStr "year"
  /\ option_map
       (fun c => match c_body c with
                 | Some body => prop (prop body "recurring") "interval"
                 | None => VUndefined
                 end)
       (nth_error (calls_of (GenerateRoute.POST rt (Some yearly))) 2)
     = Some (VStr "month").
Proof. repeat split. Qed.

(* ================================================================== *)
(** * C4: the status of a failure *)
(* ================================================================== *)

(** A non-2xx answer whose body, once parsed, is not [null]: the error
    carries the status, unless its message cannot be written. *)
Lemma tilopay_outcome_not_ok rt path body tr r :
  Config.tilopayConfig_secretKey rt <> EmptyString ->
  server rt tr (tilopay_call rt path body) = Resolved r ->
  r_ok r = false ->
  nullish (error_body r) = false ->
  tilopay_outcome rt tr path body
  = match ToString (js rt) (tilopay_failure_message r) with
    | inl e => inl e
    | inr text => inl (tilopay_api_error rt r text)
    end.
Proof.
  intros N S Hok Ha. unfold tilopay_outcome, Tilopay.request.
  destruct (String.eqb_spec (Config.tilopayConfig_secretKey rt) EmptyString) as [E|_];
    [contradiction|].
  unfold bind at 1. unfold try_catch, fetch. fold (tilopay_call rt path body).
  rewrite S, Hok. cbv zeta. cbn [negb]. fold (error_body r).
  unfold tilopay_failure_message, tilopay_api_error.
  rewrite !(bind_inr _ _ _ _ _ (lift_get rt (error_body r) _ _ Ha)).
  unfold bind, lift.
  match goal with
  | |- context [ToString ?j ?v] => destruct (ToString j v)
  end; [reflexivity|].
  rewrite (get_prop _ _ _ Ha). reflexivity.
Qed.

Lemma create_link_dispatch_valid rt b tr :
  valid_one_time (create_link_params rt b) ->
  create_link_dispatch rt b tr
  = Tilopay.request rt (create_link_path b) (create_link_payload rt b) tr.
Proof.
  intros V. unfold create_link_dispatch, create_link_path, create_link_payload.
  destruct (CreateLinkRoute.body_isRecurring b) eqn:R.
  - apply tilopay_createSubscription_valid. split; [exact V|].
    unfold create_link_params. simpl. rewrite R. left; reflexivity.
  - apply tilopay_createPaymentIntent_valid, V.
Qed.

Lemma try_catch_inl {A} (m : M A) (h : exn -> M A) tr e tr' :
  m tr = (inl e, tr') -> try_catch m h tr = h e tr'.
Proof. intros H. unfold try_catch. rewrite H. reflexivity. Qed.

(** C4 as the code has it.  /api/generate answers 400 to a body that is
    not JSON (and to a falsy required field, see C10); every error thrown by
    the selected client operation, be it a failed check, a missing
    credential, a network failure or a provider API error, is answered 500
    with the message of the error; the route knows no other status than 200,
    400 and 500.  tilopay/create-link answers 400 to a body that is not
    JSON or that [validateBody] refuses, 500 to a missing credential, and 502
    to a provider API error: a non-2xx answer from which the client builds
    its error, which it does when the body of the answer is not the JSON
    [null] and the message it picks can be written as a string.  The error
    carries the HTTP status, and the answer of the route its message. *)
Theorem failure_status_by_route rt tr :
  GenerateRoute.POST rt None tr = (inr (generate_failure 400 "Invalid JSON body"), tr)
  /\ (forall body e tr',
        nullish body = false ->
        existsb (fun k => negb (truthy (prop body k))) required_fields = false ->
        generate_dispatch rt body tr = (inl e, tr') ->
        GenerateRoute.POST rt (Some body) tr
        = (inr (generate_failure 500 (Error_message e)), tr'))
  /\ (forall request response tr',
        GenerateRoute.POST rt request tr = (inr response, tr') ->
        res_status response = 200%Z \/ res_status response = 400%Z
        \/ res_status response = 500%Z)
  /\ CreateLinkRoute.POST rt None tr
     = (inr (create_link_failure 400 "Invalid JSON body"), tr)
  /\ (forall raw e,
        CreateLinkRoute.validateBody rt raw tr = (inl e, tr) ->
        CreateLinkRoute.POST rt (Some raw) tr
        = (inr (create_link_failure 400 (Error_message e)), tr))
  /\ (forall raw b,
        CreateLinkRoute.validateBody rt raw tr = (inr b, tr) ->
        valid_one_time (create_link_params rt b) ->
        Config.tilopayConfig_secretKey rt = EmptyString ->
        CreateLinkRoute.POST rt (Some raw) tr
        = (inr (create_link_failure 500 "TILOPAY_SECRET_KEY is not configured"), tr))
  /\ (forall raw b r text,
        CreateLinkRoute.validateBody rt raw tr = (inr b, tr) ->
        valid_one_time (create_link_params rt b) ->
        Config.tilopayConfig_secretKey rt <> EmptyString ->
        server rt tr (tilopay_call rt (create_link_path b) (create_link_payload rt b))
        = Resolved r ->
        r_ok r = false -> r_status r <> 0%Z ->
        nullish (error_body r) = false ->
        ToString (js rt) (tilopay_failure_message r) = inr text ->
        CreateLinkRoute.POST rt (Some raw) tr
        = (inr (create_link_failure 502
                  ("TiloPay API error ("
                     ++ Number_toString (js rt) (of_Z (r_status r))
                     ++ "): " ++ text)),
           (tr ++ [tilopay_call rt (create_link_path b)
                     (create_link_payload rt b)])%list)).
Proof.
  split; [reflexivity|].
  split.
  { intros body e tr' Hb Hm D.
    rewrite (generate_POST_readable rt body tr Hb), Hm.
    erewrite try_catch_inl; [reflexivity | apply bind_inl, D]. }
  split.
  { intros [body|] response tr' E.
    - destruct (nullish body) eqn:Hb.
      + rewrite (generate_POST_unreadable rt body tr Hb) in E. discriminate E.
      + rewrite (generate_POST_readable rt body tr Hb) in E.
        destruct (existsb _ required_fields).
        * injection E as <- _. right; left; reflexivity.
        * unfold try_catch, bind in E.
          destruct (generate_dispatch rt body tr) as [[e|result] t1].
          -- injection E as <- _. right; right; reflexivity.
          -- unfold lift in E. destruct (get (js rt) result "url") as [e|url].
             ++ injection E as <- _. right; right; reflexivity.
             ++ injection E as <- _. left; reflexivity.
    - injection E as <- _. right; left; reflexivity. }
  split; [reflexivity|].
  split; [intros raw e; apply create_link_POST_refused|].
  split.
  { intros raw b Vb V K.
    rewrite (create_link_POST_validated rt raw b tr Vb).
    erewrite try_catch_inl.
    2:{ apply bind_inl. rewrite (create_link_dispatch_valid rt b tr V).
        apply tilopay_request_unconfigured, K. }
    reflexivity. }
  { intros raw b r text Vb V N S Hok Hst Hbody T.
    pose proof (tilopay_outcome_not_ok rt _ _ tr r N S Hok Hbody) as O.
    rewrite T in O.
    rewrite (create_link_POST_validated rt raw b tr Vb).
    erewrite try_catch_inl.
    2:{ apply bind_inl. rewrite (create_link_dispatch_valid rt b tr V).
        rewrite (tilopay_request_calls rt _ _ tr N), O. reflexivity. }
    unfold ret, CreateLinkRoute.failure_status, tilopay_api_error.
    destruct (Z.eqb_spec (r_status r) 0); [contradiction|]. reflexivity. }
Qed.

Lemma failure_status_by_route_witness :
  let rt := Example.runtime Example.configured
              [Example.status_json 503 "Service Unavailable"
                 (VObj [("message", VStr "down")])] in
  let raw := VObj [("amount", Example.num 10); ("currency", VStr "USD");
                   ("isRecurring", VBool false)] in
  run (CreateLinkRoute.POST rt (Some raw))
  = (inr (create_link_failure 502 "TiloPay API error (503): down"),
     [tilopay_call rt "/payment_intents"
        (tilopay_payment_payload
           {| amount := Example.num 1000; currency := VStr "USD";
              description := VUndefined; interval := VUndefined;
              success_url := VStr "http://localhost:3000/success?provider=tilopay";
              cancel_url := VStr "http://localhost:3000/cancel?provider=tilopay" |})]).
Proof.
  intros rt raw.
  pose (b := {| CreateLinkRoute.body_amount := of_Z 10;
                CreateLinkRoute.body_currency := VStr "USD";
                CreateLinkRoute.body_description := VUndefined;
                CreateLinkRoute.body_isRecurring := false |}).
  assert (V : valid_one_time (create_link_params rt b)).
  { repeat split.
    - exists (inject_Z 1000), 1000%Z. repeat split; reflexivity.
    - left; reflexivity.
    - eexists; split; reflexivity.
    - eexists; split; reflexivity. }
  assert (N : Config.tilopayConfig_secretKey rt <> EmptyString) by discriminate.
  destruct (failure_status_by_route rt []) as (_ & _ & _ & _ & _ & _ & H).
  refine (H raw b _ "down" eq_refl V N eq_refl eq_refl _ eq_refl eq_refl).
  discriminate.
Defined.

(** C4, the claim as written, fails on /api/generate.  The provider answers
    503 to the first call of a valid request: the route answers 500, not
    502.  A currency the client refuses is answered 500 as well, not 400. *)
Lemma generate_always_500_counterexample :
  let rt := Example.runtime Example.configured
              [Example.status_json 503 "Service Unavailable"
                 (VObj [("message", VStr "down")])] in
  let valid := Example.generate_body (Example.num 1000) "one_time" "onvo" [] in
  let euros := VObj [("amount", Example.num 1000); ("currency", VStr "EUR");
                     ("type", VStr "one_time"); ("provider", VStr "onvo");
                     ("success_url", VStr "https://shop.example/ok");
                     ("cancel_url", VStr "https://shop.example/cancel")] in
  run (GenerateRoute.POST rt (Some valid))
  = (inr (generate_failure 500 "ONVO API error (503): down"),
     [onvo_call rt "/products"
        (onvo_product_payload (generate_params valid VUndefined))])
  /\ option_map res_status
       (match result_of (GenerateRoute.POST rt (Some euros)) with
        | inr response => Some response
        | inl _ => None
        end) = Some 500%Z
  /\ calls_of (GenerateRoute.POST rt (Some euros)) = [].
Proof. repeat split. Qed.

(** Two non-2xx answers from which the TiloPay client builds no error of
    its own: a body whose [message] has no text, and a body that is the JSON
    [null].  The helper throws a TypeError, which carries no status, and the
    create-link route answers 500. *)
Example create_link_unreadable_answer_500 :
  let raw := VObj [("amount", Example.num 10); ("currency", VStr "USD");
                   ("isRecurring", VBool false)] in
  let odd := VObj [("message", VObj [("toString", VStr "x")])] in
  result_of (CreateLinkRoute.POST
               (Example.runtime Example.configured
                  [Example.status_json 503 "Service Unavailable" odd])
               (Some raw))
  = inr (create_link_failure 500 "Cannot convert object to primitive value")
  /\ result_of (CreateLinkRoute.POST
                  (Example.runtime Example.configured
                     [Example.status_json 503 "Service Unavailable" VNull])
                  (Some raw))
     = inr (create_link_failure 500
              "Cannot read properties of null (reading message)").
Proof. split; reflexivity. Qed.

(* ================================================================== *)
(** * C1: the amount that is sent *)
(* ================================================================== *)

Lemma tilopay_payment_carries rt path p :
  carried_amounts (tilopay_call rt path (tilopay_payment_payload p)) = [amount p].
Proof.
  unfold carried_amounts, tilopay_call, tilopay_payment_payload, spread_description.
  destruct (truthy (description p)); reflexivity.
Qed.

Lemma tilopay_subscription_carries rt path p :
  carried_amounts (tilopay_call rt path (tilopay_subscription_payload p)) = [amount p].
Proof.
  unfold carried_amounts, tilopay_call, tilopay_subscription_payload,
    spread_description.
  destruct (truthy (description p)); reflexivity.
Qed.

Lemma onvo_intent_carries rt p :
  carried_amounts (onvo_call rt "/payment-intents" (onvo_intent_payload p))
  = [amount p].
Proof.
  unfold carried_amounts, onvo_call, onvo_intent_payload, spread_description.
  destruct (truthy (description p)); reflexivity.
Qed.

(** An operation that calls out has been given a positive integer. *)
Ltac by_amount p :=
  destruct (match amount p with
            | VNum n => negb (num_isInteger n) || num_le_zero n
            | _ => true
            end) eqn:Test;
  [ assert (Bad : ~ positive_integer (amount p))
      by (intros Bad; apply amount_test_spec in Bad; congruence)
  | assert (Good : positive_integer (amount p))
      by (apply amount_test_spec; exact Test) ].

Lemma tilopay_createPaymentIntent_amounts rt p :
  Forall (fun c => positive_integer (amount p) /\ carried_amounts c = [amount p])
    (calls_of (Tilopay.createPaymentIntent rt p)).
Proof.
  by_amount p.
  - unfold calls_of, run.
    rewrite (tilopay_createPaymentIntent_bad_amount rt p [] Bad). constructor.
  - apply emits_calls_of, tilopay_createPaymentIntent_emits.
    split; [exact Good | apply tilopay_payment_carries].
Qed.

Lemma tilopay_createSubscription_amounts rt p :
  Forall (fun c => positive_integer (amount p) /\ carried_amounts c = [amount p])
    (calls_of (Tilopay.createSubscription rt p)).
Proof.
  by_amount p.
  - unfold calls_of, run.
    rewrite (tilopay_createSubscription_bad_amount rt p [] Bad). constructor.
  - apply emits_calls_of, tilopay_createSubscription_emits.
    split; [exact Good | apply tilopay_subscription_carries].
Qed.

Lemma onvo_createPaymentIntent_amounts rt p :
  Forall (fun c => positive_integer (amount p)
                   /\ forall v, In v (carried_amounts c) -> v = amount p)
    (calls_of (Onvo.createPaymentIntent rt p)).
Proof.
  by_amount p.
  - unfold calls_of, run.
    rewrite (onvo_createPaymentIntent_bad_amount rt p [] Bad). constructor.
  - apply emits_calls_of, onvo_createPaymentIntent_emits;
      intros; (split; [exact Good|]); try rewrite onvo_intent_carries;
      simpl; intros v Hv; intuition congruence.
Qed.

Lemma onvo_createSubscription_amounts rt p :
  Forall (fun c => positive_integer (amount p)
                   /\ forall v, In v (carried_amounts c) -> v = amount p)
    (calls_of (Onvo.createSubscription rt p)).
Proof.
  by_amount p.
  - unfold calls_of, run.
    rewrite (onvo_createSubscription_bad_amount rt p [] Bad). constructor.
  - apply emits_calls_of, onvo_createSubscription_emits;
      intros; (split; [exact Good|]);
      simpl; intros v Hv; intuition congruence.
Qed.

(** C1 as the code has it.  /api/generate converts nothing: a call it
    causes is only made when the [amount] of the request is itself a positive
    integer, and every amount carried by that call ([amount], [unitAmount]) is
    the amount of the request, unchanged.  The conversion is done before the
    route, by the page that posts to it: for the amount typed in the form,
    every call caused by the posted request carries
    [Math.round(numericAmount * 100)], a positive integer.  The
    tilopay/create-link route converts by itself: a call it causes carries
    [Math.round(amount * 100)], and this is a positive integer. *)
Theorem amount_sent_by_route rt :
  (forall body c,
     In c (calls_of (GenerateRoute.POST rt (Some body))) ->
     positive_integer (prop body "amount")
     /\ forall v, In v (carried_amounts c) -> v = prop body "amount")
  /\ (forall origin form body c,
        Page.handleSubmit (js rt) origin form = Some body ->
        In c (calls_of (GenerateRoute.POST rt (Some body))) ->
        let cents :=
          VNum (Math_round
                  (Number_mul (js rt) (parseFloat (js rt) (Page.amount form))
                     (of_Z 100))) in
        positive_integer cents
        /\ forall v, In v (carried_amounts c) -> v = cents)
  /\ (forall raw c,
        In c (calls_of (CreateLinkRoute.POST rt (Some raw))) ->
        exists a,
          prop raw "amount" = VNum a
          /\ positive_integer (VNum (Math_round (Number_mul (js rt) a (of_Z 100))))
          /\ carried_amounts c
             = [VNum (Math_round (Number_mul (js rt) a (of_Z 100)))]).
Proof.
  assert (G : forall body c,
     In c (calls_of (GenerateRoute.POST rt (Some body))) ->
     positive_integer (prop body "amount")
     /\ forall v, In v (carried_amounts c) -> v = prop body "amount").
  2:{ split; [exact G|]. split.
      - intros origin form body c Hs Hin cents.
        destruct (G body c Hin) as [Hpos Hv].
        unfold Page.handleSubmit in Hs.
        destruct (_ || _); [discriminate Hs|].
        destruct (String.eqb _ _); [discriminate Hs|].
        injection Hs as <-. simpl prop in Hpos, Hv.
        assert (E : Page.serialized_number
                      (Math_round
                         (Number_mul (js rt) (parseFloat (js rt) (Page.amount form))
                            (of_Z 100))) = cents).
        { destruct Hpos as (q & z & Hq & _). unfold cents.
          destruct (Math_round _); simpl in *; congruence. }
        rewrite E in Hpos, Hv. split; assumption.
      - revert G. intros _. intros raw c Hin.
        destruct (create_link_calls rt raw) as [E|(b & Ha & E)]; rewrite E in Hin;
          [contradiction|].
        exists (CreateLinkRoute.body_amount b). split; [exact Ha|].
        unfold create_link_dispatch in Hin.
        destruct (CreateLinkRoute.body_isRecurring b).
        + pose proof (tilopay_createSubscription_amounts rt (create_link_params rt b)) as F.
          rewrite Forall_forall in F. exact (F c Hin).
        + pose proof (tilopay_createPaymentIntent_amounts rt (create_link_params rt b)) as F.
          rewrite Forall_forall in F. exact (F c Hin). }
  - intros body c Hin.
    destruct (generate_calls rt body) as [E|E]; rewrite E in Hin;
      [contradiction|].
    unfold generate_dispatch in Hin.
    assert (W : forall (P : Call -> Prop) l,
                Forall (fun c => positive_integer (prop body "amount") /\ P c) l ->
                (forall c, P c -> forall v, In v (carried_amounts c) ->
                           v = prop body "amount") ->
                In c l ->
                positive_integer (prop body "amount")
                /\ forall v, In v (carried_amounts c) -> v = prop body "amount").
    { intros P l F HP Hc. rewrite Forall_forall in F.
      destruct (F c Hc) as [H1 H2]. split; [exact H1|]. apply HP, H2. }
    destruct (is_str (prop body "provider") "tilopay");
      destruct (is_str (prop body "type") "recurring").
    + eapply W; [apply (tilopay_createSubscription_amounts rt
                          (generate_params body (VStr "month"))) | | exact Hin].
      simpl. intros c0 -> v [<-|[]]. reflexivity.
    + eapply W; [apply (tilopay_createPaymentIntent_amounts rt
                          (generate_params body VUndefined)) | | exact Hin].
      simpl. intros c0 -> v [<-|[]]. reflexivity.
    + eapply W; [apply (onvo_createSubscription_amounts rt
                          (generate_params body (VStr "month"))) | | exact Hin].
      simpl. intros c0 H. exact H.
    + eapply W; [apply (onvo_createPaymentIntent_amounts rt
                          (generate_params body VUndefined)) | | exact Hin].
      simpl. intros c0 H. exact H.
Qed.

Lemma amount_sent_by_route_witness :
  let rt := Example.runtime Example.configured
              [Example.ok_json (VObj [("url", VStr "https://pay.example/abc")])] in
  let raw := VObj [("amount", Example.num 10); ("currency", VStr "USD");
                   ("isRecurring", VBool false)] in
  exists c,
    calls_of (CreateLinkRoute.POST rt (Some raw)) = [c]
    /\ carried_amounts c = [Example.num 1000].
Proof.
  intros rt raw. eexists. split; [reflexivity|].
  destruct (proj2 (proj2 (amount_sent_by_route rt)) raw _ (or_introl eq_refl))
    as (a & Ha & _ & E).
  injection Ha as <-. exact E.
Defined.

(** C1, the claim as written, fails on /api/generate at Scenario A of the
    specification: for the amount 10 the payload sent carries 10, while
    [Math.round(10 * 100)] is 1000. *)
Lemma generate_sends_amount_unchanged_counterexample :
  let rt := Example.runtime Example.configured
              [Example.ok_json (VObj [("url", VStr "https://pay.example/abc")])] in
  let body := Example.generate_body (Example.num 10) "one_time" "tilopay" [] in
  result_of (GenerateRoute.POST rt (Some body))
  = inr (NextResponse_json (VObj [("url", VStr "https://pay.example/abc")]) 200)
  /\ map carried_amounts (calls_of (GenerateRoute.POST rt (Some body)))
     = [[Example.num 10]]
  /\ Math_round (Number_mul (js rt) (of_Z 10) (of_Z 100)) = of_Z 1000
  /\ num_eqb (of_Z 10) (of_Z 1000) = false.
Proof. repeat split. Qed.


(** The page and /api/generate together: 10 typed in the form, 1000 sent. *)
Example page_then_generate_sends_cents :
  let rt := Example.runtime Example.configured
              [Example.ok_json (VObj [("id", VStr "prod_1")]);
               Example.ok_json (VObj [("id", VStr "price_1")]);
               Example.ok_json (VObj [("id", VStr "pi_1")]);
               Example.ok_json (VObj [("id", VStr "cs_1");
                                      ("url", VStr "https://pay.example/abc")])] in
  let form := {| Page.amount := "10"; Page.currency := "USD";
                 Page.paymentType := "one_time"; Page.provider := "onvo";
                 Page.description := EmptyString |} in
  option_map
    (fun body => map carried_amounts (calls_of (GenerateRoute.POST rt (Some body))))
    (Page.handleSubmit (js rt) "https://shop.example" form)
  = Some [[]; [Example.num 1000]; [Example.num 1000]; []].
Proof. reflexivity. Qed.

(* ================================================================== *)
(** * Beyond the claims: the password gate *)
(* ================================================================== *)

Lemma charCode_inj x y : Auth.charCode x = Auth.charCode y -> x = y.
Proof.
  unfold Auth.charCode. intros H. apply N2Z.inj in H.
  rewrite <- (ascii_N_embedding x), <- (ascii_N_embedding y), H. reflexivity.
Qed.

Lemma safeEqual_loop_zero a : forall b diff,
  String.length a = String.length b ->
  Auth.safeEqual_loop a b diff = 0%Z <-> diff = 0%Z /\ a = b.
Proof.
  induction a as [|x a IH]; intros [|y b] diff Hlen; simpl in *;
    try discriminate.
  - intuition.
  - injection Hlen as Hlen. rewrite (IH b _ Hlen), Z.lor_eq_0_iff. split.
    + intros [[Hd Hx] ->]. split; [exact Hd|].
      apply Z.lxor_eq, charCode_inj in Hx. now subst.
    + intros [Hd E]. injection E as -> ->.
      rewrite Z.lxor_nilpotent. auto.
Qed.

Lemma safeEqual_true a b : Auth.safeEqual a b = true -> a = b.
Proof.
  unfold Auth.safeEqual.
  destruct (Nat.eqb_spec (String.length a) (String.length b)) as [Hlen|Hlen]; simpl.
  - rewrite Z.eqb_eq, (safeEqual_loop_zero a b 0%Z Hlen). intuition.
  - discriminate.
Qed.

Lemma safeEqual_refl a : Auth.safeEqual a a = true.
Proof.
  unfold Auth.safeEqual. rewrite Nat.eqb_refl. simpl.
  apply Z.eqb_eq, safeEqual_loop_zero; auto.
Qed.

(** X1.  [safeEqual] answers true exactly when its two strings are the
    same: the comparison made to run in constant time still decides
    equality, and strings of different lengths are never equal to it. *)
Theorem safeEqual_decides_equality a b :
  (Auth.safeEqual a b = true <-> a = b)
  /\ (String.length a <> String.length b -> Auth.safeEqual a b = false).
Proof.
  split.
  - split; [apply safeEqual_true | intros ->; apply safeEqual_refl].
  - intros Hlen. destruct (Auth.safeEqual a b) eqn:E; [|reflexivity].
    apply safeEqual_true in E. subst. contradiction.
Qed.

Lemma string_length_append (s t : string) :
  String.length (s ++ t) = (String.length s + String.length t)%nat.
Proof. induction s as [|c s IH]; simpl; [reflexivity|]. now rewrite IH. Qed.

Lemma join_empty_cons (s : string) (rest : list string) :
  join_with EmptyString (s :: rest) = s ++ join_with EmptyString rest.
Proof.
  destruct rest as [|t rest]; simpl; [|reflexivity].
  induction s as [|c s IH]; simpl; [reflexivity|]. now rewrite <- IH.
Qed.

Lemma byte_hex_length (n : N) :
  String.length (Auth.padStart2 (Auth.toString16 n)) = 2%nat.
Proof.
  unfold Auth.toString16. destruct (n <? 16)%N; reflexivity.
Qed.

(** X2.  [hashPassword] writes two characters for each byte of the digest:
    its result is twice as long as the digest, 64 characters for the 32
    bytes of SHA-256, and it is empty only when the digest is. *)
Theorem hashPassword_two_characters_per_byte
    (SHA256 : string -> list Byte.byte) (password : string) :
  String.length (Auth.hashPassword SHA256 password)
  = (2 * List.length (SHA256 password))%nat
  /\ (List.length (SHA256 password) = 32%nat ->
      String.length (Auth.hashPassword SHA256 password) = 64%nat)
  /\ (Auth.hashPassword SHA256 password = EmptyString <-> SHA256 password = []).
Proof.
  unfold Auth.hashPassword.
  assert (L : forall bytes,
    String.length
      (join_with EmptyString
         (map (fun b => Auth.padStart2 (Auth.toString16 (Byte.to_N b))) bytes))
    = (2 * List.length bytes)%nat).
  { induction bytes as [|b bytes IH]; [reflexivity|].
    cbn [map]. rewrite join_empty_cons, string_length_append, byte_hex_length, IH.
    simpl. lia. }
  split; [apply L|]. split.
  - intros H. rewrite L, H. reflexivity.
  - split.
    + intros H. pose proof (L (SHA256 password)) as E. rewrite H in E.
      destruct (SHA256 password); [reflexivity|discriminate E].
    + intros ->. reflexivity.
Qed.

Lemma hashPassword_two_characters_per_byte_witness :
  let digest := fun _ : string => [Byte.x00; Byte.x0f; Byte.xff] in
  Auth.hashPassword digest "secret" = "000fff".
Proof.
  intros digest.
  pose proof (hashPassword_two_characters_per_byte digest "secret") as (H & _).
  reflexivity.
Defined.

Lemma hashPassword_empty (SHA256 : string -> list Byte.byte) password :
  SHA256 password <> [] -> Auth.hashPassword SHA256 password <> EmptyString.
Proof.
  intros Hd E. unfold Auth.hashPassword in E.
  destruct (SHA256 password) as [|b bytes]; [contradiction|].
  cbn [map] in E. rewrite join_empty_cons in E.
  apply (f_equal String.length) in E.
  rewrite string_length_append, byte_hex_length in E. discriminate E.
Qed.

Lemma login_cases (SHA256 : string -> list Byte.byte)
    (env : string -> option string) (request_json : option value) :
  let answer := AuthRoutes.login_POST SHA256 env request_json in
  (login_granted SHA256 env request_json
   /\ res_status (AuthRoutes.response answer) = 200%Z
   /\ exists envPassword secure,
        env "AUTH_PASSWORD" = Some envPassword
        /\ envPassword <> EmptyString
        /\ AuthRoutes.cookies answer
           = [session_cookie (Auth.hashPassword SHA256 envPassword) secure])
  \/ (~ login_granted SHA256 env request_json
      /\ AuthRoutes.cookies answer = []
      /\ (res_status (AuthRoutes.response answer) = 400%Z
          \/ res_status (AuthRoutes.response answer) = 401%Z
          \/ res_status (AuthRoutes.response answer) = 500%Z)).
Proof.
  intros answer.
  unfold answer, login_granted, AuthRoutes.login_POST.
  destruct request_json as [body|].
  2:{ right. split; [|simpl; auto]. intros (? & ? & ? & E & _). discriminate E. }
  assert (P : prop (nullish_or body (VObj [])) "password"
              = match nullish_or body (VObj []) with
                | VObj props => lookup "password" props
                | _ => VUndefined
                end) by reflexivity.
  rewrite <- P.
  destruct (prop (nullish_or body (VObj [])) "password") as [| | | |submitted| |] eqn:Ep;
    try (right; split; [|simpl; auto];
         intros (? & ? & ? & E & E' & _); injection E as <-;
         rewrite Ep in E'; discriminate E').
  cbn [truthy].
  destruct (String.eqb_spec submitted EmptyString) as [Es|Es]; cbn [negb].
  { right. split; [|simpl; auto].
    intros (? & s0 & ? & E & E' & Hs & _). injection E as <-.
    rewrite Ep in E'. injection E' as <-. contradiction. }
  destruct (env "AUTH_PASSWORD") as [envPassword|] eqn:Ee.
  2:{ right. split; [|simpl; auto].
      intros (? & ? & ? & _ & _ & _ & E & _). discriminate E. }
  destruct (String.eqb_spec envPassword EmptyString) as [Ev|Ev].
  { right. split; [|simpl; auto].
    intros (? & ? & ? & _ & _ & _ & E & Hv & _). injection E as <-.
    contradiction. }
  destruct (Auth.safeEqual (Auth.hashPassword SHA256 submitted)
              (Auth.hashPassword SHA256 envPassword)) eqn:Eq; cbn [negb].
  - left. apply safeEqual_true in Eq. split; [|split].
    + exists body, submitted, envPassword. auto 10.
    + reflexivity.
    + eexists _, _. split; [reflexivity|]. split; [exact Ev|reflexivity].
  - right. split; [|simpl; auto].
    intros (? & s0 & e0 & E & E' & _ & E'' & _ & Hh).
    injection E as <-. rewrite Ep in E'. injection E' as <-.
    injection E'' as <-. rewrite Hh, safeEqual_refl in Eq. discriminate Eq.
Qed.

(** X3.  The login route answers 200 exactly when the body holds a
    non-empty string [password], AUTH_PASSWORD is set and not empty, and
    the two have the same hash; it sets a cookie in that case only, the
    cookie [pl_token] holding the hash of AUTH_PASSWORD, http-only and
    valid for seven days.  Every other answer is 400, 401 or 500. *)
Theorem login_grants_on_matching_hash
    (SHA256 : string -> list Byte.byte) (env : string -> option string)
    (request_json : option value) :
  let answer := AuthRoutes.login_POST SHA256 env request_json in
  (res_status (AuthRoutes.response answer) = 200%Z
   <-> login_granted SHA256 env request_json)
  /\ (AuthRoutes.cookies answer <> [] <-> login_granted SHA256 env request_json)
  /\ (forall c, In c (AuthRoutes.cookies answer) ->
       exists envPassword secure,
         env "AUTH_PASSWORD" = Some envPassword
         /\ c = session_cookie (Auth.hashPassword SHA256 envPassword) secure)
  /\ (res_status (AuthRoutes.response answer) = 200%Z
      \/ res_status (AuthRoutes.response answer) = 400%Z
      \/ res_status (AuthRoutes.response answer) = 401%Z
      \/ res_status (AuthRoutes.response answer) = 500%Z).
Proof.
  cbv zeta.
  pose proof (login_cases SHA256 env request_json) as Cases. cbv zeta in Cases.
  destruct Cases as [(G & S & pw & sec & Ee & _ & C)|(NG & C & S)].
  - split; [tauto|]. split; [rewrite C; split; [tauto|discriminate]|].
    split; [|auto].
    intros c Hc. rewrite C in Hc. destruct Hc as [<-|[]]. eauto.
  - split.
    + split; [|tauto]. intros E. rewrite E in S.
      destruct S as [S|[S|S]]; discriminate S.
    + split; [rewrite C; split; [congruence|tauto]|].
      split; [rewrite C; intros c []|tauto].
Qed.

Lemma middleware_protected (SHA256 : string -> list Byte.byte)
    (env : string -> option string) request envPassword :
  Middleware.isPublicPath (Middleware.pathname request) = false ->
  env "AUTH_PASSWORD" = Some envPassword ->
  envPassword <> EmptyString ->
  (exists token,
     Middleware.cookie request Auth.TOKEN_COOKIE = Some token
     /\ token <> EmptyString
     /\ token = Auth.hashPassword SHA256 envPassword
     /\ Middleware.middleware SHA256 env request = Middleware.Next)
  \/ ((forall token,
         Middleware.cookie request Auth.TOKEN_COOKIE = Some token ->
         token = EmptyString \/ token <> Auth.hashPassword SHA256 envPassword)
      /\ Middleware.middleware SHA256 env request
         = Middleware.Redirect (Middleware.origin request ++ "/login")).
Proof.
  intros Hp He Hv. unfold Middleware.middleware. rewrite Hp, He.
  destruct (Middleware.cookie request Auth.TOKEN_COOKIE) as [token|].
  2:{ right. split; [intros ? E; discriminate E | reflexivity]. }
  destruct (String.eqb_spec token EmptyString) as [Et|Et].
  { right. split; [|reflexivity]. intros t E. injection E as <-. auto. }
  destruct (String.eqb_spec envPassword EmptyString) as [|_]; [contradiction|].
  cbv zeta.
  destruct (Auth.safeEqual token (Auth.hashPassword SHA256 envPassword)) eqn:Eq;
    cbn [negb].
  - left. exists token. apply safeEqual_true in Eq. auto.
  - right. split; [|reflexivity]. intros t E. injection E as <-. right.
    intros ->. rewrite safeEqual_refl in Eq. discriminate Eq.
Qed.

(** X4.  On a path that is not public and with AUTH_PASSWORD configured,
    the middleware lets a request through exactly when its [pl_token] cookie
    is the hash of AUTH_PASSWORD (and not empty); every other request is
    redirected to [/login] on the same origin. *)
Theorem middleware_admits_the_token_only (SHA256 : string -> list Byte.byte)
    (env : string -> option string) request envPassword :
  Middleware.isPublicPath (Middleware.pathname request) = false ->
  env "AUTH_PASSWORD" = Some envPassword ->
  envPassword <> EmptyString ->
  (Middleware.middleware SHA256 env request = Middleware.Next
   <-> exists token,
         Middleware.cookie request "pl_token" = Some token
         /\ token <> EmptyString
         /\ token = Auth.hashPassword SHA256 envPassword)
  /\ (Middleware.middleware SHA256 env request <> Middleware.Next ->
      Middleware.middleware SHA256 env request
      = Middleware.Redirect (Middleware.origin request ++ "/login")).
Proof.
  intros Hp He Hv.
  destruct (middleware_protected SHA256 env request envPassword Hp He Hv)
    as [(token & Hc & Ht & Hh & E)|(Hno & E)]; rewrite E.
  - split; [|congruence]. split; [|reflexivity]. intros _. exists token. auto.
  - split; [|reflexivity]. split; [discriminate|].
    intros (token & Hc & Ht & Hh). destruct (Hno token Hc); contradiction.
Qed.

Lemma middleware_admits_the_token_only_witness :
  let digest := fun s : string => map byte_of_ascii (list_ascii_of_string s) in
  let env := fun key : string =>
               if String.eqb key "AUTH_PASSWORD" then Some "hunter2" else None in
  let request := {| Middleware.pathname := "/api/generate";
                    Middleware.origin := "https://shop.example";
                    Middleware.cookie := fun _ => Some "stolen" |} in
  Middleware.middleware digest env request
  = Middleware.Redirect "https://shop.example/login".
Proof.
  intros digest env request.
  apply (middleware_admits_the_token_only digest env request "hunter2");
    [reflexivity | reflexivity | discriminate | discriminate].
Defined.

(** X5.  The cookie that a successful login sets is the one the middleware
    asks for: a request that carries it is let through on every path,
    provided a digest is never empty.  The cookie that logout sets is empty,
    and a request that carries it to a path that is not public is redirected
    to [/login]. *)
Theorem login_cookie_opens_the_gate (SHA256 : string -> list Byte.byte)
    (env : string -> option string) (request : Middleware.NextRequest) :
  (forall request_json c,
     (forall s, SHA256 s <> []) ->
     In c (AuthRoutes.cookies (AuthRoutes.login_POST SHA256 env request_json)) ->
     Middleware.cookie request (AuthRoutes.cookie_name c)
     = Some (AuthRoutes.cookie_value c) ->
     Middleware.middleware SHA256 env request = Middleware.Next)
  /\ (forall c,
        In c (AuthRoutes.cookies AuthRoutes.logout_POST) ->
        Middleware.cookie request (AuthRoutes.cookie_name c)
        = Some (AuthRoutes.cookie_value c) ->
        Middleware.isPublicPath (Middleware.pathname request) = false ->
        Middleware.middleware SHA256 env request
        = Middleware.Redirect (Middleware.origin request ++ "/login")).
Proof.
  split.
  - intros request_json c Hd Hc Hcookie.
    pose proof (login_cases SHA256 env request_json) as Cases. cbv zeta in Cases.
    destruct Cases as [(_ & _ & pw & sec & Ee & Hv & C)|(_ & C & _)];
      rewrite C in Hc; [|contradiction].
    destruct Hc as [<-|[]]. simpl in Hcookie.
    destruct (Middleware.isPublicPath (Middleware.pathname request)) eqn:Hp.
    { unfold Middleware.middleware. rewrite Hp. reflexivity. }
    destruct (middleware_protected SHA256 env request pw Hp Ee Hv)
      as [(_ & _ & _ & _ & E)|(Hno & _)]; [exact E|].
    destruct (Hno _ Hcookie) as [E|E].
    + exfalso. exact (hashPassword_empty SHA256 pw (Hd pw) E).
    + contradiction.
  - intros c [<-|[]] Hcookie Hp. simpl in Hcookie.
    unfold Middleware.middleware. rewrite Hp.
    unfold Auth.TOKEN_COOKIE in *. rewrite Hcookie. reflexivity.
Qed.

Lemma login_cookie_opens_the_gate_witness :
  let digest := fun s : string =>
                  Byte.x2a :: map byte_of_ascii (list_ascii_of_string s) in
  let env := fun key : string =>
               if String.eqb key "AUTH_PASSWORD" then Some "hunter2" else None in
  let answer := AuthRoutes.login_POST digest env
                  (Some (VObj [("password", VStr "hunter2")])) in
  let request := {| Middleware.pathname := "/api/generate";
                    Middleware.origin := "https://shop.example";
                    Middleware.cookie := fun name =>
                      match AuthRoutes.cookies answer with
                      | c :: _ =>
                          if String.eqb name (AuthRoutes.cookie_name c)
                          then Some (AuthRoutes.cookie_value c) else None
                      | [] => None
                      end |} in
  res_status (AuthRoutes.response answer) = 200%Z
  /\ Middleware.middleware digest env request = Middleware.Next.
Proof.
  intros digest env answer request. split; [reflexivity|].
  refine (proj1 (login_cookie_opens_the_gate digest env request)
            (Some (VObj [("password", VStr "hunter2")]))
            (session_cookie (Auth.hashPassword digest "hunter2") false) _ _ _).
  - intros s. discriminate.
  - left. reflexivity.
  - reflexivity.
Defined.

(** X6.  With AUTH_PASSWORD missing or empty the middleware does not lock
    anyone out: on a path that is not public it lets through every request
    that carries a non-empty [pl_token] cookie, whatever its value, and
    redirects the requests that carry none. *)
Theorem middleware_open_when_unconfigured (SHA256 : string -> list Byte.byte)
    (env : string -> option string) request :
  Middleware.isPublicPath (Middleware.pathname request) = false ->
  env "AUTH_PASSWORD" = None \/ env "AUTH_PASSWORD" = Some EmptyString ->
  (Middleware.middleware SHA256 env request = Middleware.Next
   <-> exists token,
         Middleware.cookie request "pl_token" = Some token
         /\ token <> EmptyString)
  /\ (Middleware.middleware SHA256 env request <> Middleware.Next ->
      Middleware.middleware SHA256 env request
      = Middleware.Redirect (Middleware.origin request ++ "/login")).
Proof.
  intros Hp He. unfold Middleware.middleware. rewrite Hp.
  change Auth.TOKEN_COOKIE with "pl_token".
  destruct (Middleware.cookie request "pl_token") as [token|].
  2:{ split; [|reflexivity]. split; [discriminate|]. intros (? & E & _). discriminate E. }
  destruct (String.eqb_spec token EmptyString) as [Et|Et].
  { split; [|reflexivity]. split; [discriminate|].
    intros (t & E & Ht). injection E as <-. contradiction. }
  destruct He as [He|He]; rewrite He; cbn [String.eqb];
    (split; [|congruence]); (split; [|reflexivity]); intros _;
    exists token; auto.
Qed.

Lemma middleware_open_when_unconfigured_witness :
  let digest := fun s : string => map byte_of_ascii (list_ascii_of_string s) in
  let request := {| Middleware.pathname := "/api/generate";
                    Middleware.origin := "https://shop.example";
                    Middleware.cookie := fun _ => Some "anything" |} in
  Middleware.middleware digest (fun _ => None) request = Middleware.Next.
Proof.
  intros digest request.
  apply (middleware_open_when_unconfigured digest (fun _ => None) request);
    [reflexivity | left; reflexivity |].
  exists "anything". split; [reflexivity|discriminate].
Defined.

Lemma prefix_cons a s t :
  String.prefix (String a s) t = true ->
  exists t', t = String a t' /\ String.prefix s t' = true.
Proof.
  destruct t as [|b t]; simpl; [discriminate|].
  destruct (ascii_dec a b) as [<-|]; [|discriminate]. eauto.
Qed.

(** X7.  Of the paths under [/api/], only those under [/api/auth/] are
    public: the middleware guards the payment endpoints, whatever comes
    after [/api/]. *)
Theorem api_paths_are_guarded (pathname : string) :
  String.prefix "/api/" pathname = true ->
  Middleware.isPublicPath pathname = true ->
  String.prefix "/api/auth/" pathname = true.
Proof.
  intros Hapi Hpub.
  destruct (String.prefix "/api/auth/" pathname) eqn:Hauth; [reflexivity|].
  exfalso.
  apply prefix_cons in Hapi. destruct Hapi as (p1 & -> & Hapi).
  apply prefix_cons in Hapi. destruct Hapi as (p2 & -> & Hapi).
  apply prefix_cons in Hapi. destruct Hapi as (p3 & -> & Hapi).
  apply prefix_cons in Hapi. destruct Hapi as (p4 & -> & Hapi).
  apply prefix_cons in Hapi. destruct Hapi as (rest & -> & _).
  unfold Middleware.isPublicPath in Hpub.
  rewrite Hauth in Hpub. simpl in Hpub.
  destruct (String.eqb_spec rest "auth/login") as [E|_].
  { rewrite E in Hauth. discriminate Hauth. }
  destruct (String.eqb_spec rest "auth/logout") as [E|_].
  { rewrite E in Hauth. discriminate Hauth. }
  simpl in Hpub. discriminate Hpub.
Qed.

Lemma api_paths_are_guarded_witness :
  Middleware.isPublicPath "/api/generate" = false
  /\ Middleware.isPublicPath "/api/tilopay/create-link" = false.
Proof.
  split.
  - destruct (Middleware.isPublicPath "/api/generate") eqn:E; [|reflexivity].
    pose proof (api_paths_are_guarded "/api/generate" eq_refl E) as H.
    discriminate H.
  - destruct (Middleware.isPublicPath "/api/tilopay/create-link") eqn:E;
      [|reflexivity].
    pose proof (api_paths_are_guarded "/api/tilopay/create-link" eq_refl E) as H.
    discriminate H.
Defined.

(* ================================================================== *)
(** * Beyond the claims: the validation of the configuration *)
(* ================================================================== *)

Lemma isValid_no_errors (l : list string) :
  ConfigValidation.isValid (ConfigValidation.result_of_errors l) = true <-> l = [].
Proof. destruct l; simpl; split; congruence. Qed.

Lemma tilopay_config_valid rt :
  ConfigValidation.errors (ConfigValidation.validateTilopayConfig rt) = []
  <-> ConfigValidation.tilopayConfig_publicKey rt <> EmptyString
      /\ Config.tilopayConfig_secretKey rt <> EmptyString.
Proof.
  unfold ConfigValidation.validateTilopayConfig. simpl.
  destruct (String.eqb_spec (ConfigValidation.tilopayConfig_publicKey rt) EmptyString);
    destruct (String.eqb_spec (Config.tilopayConfig_secretKey rt) EmptyString);
    simpl; split; try discriminate; try tauto; intros [? ?]; contradiction.
Qed.

Lemma onvo_config_valid rt :
  ConfigValidation.errors (ConfigValidation.validateOnvoConfig rt) = []
  <-> ConfigValidation.onvoConfig_publishableKey rt <> EmptyString
      /\ Config.onvoConfig_secretKey rt <> EmptyString
      /\ ConfigValidation.includes "_test_" (ConfigValidation.onvoConfig_publishableKey rt)
         = ConfigValidation.includes "_test_" (Config.onvoConfig_secretKey rt).
Proof.
  unfold ConfigValidation.validateOnvoConfig. simpl.
  destruct (String.eqb_spec (ConfigValidation.onvoConfig_publishableKey rt) EmptyString);
    destruct (String.eqb_spec (Config.onvoConfig_secretKey rt) EmptyString);
    simpl; try (split; [discriminate | intros (? & ? & ?); contradiction]).
  destruct (ConfigValidation.includes "_test_" (ConfigValidation.onvoConfig_publishableKey rt));
    destruct (ConfigValidation.includes "_test_" (Config.onvoConfig_secretKey rt));
    simpl; split; try discriminate; try tauto; intros (? & ? & ?); discriminate.
Qed.

Lemma validateConfig_errors rt provider :
  ConfigValidation.errors (ConfigValidation.validateConfig rt provider)
  = ((if selects provider "tilopay"
      then ConfigValidation.errors (ConfigValidation.validateTilopayConfig rt) else [])
       ++ (if selects provider "onvo"
           then ConfigValidation.errors (ConfigValidation.validateOnvoConfig rt) else []))%list.
Proof. reflexivity. Qed.

Lemma validateConfig_valid rt provider :
  ConfigValidation.isValid (ConfigValidation.validateConfig rt provider) = true
  <-> (selects provider "tilopay" = true ->
       ConfigValidation.errors (ConfigValidation.validateTilopayConfig rt) = [])
      /\ (selects provider "onvo" = true ->
          ConfigValidation.errors (ConfigValidation.validateOnvoConfig rt) = []).
Proof.
  unfold ConfigValidation.validateConfig. rewrite isValid_no_errors.
  fold (selects provider "tilopay"). fold (selects provider "onvo").
  destruct (selects provider "tilopay"); destruct (selects provider "onvo");
    split.
  all: try (intros H; apply app_eq_nil in H; destruct H; split; intros _; assumption).
  all: try (intros [H1 H2]; try rewrite (H1 eq_refl); try rewrite (H2 eq_refl);
            reflexivity).
  all: try (intros H; split; [intros _|discriminate]; simpl in H;
            try rewrite app_nil_r in H; exact H).
  all: try (intros H; split; [discriminate|intros _]; simpl in H; exact H).
  all: try (intros _; split; discriminate).
Qed.

(** X8.  A configuration that [validateConfig] accepts for a provider is
    one the client of that provider can work with: its HTTP helper never
    throws the configuration error, it makes its call.  This holds for
    TiloPay when the argument is left out or is 'tilopay', for ONVO when it
    is left out or is 'onvo'. *)
Theorem valid_configuration_reaches_the_provider rt provider :
  ConfigValidation.isValid (ConfigValidation.validateConfig rt provider) = true ->
  (selects provider "tilopay" = true ->
   forall path body tr,
     Tilopay.request rt path body tr
     = (tilopay_outcome rt tr path body, (tr ++ [tilopay_call rt path body])%list))
  /\ (selects provider "onvo" = true ->
      forall path body tr,
        Onvo.request rt "POST" path (Some body) tr
        = (onvo_outcome rt tr path body, (tr ++ [onvo_call rt path body])%list)).
Proof.
  intros V. apply validateConfig_valid in V. destruct V as [Vt Vo]. split.
  - intros S path body tr. apply tilopay_request_calls.
    apply (tilopay_config_valid rt), Vt, S.
  - intros S path body tr. apply onvo_request_calls.
    apply (onvo_config_valid rt), Vo, S.
Qed.

Lemma valid_configuration_reaches_the_provider_witness :
  let rt := Example.runtime
              (fun key =>
                 if String.eqb key "NEXT_PUBLIC_TILOPAY_PUBLIC_KEY" then Some "pk"
                 else if String.eqb key "TILOPAY_SECRET_KEY" then Some "sk"
                 else None)
              [Example.ok_json (VObj [])] in
  calls_of (Tilopay.request rt "/payment_intents" (VObj []))
  = [tilopay_call rt "/payment_intents" (VObj [])].
Proof.
  intros rt.
  destruct (valid_configuration_reaches_the_provider rt (VStr "tilopay") eq_refl)
    as [T _].
  unfold calls_of, run. rewrite (T eq_refl). reflexivity.
Defined.

(** X9.  [validateOnvoConfig] accepts exactly the configurations where
    both ONVO keys are set and both or neither hold [_test_]; the error about
    mixed environments is reported only when both keys are set, and then it is
    the only error. *)
Theorem onvo_keys_of_one_environment rt :
  (ConfigValidation.isValid (ConfigValidation.validateOnvoConfig rt) = true
   <-> ConfigValidation.onvoConfig_publishableKey rt <> EmptyString
       /\ Config.onvoConfig_secretKey rt <> EmptyString
       /\ ConfigValidation.includes "_test_" (ConfigValidation.onvoConfig_publishableKey rt)
          = ConfigValidation.includes "_test_" (Config.onvoConfig_secretKey rt))
  /\ (In "ONVO keys must be from the same environment (both test or both live)"
        (ConfigValidation.errors (ConfigValidation.validateOnvoConfig rt)) ->
      ConfigValidation.onvoConfig_publishableKey rt <> EmptyString
      /\ Config.onvoConfig_secretKey rt <> EmptyString
      /\ List.length (ConfigValidation.errors (ConfigValidation.validateOnvoConfig rt))
         = 1%nat).
Proof.
  split.
  - rewrite <- onvo_config_valid. unfold ConfigValidation.validateOnvoConfig.
    rewrite isValid_no_errors. reflexivity.
  - unfold ConfigValidation.validateOnvoConfig. simpl.
    destruct (String.eqb_spec (ConfigValidation.onvoConfig_publishableKey rt) EmptyString);
      destruct (String.eqb_spec (Config.onvoConfig_secretKey rt) EmptyString);
      simpl; try (intros H; exfalso; intuition discriminate).
    destruct (negb _); simpl; [auto|intros []].
Qed.

(** X10.  [assertConfig] with no argument returns normally exactly when it
    does for 'tilopay' and for 'onvo'; the errors it lists are those of
    TiloPay followed by those of ONVO.  For an argument that names neither
    provider nothing is validated: [assertConfig] never throws. *)
Theorem assertConfig_by_provider rt :
  (ConfigValidation.assertConfig rt VUndefined = inr tt
   <-> ConfigValidation.assertConfig rt (VStr "tilopay") = inr tt
       /\ ConfigValidation.assertConfig rt (VStr "onvo") = inr tt)
  /\ ConfigValidation.errors (ConfigValidation.validateConfig rt VUndefined)
     = (ConfigValidation.errors (ConfigValidation.validateConfig rt (VStr "tilopay"))
          ++ ConfigValidation.errors (ConfigValidation.validateConfig rt (VStr "onvo")))%list
  /\ (forall provider,
        truthy provider = true ->
        is_str provider "tilopay" = false -> is_str provider "onvo" = false ->
        ConfigValidation.assertConfig rt provider = inr tt).
Proof.
  assert (A : forall provider,
            ConfigValidation.assertConfig rt provider = inr tt
            <-> ConfigValidation.isValid (ConfigValidation.validateConfig rt provider)
                = true).
  { intros provider. unfold ConfigValidation.assertConfig. cbv zeta.
    destruct (ConfigValidation.isValid _); simpl; split; congruence. }
  split; [|split].
  - rewrite !A, !validateConfig_valid. simpl. intuition.
  - rewrite !validateConfig_errors. simpl. rewrite app_nil_r. reflexivity.
  - intros provider Ht H1 H2. apply A, validateConfig_valid.
    unfold selects. rewrite Ht, H1, H2. simpl. split; discriminate.
Qed.

(* ================================================================== *)
(** * Beyond the claims: class names *)
(* ================================================================== *)

Lemma string_append_assoc (a b c : string) : (a ++ b) ++ c = a ++ (b ++ c).
Proof. induction a as [|x a IH]; simpl; [reflexivity|]. now rewrite IH. Qed.

Lemma join_with_app sep (a b : list string) :
  a <> [] -> b <> [] ->
  join_with sep (a ++ b)%list = join_with sep a ++ sep ++ join_with sep b.
Proof.
  intros Ha Hb. induction a as [|x a IH]; [contradiction|].
  destruct a as [|y a].
  - simpl. destruct b; [contradiction|reflexivity].
  - change (join_with sep ((x :: y :: a) ++ b)%list)
      with (x ++ sep ++ join_with sep ((y :: a) ++ b)%list).
    rewrite IH by discriminate.
    change (join_with sep (x :: y :: a)) with (x ++ sep ++ join_with sep (y :: a)).
    rewrite !string_append_assoc. reflexivity.
Qed.

Lemma join_with_nonempty sep (a : list string) :
  Forall (fun s => s <> EmptyString) a -> a <> [] ->
  join_with sep a <> EmptyString.
Proof.
  intros F Ha. destruct a as [|x a]; [contradiction|].
  inversion F as [|? ? Hx _]; subst.
  destruct x as [|c x]; [contradiction|].
  destruct a; simpl; discriminate.
Qed.

Lemma join_elements_app js (a b : list value) pa pb :
  join_elements js a = inr pa -> join_elements js b = inr pb ->
  join_elements js (a ++ b)%list = inr (pa ++ pb)%list.
Proof.
  revert pa. induction a as [|x a IH]; intros pa Ha Hb; simpl in *.
  - injection Ha as <-. exact Hb.
  - destruct (match x with VUndefined | VNull => inr EmptyString | _ => ToString js x end)
      as [e|s]; [discriminate Ha|].
    destruct (join_elements js a) as [e|parts]; [discriminate Ha|].
    injection Ha as <-. rewrite (IH parts eq_refl Hb). reflexivity.
Qed.

(** The strings that [cn] joins. *)
Lemma cn_class_strings js (l : list value) :
  Forall class_input l ->
  exists parts,
    join_elements js (filter truthy l) = inr parts
    /\ Forall (fun s => s <> EmptyString) parts.
Proof.
  induction 1 as [|v l Hv _ IH]; [exists []; split; [reflexivity|constructor]|].
  destruct IH as (parts & E & F). simpl.
  destruct Hv as [-> | [-> | [-> | [s ->]]]]; simpl;
    try solve [exists parts; auto].
  destruct (String.eqb_spec s EmptyString) as [|N]; simpl; [exists parts; auto|].
  rewrite E. exists (s :: parts). split; [reflexivity|]. constructor; assumption.
Qed.

Lemma join_of_joins js (a b : list string) :
  Forall (fun s => s <> EmptyString) a ->
  Forall (fun s => s <> EmptyString) b ->
  Array_join js
    (filter truthy [VStr (join_with " " a); VStr (join_with " " b)]) " "
  = inr (join_with " " (a ++ b)%list).
Proof.
  intros Fa Fb. unfold Array_join.
  destruct a as [|x a]; destruct b as [|y b].
  - reflexivity.
  - pose proof (join_with_nonempty " " (y :: b) Fb ltac:(discriminate)) as N.
    simpl app. change (join_with " " []) with EmptyString.
    set (jb := join_with " " (y :: b)) in *.
    cbn [filter truthy String.eqb negb].
    destruct (String.eqb_spec jb EmptyString); [contradiction|]. reflexivity.
  - pose proof (join_with_nonempty " " (x :: a) Fa ltac:(discriminate)) as N.
    rewrite app_nil_r. change (join_with " " []) with EmptyString.
    set (ja := join_with " " (x :: a)) in *.
    cbn [filter truthy String.eqb negb].
    destruct (String.eqb_spec ja EmptyString); [contradiction|]. reflexivity.
  - pose proof (join_with_nonempty " " (x :: a) Fa ltac:(discriminate)) as Na.
    pose proof (join_with_nonempty " " (y :: b) Fb ltac:(discriminate)) as Nb.
    rewrite join_with_app by discriminate.
    set (ja := join_with " " (x :: a)) in *.
    set (jb := join_with " " (y :: b)) in *.
    cbn [filter truthy].
    destruct (String.eqb_spec ja EmptyString); [contradiction|].
    destruct (String.eqb_spec jb EmptyString); [contradiction|].
    reflexivity.
Qed.

(** X11.  Calls of [cn] nest: for arguments of the declared type (strings,
    undefined, null, false), [cn] returns, and joining two lists of class
    names at once gives the same string as joining each and passing the two
    results to [cn].  Dropped arguments leave no space behind. *)
Theorem cn_nests js (l1 l2 : list value) :
  Forall class_input l1 -> Forall class_input l2 ->
  exists s1 s2 s,
    Utils.cn js l1 = inr s1 /\ Utils.cn js l2 = inr s2
    /\ Utils.cn js (l1 ++ l2) = inr s
    /\ Utils.cn js [VStr s1; VStr s2] = inr s.
Proof.
  intros H1 H2.
  destruct (cn_class_strings js l1 H1) as (p1 & E1 & F1).
  destruct (cn_class_strings js l2 H2) as (p2 & E2 & F2).
  exists (join_with " " p1), (join_with " " p2), (join_with " " (p1 ++ p2)%list).
  unfold Utils.cn at 1 2 3. unfold Array_join at 1 2 3.
  rewrite filter_app, (join_elements_app js _ _ _ _ E1 E2), E1, E2.
  repeat split. apply (join_of_joins js _ _ F1 F2).
Qed.

Lemma cn_nests_witness :
  Utils.cn Example.engine [VStr "btn"; VBool false; VUndefined; VStr "wide"]
  = inr "btn wide".
Proof.
  destruct (cn_nests Example.engine [VStr "btn"; VBool false] [VUndefined; VStr "wide"])
    as (s1 & s2 & s & E1 & E2 & E & E').
  - constructor; [right; right; right; eexists; reflexivity|].
    constructor; [right; right; left; reflexivity | constructor].
  - constructor; [left; reflexivity|].
    constructor; [right; right; right; eexists; reflexivity | constructor].
  - injection E1 as <-. injection E2 as <-. rewrite <- E' in E. exact E.
Defined.

(* ================================================================== *)
(** * Beyond the claims: what the HTTP helpers make of an answer *)
(* ================================================================== *)

Lemma tilopay_outcome_rejected rt path body tr msg :
  Config.tilopayConfig_secretKey rt <> EmptyString ->
  server rt tr (tilopay_call rt path body) = Rejected msg ->
  tilopay_outcome rt tr path body
  = inl (TilopayError ("Network error contacting TiloPay: " ++ msg) None VUndefined).
Proof.
  intros N S. unfold tilopay_outcome, Tilopay.request.
  destruct (String.eqb_spec (Config.tilopayConfig_secretKey rt) EmptyString) as [E|_];
    [contradiction|].
  unfold bind, try_catch, fetch. fold (tilopay_call rt path body).
  rewrite S. reflexivity.
Qed.

(** X12.  When [fetch] rejects, each helper has made its one call and
    throws the error of its client, with the transport message after a fixed
    prefix and with no status code. *)
Theorem transport_failure_carries_no_status rt path body tr msg :
  (Config.tilopayConfig_secretKey rt <> EmptyString ->
   server rt tr (tilopay_call rt path body) = Rejected msg ->
   Tilopay.request rt path body tr
   = (inl (TilopayError ("Network error contacting TiloPay: " ++ msg)
             None VUndefined),
      (tr ++ [tilopay_call rt path body])%list))
  /\ (Config.onvoConfig_secretKey rt <> EmptyString ->
      server rt tr (onvo_call rt path body) = Rejected msg ->
      Onvo.request rt "POST" path (Some body) tr
      = (inl (OnvoError ("Network error contacting ONVO: " ++ msg) None VUndefined),
         (tr ++ [onvo_call rt path body])%list)).
Proof.
  split; intros N S.
  - rewrite (tilopay_request_calls rt path body tr N).
    rewrite (tilopay_outcome_rejected rt path body tr msg N S). reflexivity.
  - rewrite (onvo_request_calls rt path body tr N).
    rewrite (onvo_outcome_rejected rt path body tr msg N S). reflexivity.
Qed.

Lemma create_link_answer rt raw b tr o :
  CreateLinkRoute.validateBody rt raw tr = (inr b, tr) ->
  valid_one_time (create_link_params rt b) ->
  Config.tilopayConfig_secretKey rt <> EmptyString ->
  tilopay_outcome rt tr (create_link_path b) (create_link_payload rt b) = o ->
  CreateLinkRoute.POST rt (Some raw) tr
  = (match o with
     | inl err =>
         inr (create_link_failure (CreateLinkRoute.failure_status err)
                (Error_message err))
     | inr result =>
         match get (js rt) result "url" with
         | inl err =>
             inr (create_link_failure (CreateLinkRoute.failure_status err)
                    (Error_message err))
         | inr url =>
             inr (NextResponse_json
                    (VObj [("success", VBool true); ("url", url)]) 200)
         end
     end,
     (tr ++ [tilopay_call rt (create_link_path b) (create_link_payload rt b)])%list).
Proof.
  intros Vb V N O.
  rewrite (create_link_POST_validated rt raw b tr Vb).
  unfold try_catch, bind.
  rewrite (create_link_dispatch_valid rt b tr V).
  rewrite (tilopay_request_calls rt _ _ tr N), O.
  destruct o as [err|result]; [reflexivity|].
  unfold lift. destruct (get (js rt) result "url"); reflexivity.
Qed.

(** X13.  The create-link route answers 500 to a transport failure: the
    error of the client carries no status code then, and the route answers
    502 only to an error that carries one.  The one call has been made. *)
Theorem create_link_transport_failure_is_500 rt raw b tr msg :
  CreateLinkRoute.validateBody rt raw tr = (inr b, tr) ->
  valid_one_time (create_link_params rt b) ->
  Config.tilopayConfig_secretKey rt <> EmptyString ->
  server rt tr (tilopay_call rt (create_link_path b) (create_link_payload rt b))
  = Rejected msg ->
  CreateLinkRoute.POST rt (Some raw) tr
  = (inr (create_link_failure 500 ("Network error contacting TiloPay: " ++ msg)),
     (tr ++ [tilopay_call rt (create_link_path b) (create_link_payload rt b)])%list).
Proof.
  intros Vb V N S.
  rewrite (create_link_answer rt raw b tr _ Vb V N
             (tilopay_outcome_rejected rt _ _ tr msg N S)).
  reflexivity.
Qed.

Lemma create_link_transport_failure_is_500_witness :
  let rt := Example.runtime Example.configured [] in
  let raw := VObj [("amount", Example.num 10); ("currency", VStr "USD");
                   ("isRecurring", VBool true)] in
  result_of (CreateLinkRoute.POST rt (Some raw))
  = inr (create_link_failure 500 "Network error contacting TiloPay: fetch failed").
Proof.
  intros rt raw.
  pose (b := {| CreateLinkRoute.body_amount := of_Z 10;
                CreateLinkRoute.body_currency := VStr "USD";
                CreateLinkRoute.body_description := VUndefined;
                CreateLinkRoute.body_isRecurring := true |}).
  assert (V : valid_one_time (create_link_params rt b)).
  { repeat split.
    - exists (inject_Z 1000), 1000%Z. repeat split; reflexivity.
    - left; reflexivity.
    - eexists; split; reflexivity.
    - eexists; split; reflexivity. }
  assert (N : Config.tilopayConfig_secretKey rt <> EmptyString) by discriminate.
  unfold result_of, run.
  rewrite (create_link_transport_failure_is_500 rt raw b [] "fetch failed"
             eq_refl V N eq_refl).
  reflexivity.
Defined.

(** X14.  The message of the TiloPay error for a non-2xx answer is taken,
    in this order, from the [message] of the JSON body, from its [error],
    from the raw text of the body, and from the status text when the body is
    empty; the error carries the HTTP status, and the [code] of the body. *)
Theorem tilopay_error_message_precedence rt path body tr r :
  Config.tilopayConfig_secretKey rt <> EmptyString ->
  server rt tr (tilopay_call rt path body) = Resolved r ->
  r_ok r = false ->
  let failed message code :=
    tilopay_outcome rt tr path body
    = inl (TilopayError
             ("TiloPay API error (" ++ Number_toString (js rt) (of_Z (r_status r))
                ++ "): " ++ message)
             (Some (r_status r)) code) in
  (forall props m,
     r_json r = Some (VObj props) -> lookup "message" props = VStr m ->
     failed m (lookup "code" props))
  /\ (forall props e,
        r_json r = Some (VObj props) ->
        nullish (lookup "message" props) = true ->
        lookup "error" props = VStr e ->
        failed e (lookup "code" props))
  /\ (forall props,
        r_json r = Some (VObj props) ->
        nullish (lookup "message" props) = true ->
        nullish (lookup "error" props) = true ->
        r_text r <> EmptyString ->
        failed (r_text r) (lookup "code" props))
  /\ (r_json r = None -> r_text r <> EmptyString -> failed (r_text r) VUndefined)
  /\ (r_json r = None -> r_text r = EmptyString ->
      failed (r_statusText r) VUndefined).
Proof.
  intros N S Hok failed. unfold failed.
  assert (T : forall s, s <> EmptyString -> truthy (VStr s) = true).
  { intros s Hs. simpl. destruct (String.eqb_spec s EmptyString);
      [contradiction|reflexivity]. }
  assert (O : forall v,
            error_body r = v -> nullish v = false ->
            tilopay_outcome rt tr path body
            = match ToString (js rt) (tilopay_failure_message r) with
              | inl e => inl e
              | inr text => inl (tilopay_api_error rt r text)
              end).
  { intros v <- Hv. apply tilopay_outcome_not_ok; assumption. }
  repeat split.
  - intros props m J M.
    rewrite (O (VObj props)) by (unfold error_body; rewrite ?J; reflexivity).
    unfold tilopay_failure_message, tilopay_api_error, error_body. rewrite J.
    simpl. rewrite M. reflexivity.
  - intros props e J M Er.
    rewrite (O (VObj props)) by (unfold error_body; rewrite ?J; reflexivity).
    unfold tilopay_failure_message, tilopay_api_error, error_body. rewrite J.
    simpl. rewrite Er. destruct (lookup "message" props); try discriminate M;
      reflexivity.
  - intros props J M Er Ht.
    rewrite (O (VObj props)) by (unfold error_body; rewrite ?J; reflexivity).
    unfold tilopay_failure_message, tilopay_api_error, error_body. rewrite J.
    simpl. unfold or_else. rewrite (T _ Ht).
    destruct (lookup "message" props); try discriminate M;
      destruct (lookup "error" props); try discriminate Er; reflexivity.
  - intros J Ht.
    rewrite (O (VObj [])) by (unfold error_body; rewrite ?J; reflexivity).
    unfold tilopay_failure_message, tilopay_api_error, error_body. rewrite J.
    simpl. unfold or_else. rewrite (T _ Ht). reflexivity.
  - intros J Ht.
    rewrite (O (VObj [])) by (unfold error_body; rewrite ?J; reflexivity).
    unfold tilopay_failure_message, tilopay_api_error, error_body. rewrite J.
    simpl. unfold or_else. rewrite Ht. reflexivity.
Qed.

Lemma tilopay_error_message_precedence_witness :
  let answer := {| r_status := 422; r_statusText := "Unprocessable Entity";
                   r_text := "<json>";
                   r_json := Some (VObj [("error", VStr "card declined");
                                         ("code", Example.num 51)]) |} in
  let rt := Example.runtime Example.configured [Resolved answer] in
  result_of (Tilopay.request rt "/payment_intents" (VObj []))
  = inl (TilopayError "TiloPay API error (422): card declined"
           (Some 422%Z) (Example.num 51)).
Proof.
  intros answer rt.
  assert (N : Config.tilopayConfig_secretKey rt <> EmptyString) by discriminate.
  destruct (tilopay_error_message_precedence rt "/payment_intents" (VObj []) []
              answer N eq_refl eq_refl) as (_ & H & _).
  exact (H _ "card declined" eq_refl eq_refl eq_refl).
Defined.

(** X15.  The message of the ONVO error for a non-2xx answer: a [message]
    that is an array is joined with a semicolon and a space, and when the
    join throws (an element that has no text) the helper throws that
    TypeError; otherwise the message, then the [error] of the body, then the
    status text are used, in this order.  The error carries the HTTP status
    and the [apiCode] of the body. *)
Theorem onvo_error_message_precedence rt path body tr r :
  Config.onvoConfig_secretKey rt <> EmptyString ->
  server rt tr (onvo_call rt path body) = Resolved r ->
  r_ok r = false ->
  let failed message apiCode :=
    onvo_outcome rt tr path body
    = inl (OnvoError
             ("ONVO API error (" ++ Number_toString (js rt) (of_Z (r_status r))
                ++ "): " ++ message)
             (Some (r_status r)) apiCode) in
  (forall props items,
     r_json r = Some (VObj props) -> lookup "message" props = VArr items ->
     (forall joined,
        Array_join (js rt) items "; " = inr joined ->
        failed joined (lookup "apiCode" props))
     /\ (forall e,
          Array_join (js rt) items "; " = inl e ->
          onvo_outcome rt tr path body
          = inl (TypeError (msg_not_primitive (js rt)))))
  /\ (forall props m,
        r_json r = Some (VObj props) -> lookup "message" props = VStr m ->
        failed m (lookup "apiCode" props))
  /\ (forall props e,
        r_json r = Some (VObj props) ->
        nullish (lookup "message" props) = true ->
        lookup "error" props = VStr e ->
        failed e (lookup "apiCode" props))
  /\ (r_json r = None -> failed (r_statusText r) VUndefined).
Proof.
  intros N S Hok failed. unfold failed.
  assert (O : forall v,
            error_body r = v -> nullish v = false ->
            onvo_outcome rt tr path body
            = match onvo_failure_text rt r with
              | inl e => inl e
              | inr text => inl (onvo_api_error rt r text)
              end).
  { intros v <- Hv. apply onvo_outcome_not_ok; assumption. }
  split; [|split; [|split]].
  - intros props items J M.
    rewrite (O (VObj props)) by (unfold error_body; rewrite ?J; reflexivity).
    unfold onvo_failure_text, onvo_api_error, error_body. rewrite J.
    simpl. rewrite M. split.
    + intros joined ->. reflexivity.
    + intros e A. rewrite A, (Array_join_error _ _ _ _ A). reflexivity.
  - intros props m J M.
    rewrite (O (VObj props)) by (unfold error_body; rewrite ?J; reflexivity).
    unfold onvo_failure_text, onvo_api_error, error_body. rewrite J.
    simpl. rewrite M. reflexivity.
  - intros props e J M Er.
    rewrite (O (VObj props)) by (unfold error_body; rewrite ?J; reflexivity).
    unfold onvo_failure_text, onvo_api_error, error_body. rewrite J.
    simpl. rewrite Er. destruct (lookup "message" props); try discriminate M;
      reflexivity.
  - intros J.
    rewrite (O (VObj [])) by (unfold error_body; rewrite ?J; reflexivity).
    unfold onvo_failure_text, onvo_api_error, error_body. rewrite J.
    reflexivity.
Qed.

Lemma onvo_error_message_precedence_witness :
  let answer := {| r_status := 400; r_statusText := "Bad Request";
                   r_text := "<json>";
                   r_json := Some (VObj [("message",
                                           VArr [VStr "unitAmount must be positive";
                                                 VStr "currency is required"]);
                                         ("apiCode", VStr "invalid_params")]) |} in
  let rt := Example.runtime Example.configured [Resolved answer] in
  result_of (Onvo.request rt "POST" "/prices" (Some (VObj [])))
  = inl (OnvoError
           "ONVO API error (400): unitAmount must be positive; currency is required"
           (Some 400%Z) (VStr "invalid_params")).
Proof.
  intros answer rt.
  assert (N : Config.onvoConfig_secretKey rt <> EmptyString) by discriminate.
  destruct (onvo_error_message_precedence rt "/prices" (VObj []) []
              answer N eq_refl eq_refl) as (H & _).
  exact (proj1 (H _ _ eq_refl eq_refl) _ eq_refl).
Defined.

Lemma tilopay_outcome_bad_json rt path body tr r :
  Config.tilopayConfig_secretKey rt <> EmptyString ->
  server rt tr (tilopay_call rt path body) = Resolved r ->
  r_ok r = true -> r_json r = None ->
  tilopay_outcome rt tr path body
  = inl (SyntaxError (msg_bad_json (js rt) (r_text r))).
Proof.
  intros N S Hok J. unfold tilopay_outcome, Tilopay.request.
  destruct (String.eqb_spec (Config.tilopayConfig_secretKey rt) EmptyString) as [E|_];
    [contradiction|].
  unfold bind, try_catch, fetch. fold (tilopay_call rt path body).
  rewrite S, Hok. simpl. unfold Response_json. rewrite J. reflexivity.
Qed.

Lemma tilopay_outcome_null_error_body rt path body tr r :
  Config.tilopayConfig_secretKey rt <> EmptyString ->
  server rt tr (tilopay_call rt path body) = Resolved r ->
  r_ok r = false -> nullish (error_body r) = true ->
  tilopay_outcome rt tr path body
  = inl (TypeError (msg_read_of_nullish (js rt) (error_body r) "message")).
Proof.
  intros N S Hok J. unfold tilopay_outcome, Tilopay.request.
  destruct (String.eqb_spec (Config.tilopayConfig_secretKey rt) EmptyString) as [E|_];
    [contradiction|].
  unfold bind, try_catch, fetch. fold (tilopay_call rt path body).
  rewrite S, Hok. cbv zeta. cbn [negb]. fold (error_body r).
  unfold lift. rewrite (get_nullish _ _ _ J). reflexivity.
Qed.

(** X16.  Two answers make the helpers throw an error of the engine, not
    the error of their client: a 2xx answer whose body is not JSON (a
    SyntaxError from [response.json()]), and a non-2xx answer whose body is
    the JSON [null] (a TypeError from reading [message] of it).  Neither
    carries a status code, so the create-link route answers 500 to both. *)
Theorem answers_that_throw_engine_errors rt path body tr r :
  (Config.tilopayConfig_secretKey rt <> EmptyString ->
   server rt tr (tilopay_call rt path body) = Resolved r ->
   (r_ok r = true -> r_json r = None ->
    tilopay_outcome rt tr path body
    = inl (SyntaxError (msg_bad_json (js rt) (r_text r))))
   /\ (r_ok r = false -> r_json r = Some VNull ->
       tilopay_outcome rt tr path body
       = inl (TypeError (msg_read_of_nullish (js rt) VNull "message"))))
  /\ (Config.onvoConfig_secretKey rt <> EmptyString ->
      server rt tr (onvo_call rt path body) = Resolved r ->
      (r_ok r = true -> r_json r = None ->
       onvo_outcome rt tr path body
       = inl (SyntaxError (msg_bad_json (js rt) (r_text r))))
      /\ (r_ok r = false -> r_json r = Some VNull ->
          onvo_outcome rt tr path body
          = inl (TypeError (msg_read_of_nullish (js rt) VNull "message"))))
  /\ (forall m, CreateLinkRoute.failure_status (SyntaxError m) = 500%Z
                /\ CreateLinkRoute.failure_status (TypeError m) = 500%Z).
Proof.
  split; [|split].
  - intros N S. split.
    + apply tilopay_outcome_bad_json; assumption.
    + intros Hok J.
      rewrite (tilopay_outcome_null_error_body rt path body tr r N S Hok)
        by (unfold error_body; rewrite J; reflexivity).
      unfold error_body. rewrite J. reflexivity.
  - intros N S. split.
    + apply onvo_outcome_bad_json; assumption.
    + intros Hok J.
      rewrite (onvo_outcome_null_error_body rt path body tr r N S Hok)
        by (unfold error_body; rewrite J; reflexivity).
      unfold error_body. rewrite J. reflexivity.
  - intros m. split; reflexivity.
Qed.

(* ================================================================== *)
(** * Beyond the claims: what the checks accept *)
(* ================================================================== *)

Lemma tilopay_validateAmount_passed rt v tr u tr' :
  Tilopay.validateAmount rt v tr = (inr u, tr') -> positive_integer v.
Proof.
  unfold Tilopay.validateAmount. intros H. apply amount_test_spec.
  destruct (match v with VNum _ => _ | _ => _ end); [|reflexivity].
  unfold bind, lift in H. destruct (ToString (js rt) v); discriminate H.
Qed.

Lemma tilopay_validateCurrency_passed rt v tr u tr' :
  Tilopay.validateCurrency rt v tr = (inr u, tr') -> known_currency v.
Proof.
  unfold Tilopay.validateCurrency. intros H. apply is_str_known_currency.
  destruct (_ && _); [|reflexivity].
  unfold bind, lift in H. destruct (ToString (js rt) v); discriminate H.
Qed.

Lemma tilopay_validateInterval_passed rt v tr u tr' :
  Tilopay.validateInterval rt v tr = (inr u, tr') -> known_interval v.
Proof.
  unfold Tilopay.validateInterval. intros H. apply is_str_known_interval.
  destruct (_ && _); [|reflexivity].
  unfold bind, lift in H. destruct (ToString (js rt) v); discriminate H.
Qed.

Lemma tilopay_validateUrl_passed rt v field tr u tr' :
  Tilopay.validateUrl rt v field tr = (inr u, tr') -> http_url v.
Proof.
  unfold Tilopay.validateUrl. intros H.
  cbv zeta in H. unfold bind, lift in H.
  destruct (truthy v); simpl in H;
    [|destruct (ToString (js rt) v); discriminate H].
  destruct v as [| | | |s| |]; simpl in H; try discriminate H.
  exists s. split; [reflexivity|].
  destruct (String.prefix "http" s); [reflexivity|discriminate H].
Qed.

Lemma onvo_validateAmount_passed rt v tr u tr' :
  Onvo.validateAmount rt v tr = (inr u, tr') -> positive_integer v.
Proof.
  unfold Onvo.validateAmount. intros H. apply amount_test_spec.
  destruct (match v with VNum _ => _ | _ => _ end); [|reflexivity].
  unfold bind, lift in H. destruct (ToString (js rt) v); discriminate H.
Qed.

Lemma onvo_validateCurrency_passed rt v tr u tr' :
  Onvo.validateCurrency rt v tr = (inr u, tr') -> known_currency v.
Proof.
  unfold Onvo.validateCurrency. intros H. apply is_str_known_currency.
  destruct (_ && _); [|reflexivity].
  unfold bind, lift in H. destruct (ToString (js rt) v); discriminate H.
Qed.

Lemma onvo_validateInterval_passed rt v tr u tr' :
  Onvo.validateInterval rt v tr = (inr u, tr') -> known_interval v.
Proof.
  unfold Onvo.validateInterval. intros H. apply is_str_known_interval.
  destruct (_ && _); [|reflexivity].
  unfold bind, lift in H. destruct (ToString (js rt) v); discriminate H.
Qed.

Lemma onvo_validateUrl_passed rt v field tr u tr' :
  Onvo.validateUrl rt v field tr = (inr u, tr') -> http_url v.
Proof.
  unfold Onvo.validateUrl. intros H.
  cbv zeta in H. unfold bind, lift in H.
  destruct (truthy v); simpl in H;
    [|destruct (ToString (js rt) v); discriminate H].
  destruct v as [| | | |s| |]; simpl in H; try discriminate H.
  exists s. split; [reflexivity|].
  destruct (String.prefix "http" s); [reflexivity|discriminate H].
Qed.

(** Case analysis on one check, keeping what a passed check shows. *)
Ltac check_or_fail Hsilent Hpassed :=
  match goal with
  | |- context [bind ?m ?k ?tr] =>
      let E := fresh "E" in
      destruct (unit_cases m tr Hsilent) as [E|[? E]];
      [ rewrite (bind_inr m k tr tt tr E); apply Hpassed in E
      | rewrite (bind_inl m k tr _ tr E); right; eauto ]
  end.

Lemma tilopay_createPaymentIntent_checked rt p tr :
  valid_one_time p \/ exists e, Tilopay.createPaymentIntent rt p tr = (inl e, tr).
Proof.
  unfold Tilopay.createPaymentIntent.
  check_or_fail (fun t => tilopay_validateAmount_silent rt (amount p) t)
                tilopay_validateAmount_passed.
  check_or_fail (fun t => tilopay_validateCurrency_silent rt (currency p) t)
                tilopay_validateCurrency_passed.
  check_or_fail (fun t => tilopay_validateUrl_silent rt (success_url p) "success_url" t)
                tilopay_validateUrl_passed.
  check_or_fail (fun t => tilopay_validateUrl_silent rt (cancel_url p) "cancel_url" t)
                tilopay_validateUrl_passed.
  left. repeat split; assumption.
Qed.

Lemma tilopay_createSubscription_checked rt p tr :
  valid_recurring p \/ exists e, Tilopay.createSubscription rt p tr = (inl e, tr).
Proof.
  unfold Tilopay.createSubscription.
  check_or_fail (fun t => tilopay_validateAmount_silent rt (amount p) t)
                tilopay_validateAmount_passed.
  check_or_fail (fun t => tilopay_validateCurrency_silent rt (currency p) t)
                tilopay_validateCurrency_passed.
  check_or_fail (fun t => tilopay_validateInterval_silent rt (interval p) t)
                tilopay_validateInterval_passed.
  check_or_fail (fun t => tilopay_validateUrl_silent rt (success_url p) "success_url" t)
                tilopay_validateUrl_passed.
  check_or_fail (fun t => tilopay_validateUrl_silent rt (cancel_url p) "cancel_url" t)
                tilopay_validateUrl_passed.
  left. repeat split; assumption.
Qed.

Lemma onvo_createPaymentIntent_checked rt p tr :
  valid_one_time p \/ exists e, Onvo.createPaymentIntent rt p tr = (inl e, tr).
Proof.
  unfold Onvo.createPaymentIntent.
  check_or_fail (onvo_validateAmount_silent rt (amount p))
                onvo_validateAmount_passed.
  check_or_fail (onvo_validateCurrency_silent rt (currency p))
                onvo_validateCurrency_passed.
  check_or_fail (onvo_validateUrl_silent rt (success_url p) "success_url")
                onvo_validateUrl_passed.
  check_or_fail (onvo_validateUrl_silent rt (cancel_url p) "cancel_url")
                onvo_validateUrl_passed.
  left. repeat split; assumption.
Qed.

Lemma onvo_createSubscription_checked rt p tr :
  valid_recurring p \/ exists e, Onvo.createSubscription rt p tr = (inl e, tr).
Proof.
  unfold Onvo.createSubscription.
  check_or_fail (onvo_validateAmount_silent rt (amount p))
                onvo_validateAmount_passed.
  check_or_fail (onvo_validateCurrency_silent rt (currency p))
                onvo_validateCurrency_passed.
  check_or_fail (onvo_validateInterval_silent rt (interval p))
                onvo_validateInterval_passed.
  check_or_fail (onvo_validateUrl_silent rt (success_url p) "success_url")
                onvo_validateUrl_passed.
  check_or_fail (onvo_validateUrl_silent rt (cancel_url p) "cancel_url")
                onvo_validateUrl_passed.
  left. repeat split; assumption.
Qed.

Lemma bind_first_call {A B} (m : M A) (k : A -> M B) tr r c :
  m tr = (r, (tr ++ [c])%list) ->
  (forall a, emits (fun _ => True) (k a)) ->
  exists rest, snd (bind m k tr) = (tr ++ c :: rest)%list.
Proof.
  intros E Hk. unfold bind. rewrite E. destruct r as [e|a].
  - exists []. reflexivity.
  - destruct (Hk a (tr ++ [c])%list) as (new & En & _).
    exists new. rewrite En, <- app_assoc. reflexivity.
Qed.

(** Steps for a continuation made of requests of the ONVO client. *)
Ltac onvo_wire :=
  unfold Onvo.createCustomer, Onvo.createProduct, Onvo.createPrice,
    Onvo.createPaymentIntentRequest, Onvo.createSubscriptionRequest,
    Onvo.createCheckoutSession;
  repeat first [ apply onvo_request_emits; exact I | wire_step ].

Lemma onvo_createPaymentIntent_starts rt p :
  valid_one_time p -> Config.onvoConfig_secretKey rt <> EmptyString ->
  exists rest,
    calls_of (Onvo.createPaymentIntent rt p)
    = onvo_call rt "/products" (onvo_product_payload p) :: rest.
Proof.
  intros (Ha & Hc & Hs & Hx) N. unfold calls_of, run, Onvo.createPaymentIntent.
  rewrite (bind_inr _ _ _ _ _ (onvo_validateAmount_ok rt _ [] Ha)).
  rewrite (bind_inr _ _ _ _ _ (onvo_validateCurrency_ok rt _ [] Hc)).
  rewrite (bind_inr _ _ _ _ _ (onvo_validateUrl_ok rt _ _ [] Hs)).
  rewrite (bind_inr _ _ _ _ _ (onvo_validateUrl_ok rt _ _ [] Hx)).
  eapply (bind_first_call _ _ []).
  - unfold Onvo.createProduct. apply onvo_request_calls, N.
  - intros product. onvo_wire.
Qed.

Lemma onvo_createSubscription_starts rt p :
  valid_recurring p -> Config.onvoConfig_secretKey rt <> EmptyString ->
  exists rest,
    calls_of (Onvo.createSubscription rt p)
    = onvo_call rt "/customers" onvo_customer_payload :: rest.
Proof.
  intros ((Ha & Hc & Hs & Hx) & Hi) N.
  unfold calls_of, run, Onvo.createSubscription.
  rewrite (bind_inr _ _ _ _ _ (onvo_validateAmount_ok rt _ [] Ha)).
  rewrite (bind_inr _ _ _ _ _ (onvo_validateCurrency_ok rt _ [] Hc)).
  rewrite (bind_inr _ _ _ _ _ (onvo_validateInterval_ok rt _ [] Hi)).
  rewrite (bind_inr _ _ _ _ _ (onvo_validateUrl_ok rt _ _ [] Hs)).
  rewrite (bind_inr _ _ _ _ _ (onvo_validateUrl_ok rt _ _ [] Hx)).
  eapply (bind_first_call _ _ []).
  - unfold Onvo.createCustomer. apply onvo_request_calls, N.
  - intros customer. onvo_wire.
Qed.

Lemma invalid_means_no_call {A} (m : M A) :
  (exists e, m [] = (inl e, [])) -> calls_of m = [].
Proof. intros [e E]. unfold calls_of, run. rewrite E. reflexivity. Qed.

(** X17.  With the secret configured, an operation of either client calls
    its provider exactly when its parameters pass all of its checks: the
    amount is a positive integer, the currency is USD or CRC, both URLs are
    strings that start with http, and, for a subscription, the interval is
    month or year.  Otherwise nothing is sent. *)
Theorem provider_called_iff_parameters_valid rt p :
  (Config.tilopayConfig_secretKey rt <> EmptyString ->
   (calls_of (Tilopay.createPaymentIntent rt p) <> [] <-> valid_one_time p)
   /\ (calls_of (Tilopay.createSubscription rt p) <> [] <-> valid_recurring p))
  /\ (Config.onvoConfig_secretKey rt <> EmptyString ->
      (calls_of (Onvo.createPaymentIntent rt p) <> [] <-> valid_one_time p)
      /\ (calls_of (Onvo.createSubscription rt p) <> [] <-> valid_recurring p)).
Proof.
  assert (D : forall (V : Prop) {A} (m : M A),
            (V \/ exists e, m [] = (inl e, [])) ->
            (V -> calls_of m <> []) ->
            (calls_of m <> [] <-> V)).
  { intros V A m [HV|HE] H1; split; auto.
    intros Hc. exfalso. apply Hc, invalid_means_no_call, HE. }
  split; intros N; split.
  - apply D; [apply tilopay_createPaymentIntent_checked|].
    intros V. unfold calls_of, run.
    rewrite (tilopay_createPaymentIntent_valid rt p [] V).
    rewrite (tilopay_request_calls rt _ _ [] N). discriminate.
  - apply D; [apply tilopay_createSubscription_checked|].
    intros V. unfold calls_of, run.
    rewrite (tilopay_createSubscription_valid rt p [] V).
    rewrite (tilopay_request_calls rt _ _ [] N). discriminate.
  - apply D; [apply onvo_createPaymentIntent_checked|].
    intros V. destruct (onvo_createPaymentIntent_starts rt p V N) as [rest E].
    rewrite E. discriminate.
  - apply D; [apply onvo_createSubscription_checked|].
    intros V. destruct (onvo_createSubscription_starts rt p V N) as [rest E].
    rewrite E. discriminate.
Qed.

Lemma provider_called_iff_parameters_valid_witness :
  let rt := Example.runtime Example.configured [] in
  let p := Example.params (Example.num 1000) "EUR" (VStr "month") in
  ~ valid_one_time p /\ calls_of (Onvo.createPaymentIntent rt p) = [].
Proof.
  intros rt p.
  assert (NV : ~ valid_one_time p).
  { intros (_ & [H|H] & _); discriminate H. }
  split; [exact NV|].
  destruct (proj2 (provider_called_iff_parameters_valid rt p)) as [H _];
    [discriminate|].
  destruct (calls_of (Onvo.createPaymentIntent rt p)) as [|c l] eqn:E;
    [reflexivity|].
  exfalso. apply NV, H. discriminate.
Defined.

Lemma tilopay_validateCurrency_bad rt v tr :
  ~ known_currency v ->
  Tilopay.validateCurrency rt v tr
  = (inl (refusal (js rt) v (TilopayError (currency_message rt v) None VUndefined)), tr).
Proof.
  intros H. unfold Tilopay.validateCurrency.
  rewrite (not_false_true _ (fun E => H (proj1 (is_str_known_currency v) E))).
  apply (refusal_thrown (js rt) v
           (fun received =>
              TilopayError
                ("currency must be " ++ dq ++ "USD" ++ dq ++ " or " ++ dq ++ "CRC"
                   ++ dq ++ " (received " ++ dq ++ received ++ dq ++ ")")
                None VUndefined)).
Qed.

Lemma tilopay_validateUrl_bad rt v field tr :
  refused_url v ->
  Tilopay.validateUrl rt v field tr
  = (inl (TilopayError (url_message rt field v) None VUndefined), tr).
Proof.
  intros R.
  assert (C : converts (js rt) v = true).
  { destruct R as [F|(s & -> & _)]; [apply falsy_converts, F|reflexivity]. }
  assert (T : forall t : list Call,
            (received <- lift (ToString (js rt) v) ;;
             @throw unit
               (TilopayError (field ++ " must be a valid URL (received " ++ dq
                            ++ received ++ dq ++ ")") None VUndefined)) t
            = (inl (TilopayError (url_message rt field v) None VUndefined), t)).
  { intros t.
    rewrite (refusal_thrown (js rt) v
               (fun received =>
                  TilopayError (field ++ " must be a valid URL (received " ++ dq
                               ++ received ++ dq ++ ")") None VUndefined)).
    rewrite (refusal_converts _ _ _ C). reflexivity. }
  unfold Tilopay.validateUrl. cbv zeta.
  destruct R as [F|(s & -> & Hs)].
  - rewrite F. apply T.
  - destruct (truthy (VStr s)); [|apply T].
    cbn [negb]. unfold bind at 1. unfold lift at 1. cbn [startsWith].
    rewrite Hs. apply T.
Qed.

Lemma onvo_validateCurrency_bad rt v tr :
  ~ known_currency v ->
  Onvo.validateCurrency rt v tr
  = (inl (refusal (js rt) v (OnvoError (currency_message rt v) None VUndefined)), tr).
Proof.
  intros H. unfold Onvo.validateCurrency.
  rewrite (not_false_true _ (fun E => H (proj1 (is_str_known_currency v) E))).
  apply (refusal_thrown (js rt) v
           (fun received =>
              OnvoError
                ("currency must be " ++ dq ++ "USD" ++ dq ++ " or " ++ dq ++ "CRC"
                   ++ dq ++ " (received " ++ dq ++ received ++ dq ++ ")")
                None VUndefined)).
Qed.

Lemma onvo_validateUrl_bad rt v field tr :
  refused_url v ->
  Onvo.validateUrl rt v field tr
  = (inl (OnvoError (url_message rt field v) None VUndefined), tr).
Proof.
  intros R.
  assert (C : converts (js rt) v = true).
  { destruct R as [F|(s & -> & _)]; [apply falsy_converts, F|reflexivity]. }
  assert (T : forall t : list Call,
            (received <- lift (ToString (js rt) v) ;;
             @throw unit
               (OnvoError (field ++ " must be a valid URL (received " ++ dq
                            ++ received ++ dq ++ ")") None VUndefined)) t
            = (inl (OnvoError (url_message rt field v) None VUndefined), t)).
  { intros t.
    rewrite (refusal_thrown (js rt) v
               (fun received =>
                  OnvoError (field ++ " must be a valid URL (received " ++ dq
                               ++ received ++ dq ++ ")") None VUndefined)).
    rewrite (refusal_converts _ _ _ C). reflexivity. }
  unfold Onvo.validateUrl. cbv zeta.
  destruct R as [F|(s & -> & Hs)].
  - rewrite F. apply T.
  - destruct (truthy (VStr s)); [|apply T].
    cbn [negb]. unfold bind at 1. unfold lift at 1. cbn [startsWith].
    rewrite Hs. apply T.
Qed.

(** X18.  The verdicts of [validateUrl], the same in both clients: a
    string that starts with http passes; a falsy value and any other string
    get the error that names the field; a truthy value that is no string (a
    number, true, an array, an object) makes the check itself throw a
    TypeError, since it has no [startsWith]. *)
Theorem validateUrl_verdicts rt v field tr :
  let refused :=
    field ++ " must be a valid URL (received " ++ dq ++ text_of (js rt) v
      ++ dq ++ ")" in
  (http_url v ->
   Tilopay.validateUrl rt v field tr = (inr tt, tr)
   /\ Onvo.validateUrl rt v field tr = (inr tt, tr))
  /\ (truthy v = false \/ (exists s, v = VStr s /\ String.prefix "http" s = false) ->
      Tilopay.validateUrl rt v field tr
      = (inl (TilopayError refused None VUndefined), tr)
      /\ Onvo.validateUrl rt v field tr
         = (inl (OnvoError refused None VUndefined), tr))
  /\ (truthy v = true -> (forall s, v <> VStr s) ->
      Tilopay.validateUrl rt v field tr
      = (inl (TypeError (msg_not_a_function (js rt) v "startsWith")), tr)
      /\ Onvo.validateUrl rt v field tr
         = (inl (TypeError (msg_not_a_function (js rt) v "startsWith")), tr)).
Proof.
  intros refused. split; [|split].
  - intros H. split; [apply tilopay_validateUrl_ok | apply onvo_validateUrl_ok];
      exact H.
  - intros R. split.
    + apply (tilopay_validateUrl_bad rt v field tr R).
    + apply (onvo_validateUrl_bad rt v field tr R).
  - intros T NS. unfold Tilopay.validateUrl, Onvo.validateUrl. cbv zeta. rewrite T.
    unfold bind, lift.
    destruct v as [| | | |s| |]; try (split; reflexivity).
    exfalso. exact (NS s eq_refl).
Qed.

Lemma validateUrl_verdicts_witness :
  let rt := Example.runtime Example.configured [] in
  Tilopay.validateUrl rt (Example.num 7) "success_url" []
  = (inl (TypeError "value.startsWith is not a function"), []).
Proof.
  intros rt.
  destruct (validateUrl_verdicts rt (Example.num 7) "success_url" [])
    as (_ & _ & H).
  destruct (H eq_refl) as [E _]; [intros s; discriminate|exact E].
Defined.

(* ================================================================== *)
(** * Beyond the claims: what goes on the wire *)
(* ================================================================== *)

Lemma tilopay_calls_or_silence rt p :
  Config.tilopayConfig_secretKey rt = EmptyString ->
  calls_of (Tilopay.createPaymentIntent rt p) = []
  /\ calls_of (Tilopay.createSubscription rt p) = [].
Proof.
  intros K. split; apply invalid_means_no_call.
  - destruct (tilopay_unconfigured_createPaymentIntent rt p [] K) as (e & E & _).
    eauto.
  - destruct (tilopay_unconfigured_createSubscription rt p [] K) as (e & E & _).
    eauto.
Qed.

Lemma onvo_calls_or_silence rt p :
  Config.onvoConfig_secretKey rt = EmptyString ->
  calls_of (Onvo.createPaymentIntent rt p) = []
  /\ calls_of (Onvo.createSubscription rt p) = [].
Proof.
  intros K. split; apply invalid_means_no_call.
  - destruct (onvo_unconfigured_createPaymentIntent rt p [] K) as (e & E & _).
    eauto.
  - destruct (onvo_unconfigured_createSubscription rt p [] K) as (e & E & _).
    eauto.
Qed.

(** X19.  Every call that an operation of a client makes is a POST with a
    JSON content type to a URL under the base URL of that provider, and it
    carries the secret of that provider as a bearer token, which is then not
    empty: no call leaves without a credential, and no secret goes to the
    other provider. *)
Theorem every_call_carries_its_credential rt p :
  let tilopay_ok c :=
    c_method c = "POST" /\ c_contentType c = "application/json"
    /\ Config.tilopayConfig_secretKey rt <> EmptyString
    /\ c_authorization c = "Bearer " ++ Config.tilopayConfig_secretKey rt
    /\ exists path, c_url c = Config.tilopayConfig_baseUrl rt ++ path in
  let onvo_ok c :=
    c_method c = "POST" /\ c_contentType c = "application/json"
    /\ Config.onvoConfig_secretKey rt <> EmptyString
    /\ c_authorization c = "Bearer " ++ Config.onvoConfig_secretKey rt
    /\ exists path, c_url c = "https://api.onvopay.com/v1" ++ path in
  Forall tilopay_ok (calls_of (Tilopay.createPaymentIntent rt p))
  /\ Forall tilopay_ok (calls_of (Tilopay.createSubscription rt p))
  /\ Forall onvo_ok (calls_of (Onvo.createPaymentIntent rt p))
  /\ Forall onvo_ok (calls_of (Onvo.createSubscription rt p)).
Proof.
  intros tilopay_ok onvo_ok.
  assert (T : Forall tilopay_ok (calls_of (Tilopay.createPaymentIntent rt p))
              /\ Forall tilopay_ok (calls_of (Tilopay.createSubscription rt p))).
  { destruct (String.eqb_spec (Config.tilopayConfig_secretKey rt) EmptyString) as [K|N].
    - destruct (tilopay_calls_or_silence rt p K) as [-> ->]. split; constructor.
    - split; apply emits_calls_of;
        [apply tilopay_createPaymentIntent_emits | apply tilopay_createSubscription_emits];
        unfold tilopay_ok; simpl; eauto 10. }
  assert (O : Forall onvo_ok (calls_of (Onvo.createPaymentIntent rt p))
              /\ Forall onvo_ok (calls_of (Onvo.createSubscription rt p))).
  { destruct (String.eqb_spec (Config.onvoConfig_secretKey rt) EmptyString) as [K|N].
    - destruct (onvo_calls_or_silence rt p K) as [-> ->]. split; constructor.
    - split; apply emits_calls_of;
        [apply onvo_createPaymentIntent_emits | apply onvo_createSubscription_emits];
        intros; unfold onvo_ok; simpl; eauto 10. }
  tauto.
Qed.

(** The calls of the ONVO operations go to the ONVO base URL. *)
Lemma onvo_operations_call_onvo rt p :
  let to_onvo c := exists path, c_url c = Config.onvoConfig_baseUrl ++ path in
  Forall to_onvo (calls_of (Onvo.createPaymentIntent rt p))
  /\ Forall to_onvo (calls_of (Onvo.createSubscription rt p)).
Proof.
  intros to_onvo. split; apply emits_calls_of;
    [apply onvo_createPaymentIntent_emits | apply onvo_createSubscription_emits];
    intros; unfold to_onvo; simpl; eauto.
Qed.

(** X20.  Whatever the form holds, a request that the page posts to
    /api/generate never reaches TiloPay: the page posts nothing when the
    provider is 'tilopay', and every call the route makes for a posted request
    goes to the ONVO base URL. *)
Theorem page_requests_reach_onvo_only rt origin form :
  (Page.provider form = "tilopay" ->
   Page.handleSubmit (js rt) origin form = None)
  /\ (forall body,
        Page.handleSubmit (js rt) origin form = Some body ->
        Forall (fun c => exists path, c_url c = "https://api.onvopay.com/v1" ++ path)
          (calls_of (GenerateRoute.POST rt (Some body)))).
Proof.
  split.
  - intros E. unfold Page.handleSubmit. rewrite E.
    destruct (_ || _); reflexivity.
  - intros body Hs. unfold Page.handleSubmit in Hs.
    destruct (_ || _); [discriminate Hs|].
    destruct (String.eqb (Page.provider form) "tilopay") eqn:Ep; [discriminate Hs|].
    injection Hs as <-.
    match goal with
    | |- Forall _ (calls_of (GenerateRoute.POST rt (Some ?b))) =>
        destruct (generate_calls rt b) as [E|E]; rewrite E; [constructor|];
        unfold generate_dispatch; simpl prop; unfold is_str at 1; rewrite Ep
    end.
    destruct (is_str _ _);
      [apply (proj2 (onvo_operations_call_onvo rt _))
      |apply (proj1 (onvo_operations_call_onvo rt _))].
Qed.

(* ================================================================== *)
(** * Beyond the claims: the create-link route and the answers *)
(* ================================================================== *)

(** X21.  [validateBody] accepts exactly the JSON objects whose [amount]
    is a finite number above zero, whose [currency] is USD or CRC, whose
    [isRecurring] is a boolean and whose [description] is absent or a string.
    What it returns holds the amount, the currency and the flag as given, and
    the description trimmed, or undefined when nothing is left of it. *)
Theorem validateBody_accepts_exactly rt raw tr :
  ((exists b, CreateLinkRoute.validateBody rt raw tr = (inr b, tr))
   <-> exists props n isRecurring,
         raw = VObj props
         /\ lookup "amount" props = VNum n
         /\ num_isFinite n = true /\ num_le_zero n = false
         /\ known_currency (lookup "currency" props)
         /\ lookup "isRecurring" props = VBool isRecurring
         /\ (lookup "description" props = VUndefined
             \/ exists d, lookup "description" props = VStr d))
  /\ (forall b tr',
        CreateLinkRoute.validateBody rt raw tr = (inr b, tr') ->
        tr' = tr
        /\ prop raw "amount" = VNum (CreateLinkRoute.body_amount b)
        /\ prop raw "currency" = CreateLinkRoute.body_currency b
        /\ prop raw "isRecurring" = VBool (CreateLinkRoute.body_isRecurring b)
        /\ (CreateLinkRoute.body_description b = VUndefined
            \/ exists d,
                 prop raw "description" = VStr d
                 /\ String_trim (js rt) d <> EmptyString
                 /\ CreateLinkRoute.body_description b
                    = VStr (String_trim (js rt) d))).
Proof.
  split.
  - split.
    + intros [b E]. unfold CreateLinkRoute.validateBody in E.
      destruct raw as [| | | | | |props]; try discriminate E.
      destruct (lookup "amount" props) as [| | |n| | |] eqn:Ea; try discriminate E.
      destruct (num_isFinite n) eqn:Ef; simpl in E; [|discriminate E].
      destruct (num_le_zero n) eqn:El; simpl in E; [discriminate E|].
      destruct (negb (is_str (lookup "currency" props) "USD")
                && negb (is_str (lookup "currency" props) "CRC")) eqn:Ec;
        [discriminate E|].
      apply is_str_known_currency in Ec.
      destruct (lookup "isRecurring" props) as [| |r| | | |] eqn:Er;
        try discriminate E.
      exists props, n, r. repeat (split; [solve [auto]|]).
      destruct (lookup "description" props) as [| | | |d| |];
        try discriminate E; eauto.
    + intros (props & n & r & -> & Ea & Ef & El & Ec & Er & Ed).
      unfold CreateLinkRoute.validateBody. rewrite Ea, Ef, El, Er. simpl.
      apply is_str_known_currency in Ec. rewrite Ec.
      destruct Ed as [-> | [d ->]]; eexists; reflexivity.
  - intros b tr' E. unfold CreateLinkRoute.validateBody in E.
    destruct raw as [| | | | | |props]; try discriminate E. simpl prop.
    destruct (lookup "amount" props) as [| | |n| | |]; try discriminate E.
    destruct (negb (num_isFinite n) || num_le_zero n); [discriminate E|].
    destruct (_ && _); [discriminate E|].
    destruct (lookup "isRecurring" props) as [| |r| | | |]; try discriminate E.
    destruct (lookup "description" props) as [| | | |d| |]; try discriminate E;
      injection E as <- <-; simpl; repeat (split; [reflexivity|]); auto.
    unfold or_else. simpl.
    destruct (String.eqb_spec (String_trim (js rt) d) EmptyString); simpl; eauto.
Qed.

Lemma create_link_dispatch_bad_amount rt b tr :
  ~ positive_integer (amountInCents rt (CreateLinkRoute.body_amount b)) ->
  create_link_dispatch rt b tr
  = (inl (TilopayError
            (amount_message rt (amountInCents rt (CreateLinkRoute.body_amount b)))
            None VUndefined), tr).
Proof.
  intros H. unfold create_link_dispatch.
  destruct (CreateLinkRoute.body_isRecurring b);
    [apply tilopay_createSubscription_bad_amount
    |apply tilopay_createPaymentIntent_bad_amount]; exact H.
Qed.

(** X22.  An amount that [validateBody] accepts can still round to no
    positive number of centavos (anything below half a centavo rounds to 0).
    The create-link route then answers 500 with the amount error of the
    client, not 400, and calls nothing. *)
Theorem create_link_amount_that_rounds_away rt raw b tr :
  CreateLinkRoute.validateBody rt raw tr = (inr b, tr) ->
  ~ positive_integer (amountInCents rt (CreateLinkRoute.body_amount b)) ->
  CreateLinkRoute.POST rt (Some raw) tr
  = (inr (create_link_failure 500
            (amount_message rt (amountInCents rt (CreateLinkRoute.body_amount b)))),
     tr).
Proof.
  intros Vb H. rewrite (create_link_POST_validated rt raw b tr Vb).
  erewrite try_catch_inl.
  2:{ apply bind_inl, create_link_dispatch_bad_amount, H. }
  reflexivity.
Qed.

Lemma create_link_amount_that_rounds_away_witness :
  let rt := Example.runtime Example.configured [] in
  let raw := VObj [("amount", VNum (Fin (1 # 1000))); ("currency", VStr "USD");
                   ("isRecurring", VBool false)] in
  run (CreateLinkRoute.POST rt (Some raw))
  = (inr (create_link_failure 500
            "amount must be a positive integer in centavos (received 0). Example: $10.00 → 1000"),
     []).
Proof.
  intros rt raw.
  pose (b := {| CreateLinkRoute.body_amount := Fin (1 # 1000);
                CreateLinkRoute.body_currency := VStr "USD";
                CreateLinkRoute.body_description := VUndefined;
                CreateLinkRoute.body_isRecurring := false |}).
  unfold run.
  rewrite (create_link_amount_that_rounds_away rt raw b [] eq_refl).
  - reflexivity.
  - intros H. apply amount_test_spec in H. discriminate H.
Defined.

(** X23.  What the routes do with the answer of the provider: the [url] of
    the body handed back by the client goes into the response unchanged,
    with the status 200; a body that is the JSON [null] makes reading [url]
    throw, and the route answers 500. *)
Theorem routes_hand_back_the_url rt tr :
  (forall body result tr',
     nullish body = false ->
     existsb (fun k => negb (truthy (prop body k))) required_fields = false ->
     generate_dispatch rt body tr = (inr result, tr') ->
     GenerateRoute.POST rt (Some body) tr
     = (inr (if nullish result
             then generate_failure 500
                    (msg_read_of_nullish (js rt) result "url")
             else NextResponse_json (VObj [("url", prop result "url")]) 200),
        tr'))
  /\ (forall raw b result tr',
        CreateLinkRoute.validateBody rt raw tr = (inr b, tr) ->
        create_link_dispatch rt b tr = (inr result, tr') ->
        CreateLinkRoute.POST rt (Some raw) tr
        = (inr (if nullish result
                then create_link_failure 500
                       (msg_read_of_nullish (js rt) result "url")
                else NextResponse_json
                       (VObj [("success", VBool true);
                              ("url", prop result "url")]) 200),
           tr')).
Proof.
  split.
  - intros body result tr' Hb Hm D.
    rewrite (generate_POST_readable rt body tr Hb), Hm.
    unfold try_catch, bind. rewrite D. unfold lift.
    destruct (nullish result) eqn:Hr.
    + rewrite (get_nullish _ _ _ Hr). reflexivity.
    + rewrite (get_prop _ _ _ Hr). reflexivity.
  - intros raw b result tr' Vb D.
    rewrite (create_link_POST_validated rt raw b tr Vb).
    unfold try_catch, bind. rewrite D. unfold lift.
    destruct (nullish result) eqn:Hr.
    + rewrite (get_nullish _ _ _ Hr). reflexivity.
    + rewrite (get_prop _ _ _ Hr). reflexivity.
Qed.

(* ================================================================== *)
(** * Beyond the claims: a subscription sequence that stops *)
(* ================================================================== *)

Lemma lift_get_nullish rt v k (tr : list Call) :
  nullish v = true ->
  lift (get (js rt) v k) tr
  = (inl (TypeError (msg_read_of_nullish (js rt) v k)), tr).
Proof. intros H. unfold lift. rewrite (get_nullish _ _ _ H). reflexivity. Qed.

Ltac throws_on_id H := rewrite (bind_inl _ _ _ _ _ (lift_get_nullish _ _ _ _ H)).

(** The subscription operation once its checks have passed. *)
Lemma onvo_createSubscription_checks_passed rt p r :
  valid_recurring p ->
  run (Onvo.createSubscription rt p) = r <->
  bind (Onvo.createCustomer rt)
    (fun customer =>
       product <- Onvo.createProduct rt (description p) ;;
       product_id <- lift (get (js rt) product "id") ;;
       price <- Onvo.createPrice rt product_id (amount p) (currency p) (interval p) ;;
       customer_id <- lift (get (js rt) customer "id") ;;
       price_id <- lift (get (js rt) price "id") ;;
       Onvo.createSubscriptionRequest rt customer_id price_id ;;
       price_id' <- lift (get (js rt) price "id") ;;
       session <- Onvo.createCheckoutSession rt
                    (VArr [VObj [("priceId", price_id');
                                 ("quantity", VNum (of_Z 1))]])
                    (success_url p) (cancel_url p) ;;
       session_url <- lift (get (js rt) session "url") ;;
       ret (VObj [("url", session_url)])) [] = r.
Proof.
  intros ((Ha & Hc & Hs & Hx) & Hi). unfold run, Onvo.createSubscription.
  rewrite (bind_inr _ _ _ _ _ (onvo_validateAmount_ok rt _ [] Ha)).
  rewrite (bind_inr _ _ _ _ _ (onvo_validateCurrency_ok rt _ [] Hc)).
  rewrite (bind_inr _ _ _ _ _ (onvo_validateInterval_ok rt _ [] Hi)).
  rewrite (bind_inr _ _ _ _ _ (onvo_validateUrl_ok rt _ _ [] Hs)).
  rewrite (bind_inr _ _ _ _ _ (onvo_validateUrl_ok rt _ _ [] Hx)).
  reflexivity.
Qed.

(** X24.  The subscription sequence of the ONVO client stops at the first
    call that fails: the calls made are those up to it, in the order
    Customer, Product, Price, Subscription, CheckoutSession, no later call is
    made, and the error of the failed call is the result.  Nothing is
    retried and nothing created earlier is removed. *)
Theorem subscription_sequence_stops_at_first_failure rt p :
  valid_recurring p ->
  Config.onvoConfig_secretKey rt <> EmptyString ->
  let b1 := onvo_customer_payload in
  let c1 := onvo_call rt "/customers" b1 in
  let b2 := onvo_product_payload p in
  let c2 := onvo_call rt "/products" b2 in
  (forall e, onvo_outcome rt [] "/customers" b1 = inl e ->
     run (Onvo.createSubscription rt p) = (inl e, [c1]))
  /\ (forall customer,
        onvo_outcome rt [] "/customers" b1 = inr customer ->
        (forall e, onvo_outcome rt [c1] "/products" b2 = inl e ->
           run (Onvo.createSubscription rt p) = (inl e, [c1; c2]))
        /\ (forall product,
              onvo_outcome rt [c1] "/products" b2 = inr product ->
              nullish product = false ->
              let b3 := onvo_recurring_price_payload (prop product "id") p in
              let c3 := onvo_call rt "/prices" b3 in
              (forall e, onvo_outcome rt [c1; c2] "/prices" b3 = inl e ->
                 run (Onvo.createSubscription rt p) = (inl e, [c1; c2; c3]))
              /\ (forall price,
                    onvo_outcome rt [c1; c2] "/prices" b3 = inr price ->
                    nullish customer = false ->
                    nullish price = false ->
                    let b4 := onvo_subscription_payload
                                (prop customer "id") (prop price "id") in
                    let c4 := onvo_call rt "/subscriptions" b4 in
                    (forall e,
                       onvo_outcome rt [c1; c2; c3] "/subscriptions" b4 = inl e ->
                       run (Onvo.createSubscription rt p)
                       = (inl e, [c1; c2; c3; c4]))
                    /\ (forall subscription e,
                          onvo_outcome rt [c1; c2; c3] "/subscriptions" b4
                          = inr subscription ->
                          let b5 := onvo_checkout_payload (prop price "id") p in
                          let c5 := onvo_call rt
                                      "/checkout/sessions/one-time-link" b5 in
                          onvo_outcome rt [c1; c2; c3; c4]
                            "/checkout/sessions/one-time-link" b5 = inl e ->
                          run (Onvo.createSubscription rt p)
                          = (inl e, [c1; c2; c3; c4; c5]))))).
Proof.
  intros V N b1 c1 b2 c2.
  split.
  - intros e O1. apply (onvo_createSubscription_checks_passed rt p _ V).
    unfold Onvo.createCustomer. onvo_answers O1. reflexivity.
  - intros customer O1. split.
    + intros e O2. apply (onvo_createSubscription_checks_passed rt p _ V).
      unfold Onvo.createCustomer. onvo_answers O1.
      unfold Onvo.createProduct. onvo_answers O2. reflexivity.
    + intros product O2 Hproduct b3 c3. split.
      * intros e O3. apply (onvo_createSubscription_checks_passed rt p _ V).
        unfold Onvo.createCustomer. onvo_answers O1.
        unfold Onvo.createProduct. onvo_answers O2. reads_id Hproduct.
        unfold Onvo.createPrice. onvo_answers O3. reflexivity.
      * intros price O3 Hcustomer Hprice b4 c4. split.
        -- intros e O4. apply (onvo_createSubscription_checks_passed rt p _ V).
           unfold Onvo.createCustomer. onvo_answers O1.
           unfold Onvo.createProduct. onvo_answers O2. reads_id Hproduct.
           unfold Onvo.createPrice. onvo_answers O3.
           reads_id Hcustomer. reads_id Hprice.
           unfold Onvo.createSubscriptionRequest. onvo_answers O4. reflexivity.
        -- intros subscription e O4 b5 c5 O5.
           apply (onvo_createSubscription_checks_passed rt p _ V).
           unfold Onvo.createCustomer. onvo_answers O1.
           unfold Onvo.createProduct. onvo_answers O2. reads_id Hproduct.
           unfold Onvo.createPrice. onvo_answers O3.
           reads_id Hcustomer. reads_id Hprice.
           unfold Onvo.createSubscriptionRequest. onvo_answers O4.
           reads_id Hprice.
           unfold Onvo.createCheckoutSession. onvo_answers O5. reflexivity.
Qed.

Lemma subscription_sequence_stops_at_first_failure_witness :
  let rt := Example.runtime Example.configured
              [Example.ok_json (VObj [("id", VStr "cus_1")]);
               Example.ok_json (VObj [("id", VStr "prod_1")]);
               Example.status_json 503 "Service Unavailable"
                 (VObj [("message", VStr "down")])] in
  let p := Example.params (Example.num 550) "CRC" (VStr "month") in
  run (Onvo.createSubscription rt p)
  = (inl (OnvoError "ONVO API error (503): down" (Some 503%Z) VUndefined),
     [onvo_call rt "/customers" onvo_customer_payload;
      onvo_call rt "/products" (onvo_product_payload p);
      onvo_call rt "/prices" (onvo_recurring_price_payload (VStr "prod_1") p)]).
Proof.
  intros rt p.
  assert (N : Config.onvoConfig_secretKey rt <> EmptyString) by discriminate.
  assert (V : valid_recurring p).
  { repeat split.
    - exists (inject_Z 550), 550%Z. repeat split; reflexivity.
    - right; reflexivity.
    - eexists; split; reflexivity.
    - eexists; split; reflexivity.
    - left; reflexivity. }
  destruct (subscription_sequence_stops_at_first_failure rt p V N) as (_ & H).
  destruct (H _ eq_refl) as (_ & H2).
  destruct (H2 _ eq_refl eq_refl) as (H3 & _).
  exact (H3 _ eq_refl).
Defined.

(** X25.  A 2xx answer whose body is the JSON [null] is not an error for
    the helper; the sequence breaks where an identifier is read from it, with
    a TypeError.  In the one-time sequence a null Product stops it after one
    call.  In the subscription sequence the identifier of the Customer is
    read only for the fourth call: a null Customer is noticed after Product
    and Price have been created. *)
Theorem null_body_breaks_where_it_is_read rt p :
  Config.onvoConfig_secretKey rt <> EmptyString ->
  (valid_one_time p ->
   forall product,
     onvo_outcome rt [] "/products" (onvo_product_payload p) = inr product ->
     nullish product = true ->
     run (Onvo.createPaymentIntent rt p)
     = (inl (TypeError (msg_read_of_nullish (js rt) product "id")),
        [onvo_call rt "/products" (onvo_product_payload p)]))
  /\ (valid_recurring p ->
      let c1 := onvo_call rt "/customers" onvo_customer_payload in
      let c2 := onvo_call rt "/products" (onvo_product_payload p) in
      forall customer product price,
        onvo_outcome rt [] "/customers" onvo_customer_payload = inr customer ->
        nullish customer = true ->
        onvo_outcome rt [c1] "/products" (onvo_product_payload p) = inr product ->
        nullish product = false ->
        let b3 := onvo_recurring_price_payload (prop product "id") p in
        onvo_outcome rt [c1; c2] "/prices" b3 = inr price ->
        run (Onvo.createSubscription rt p)
        = (inl (TypeError (msg_read_of_nullish (js rt) customer "id")),
           [c1; c2; onvo_call rt "/prices" b3])).
Proof.
  intros N. split.
  - intros (Ha & Hc & Hs & Hx) product O1 Hproduct.
    unfold run, Onvo.createPaymentIntent.
    rewrite (bind_inr _ _ _ _ _ (onvo_validateAmount_ok rt _ [] Ha)).
    rewrite (bind_inr _ _ _ _ _ (onvo_validateCurrency_ok rt _ [] Hc)).
    rewrite (bind_inr _ _ _ _ _ (onvo_validateUrl_ok rt _ _ [] Hs)).
    rewrite (bind_inr _ _ _ _ _ (onvo_validateUrl_ok rt _ _ [] Hx)).
    unfold Onvo.createProduct. onvo_answers O1.
    throws_on_id Hproduct. reflexivity.
  - intros V c1 c2 customer product price O1 Hcustomer O2 Hproduct b3 O3.
    apply (onvo_createSubscription_checks_passed rt p _ V).
    unfold Onvo.createCustomer. onvo_answers O1.
    unfold Onvo.createProduct. onvo_answers O2. reads_id Hproduct.
    unfold Onvo.createPrice. onvo_answers O3.
    throws_on_id Hcustomer. reflexivity.
Qed.

Lemma null_body_breaks_where_it_is_read_witness :
  let rt := Example.runtime Example.configured
              [Example.ok_json VNull;
               Example.ok_json (VObj [("id", VStr "prod_1")]);
               Example.ok_json (VObj [("id", VStr "price_1")])] in
  let p := Example.params (Example.num 550) "CRC" (VStr "month") in
  List.length (calls_of (Onvo.createSubscription rt p)) = 3%nat
  /\ result_of (Onvo.createSubscription rt p)
     = inl (TypeError "Cannot read properties of null (reading id)").
Proof.
  intros rt p.
  assert (N : Config.onvoConfig_secretKey rt <> EmptyString) by discriminate.
  assert (V : valid_recurring p).
  { repeat split.
    - exists (inject_Z 550), 550%Z. repeat split; reflexivity.
    - right; reflexivity.
    - eexists; split; reflexivity.
    - eexists; split; reflexivity.
    - left; reflexivity. }
  destruct (null_body_breaks_where_it_is_read rt p N) as (_ & H).
  unfold calls_of, result_of.
  rewrite (H V VNull _ _ eq_refl eq_refl eq_refl eq_refl eq_refl).
  split; reflexivity.
Defined.

(* ================================================================== *)
(** * Beyond the claims: which error is reported *)
(* ================================================================== *)

(** X26.  The checks of [createSubscription] run in a fixed order, the same
    in both clients, and the first one that fails decides the error: a
    refused currency is reported whatever the interval and the URLs are (with
    the currency error when the currency can be written into its message,
    with the TypeError of that conversion when it cannot), the error for
    [success_url] only once amount, currency and interval have passed, the
    error for [cancel_url] only once [success_url] has passed too.  (The
    amount comes first of all, and the interval third.) *)
Theorem first_failing_check_decides rt p tr :
  positive_integer (amount p) ->
  (~ known_currency (currency p) ->
   (converts (js rt) (currency p) = true ->
    Tilopay.createSubscription rt p tr
    = (inl (TilopayError (currency_message rt (currency p)) None VUndefined), tr)
    /\ Onvo.createSubscription rt p tr
       = (inl (OnvoError (currency_message rt (currency p)) None VUndefined), tr))
   /\ (converts (js rt) (currency p) = false ->
       Tilopay.createSubscription rt p tr
       = (inl (TypeError (msg_not_primitive (js rt))), tr)
       /\ Onvo.createSubscription rt p tr
          = (inl (TypeError (msg_not_primitive (js rt))), tr)))
  /\ (known_currency (currency p) -> known_interval (interval p) ->
      refused_url (success_url p) ->
      Tilopay.createSubscription rt p tr
      = (inl (TilopayError (url_message rt "success_url" (success_url p))
                None VUndefined), tr)
      /\ Onvo.createSubscription rt p tr
         = (inl (OnvoError (url_message rt "success_url" (success_url p))
                   None VUndefined), tr))
  /\ (known_currency (currency p) -> known_interval (interval p) ->
      http_url (success_url p) -> refused_url (cancel_url p) ->
      Tilopay.createSubscription rt p tr
      = (inl (TilopayError (url_message rt "cancel_url" (cancel_url p))
                None VUndefined), tr)
      /\ Onvo.createSubscription rt p tr
         = (inl (OnvoError (url_message rt "cancel_url" (cancel_url p))
                   None VUndefined), tr)).
Proof.
  intros Ha. split; [|split].
  - intros Hc.
    assert (T : Tilopay.createSubscription rt p tr
                = (inl (refusal (js rt) (currency p)
                          (TilopayError (currency_message rt (currency p))
                             None VUndefined)), tr)).
    { unfold Tilopay.createSubscription.
      rewrite (bind_inr _ _ _ _ _ (tilopay_validateAmount_ok rt _ tr Ha)).
      apply bind_inl, tilopay_validateCurrency_bad, Hc. }
    assert (O : Onvo.createSubscription rt p tr
                = (inl (refusal (js rt) (currency p)
                          (OnvoError (currency_message rt (currency p))
                             None VUndefined)), tr)).
    { unfold Onvo.createSubscription.
      rewrite (bind_inr _ _ _ _ _ (onvo_validateAmount_ok rt _ tr Ha)).
      apply bind_inl, onvo_validateCurrency_bad, Hc. }
    split.
    + intros C. rewrite (refusal_converts _ _ _ C) in T.
      rewrite (refusal_converts _ _ _ C) in O. auto.
    + intros E. rewrite (refusal_throws _ _ _ E) in T.
      rewrite (refusal_throws _ _ _ E) in O. auto.
  - intros Hc Hi Hs. split.
    + unfold Tilopay.createSubscription.
      rewrite (bind_inr _ _ _ _ _ (tilopay_validateAmount_ok rt _ tr Ha)).
      rewrite (bind_inr _ _ _ _ _ (tilopay_validateCurrency_ok rt _ tr Hc)).
      rewrite (bind_inr _ _ _ _ _ (tilopay_validateInterval_ok rt _ tr Hi)).
      apply bind_inl, tilopay_validateUrl_bad, Hs.
    + unfold Onvo.createSubscription.
      rewrite (bind_inr _ _ _ _ _ (onvo_validateAmount_ok rt _ tr Ha)).
      rewrite (bind_inr _ _ _ _ _ (onvo_validateCurrency_ok rt _ tr Hc)).
      rewrite (bind_inr _ _ _ _ _ (onvo_validateInterval_ok rt _ tr Hi)).
      apply bind_inl, onvo_validateUrl_bad, Hs.
  - intros Hc Hi Hs Hx. split.
    + unfold Tilopay.createSubscription.
      rewrite (bind_inr _ _ _ _ _ (tilopay_validateAmount_ok rt _ tr Ha)).
      rewrite (bind_inr _ _ _ _ _ (tilopay_validateCurrency_ok rt _ tr Hc)).
      rewrite (bind_inr _ _ _ _ _ (tilopay_validateInterval_ok rt _ tr Hi)).
      rewrite (bind_inr _ _ _ _ _ (tilopay_validateUrl_ok rt _ _ tr Hs)).
      apply bind_inl, tilopay_validateUrl_bad, Hx.
    + unfold Onvo.createSubscription.
      rewrite (bind_inr _ _ _ _ _ (onvo_validateAmount_ok rt _ tr Ha)).
      rewrite (bind_inr _ _ _ _ _ (onvo_validateCurrency_ok rt _ tr Hc)).
      rewrite (bind_inr _ _ _ _ _ (onvo_validateInterval_ok rt _ tr Hi)).
      rewrite (bind_inr _ _ _ _ _ (onvo_validateUrl_ok rt _ _ tr Hs)).
      apply bind_inl, onvo_validateUrl_bad, Hx.
Qed.

Lemma first_failing_check_decides_witness :
  let rt := Example.runtime Example.configured [] in
  let p := {| amount := Example.num 1000; currency := VStr "EUR";
              description := VUndefined; interval := VStr "week";
              success_url := VStr "ftp://shop.example/ok";
              cancel_url := VUndefined |} in
  run (Onvo.createSubscription rt p)
  = (inl (OnvoError (currency_message rt (VStr "EUR")) None VUndefined), []).
Proof.
  intros rt p.
  assert (Ha : positive_integer (amount p)).
  { exists (inject_Z 1000), 1000%Z. repeat split; reflexivity. }
  destruct (first_failing_check_decides rt p [] Ha) as (H & _).
  destruct H as [H _]; [intros [H|H]; discriminate H|].
  exact (proj2 (H eq_refl)).
Defined.
